(** * Classroom-management backend: authorization layer

    A shallow embedding of [src/server.js] and
    [src/middleware/authMiddleware.js].

    Conventions of the embedding.
    - A request body field or header is [option]: [None] is an absent
      ([undefined]/[null]) field, wherever the handler only tests the
      field with [!x].  The two fields a handler compares with
      [undefined] are a [Field], which keeps [null] apart from an absent
      field.  Text fields are strings and identifier fields are integers,
      except the one identifier a handler compares with [===], which is a
      [BodyId]: a JSON number or a JSON text.  Numeric route parameters
      are taken as already parsed, so [parseInt(userId)] is the identity
      on them.
    - The relational store is a record of tables, each a list of rows in
      insertion order with an auto-increment counter.  No schema is part of
      the repository, so tables carry exactly the columns the statements of
      [server.js] name and no further constraint; an absent bind parameter
      is SQL NULL.
    - [getConnection] can fail (the store is down); every handler then
      answers through its [catch] branch.  Statements on an open connection
      always answer.
    - Token signing and verification, password hashing, the collation by
      which the store compares and orders text and the integer the store
      reads a text parameter as are collaborators taken as parameters.
    - A handler runs in a small state-and-exception monad over the store
      and the trace of store accesses; [return res.status(..).json(..)]
      ends the run.  Requests are handled one at a time: the interleaving
      of two requests is outside the embedding. *)

From Stdlib Require Import ZArith List String Ascii Bool Lia.
From Stdlib Require Import Sorting.Sorted Sorting.Permutation DecimalString.
Import ListNotations.

Open Scope string_scope.
Open Scope list_scope.
Open Scope Z_scope.

(* ================================================================= *)
(** ** JavaScript values *)

Module Js.

(** The double-quote character, for messages that quote a value. *)
Definition dq : string := String (ascii_of_nat 34) EmptyString.

(** [String(n)] for an integer. *)
Definition toString (n : Z) : string := NilZero.string_of_int (Z.to_int n).

(** [!s] for a text field: absent or empty. *)
Definition falsy (s : option string) : bool :=
  match s with
    | None => true
    | Some s => (s =? EmptyString)%string
    end.

(** [!n] for a numeric field: absent or zero. *)
Definition falsyZ (n : option Z) : bool :=
  match n with
    | None => true
    | Some n => n =? 0
    end.

(** A body field as a comparison with [undefined] sees it: absent from
    the body, [null], or a value. *)
Inductive Field (A : Type) : Type :=
  | Absent
  | Null
  | Given (a : A).
Arguments Absent {A}.
Arguments Null {A}.
Arguments Given {A} _.

(** [x === undefined]: [null] is not [undefined]. *)
Definition undefined {A} (x : Field A) : bool :=
  match x with Absent => true | _ => false end.

(** The bind parameter a field makes: [null] is SQL NULL. *)
Definition bound {A} (x : Field A) : option A :=
  match x with Given a => Some a | _ => None end.

(** An identifier as the JSON body carries it: a number or a text. *)
Inductive BodyId : Type :=
  | IdNum (n : Z)
  | IdText (s : string).

(** [!id]: absent, the number zero or the empty text. *)
Definition falsyId (x : option BodyId) : bool :=
  match x with
    | None => true
    | Some (IdNum n) => n =? 0
    | Some (IdText s) => (s =? EmptyString)%string
    end.

(** [a === b] between a number and an identifier of the body: strict
    equality holds for the same number only, never for a text. *)
Definition same (a : Z) (b : option BodyId) : bool :=
  match b with
    | Some (IdNum n) => a =? n
    | _ => false
    end.

(** [s === v] between a text field and a literal. *)
Definition isText (s : option string) (v : string) : bool :=
  match s with Some x => (x =? v)%string | None => false end.

(** [roles.includes(r)]. *)
Definition includes (roles : list string) (r : string) : bool :=
  existsb (String.eqb r) roles.

(** White space removed by [String.prototype.trim] (the ASCII part). *)
Definition isSpace (c : ascii) : bool :=
  let n := nat_of_ascii c in
    ((n =? 32) || (n =? 9) || (n =? 10) || (n =? 11) || (n =? 12) || (n =? 13))%nat.

Fixpoint trimStart (s : string) : string :=
  match s with
    | EmptyString => EmptyString
    | String c rest => if isSpace c then trimStart rest else s
    end.

(** [s.trim() === ''] : only the leading white space decides it. *)
Definition trimIsEmpty (s : string) : bool :=
  (trimStart s =? EmptyString)%string.

(** JSON documents sent as response bodies. *)
#[warnings="-register-all"]
Inductive Json : Type :=
  | JNull
  | JBool (b : bool)
  | JNum (n : Z)
  | JStr (s : string)
  | JArr (items : list Json)
  | JObj (fields : list (string * Json)).

Definition JOptStr (s : option string) : Json :=
  match s with Some s => JStr s | None => JNull end.

Definition JOptNum (n : option Z) : Json :=
  match n with Some n => JNum n | None => JNull end.

(** [{ message: m }] *)
Definition message (m : string) : Json := JObj [("message", JStr m)].

End Js.
Import Js.

(* ================================================================= *)
(** ** The relational store *)

Module Db.

(** SQL equality of a column with a bind parameter; NULL equals nothing. *)
Definition eqP (col : Z) (p : option Z) : bool :=
  match p with Some v => col =? v | None => false end.

Definition eqPP (col p : option Z) : bool :=
  match col, p with Some c, Some v => c =? v | _, _ => false end.

Module Users.
Record row := mk
  { id : Z; nom : string; prenom : string; email : string;
    motDePasse : string; role : string }.
End Users.

Module Classes.
Record row := mk
  { id : Z; nom : string; description : option string; code : string;
    professeur_id : Z }.
End Classes.

Module UserClasses.
Record row := mk
  { id : Z; user_id : Z; class_id : Z; role_dans_classe : string }.
End UserClasses.

Module ClassMembers.
Record row := mk { class_id : Z; user_id : Z }.
End ClassMembers.

Module Announcements.
Record row := mk
  { id : Z; class_id : option Z; professeur_id : Z; titre : string;
    contenu : string; created_at : Z }.
End Announcements.

Module Documentations.
Record row := mk
  { id : Z; class_id : option Z; professeur_id : Z; titre : string;
    description : option string; file_path : option string;
    created_at : Z }.
End Documentations.

Module Tasks.
Record row := mk
  { id : Z; class_id : option Z; professeur_id : Z; titre : string;
    description : option string; date_limite : Z; created_at : Z }.
End Tasks.

Module Submissions.
Record row := mk
  { id : Z; task_id : Z; student_id : Z; file_path : option string;
    content : option string; submitted_at : Z; grade : option Z;
    correction_feedback : option string }.
End Submissions.

Module Messages.
Record row := mk
  { id : Z; sender_id : Z; receiver_id : option Z; class_id : option Z;
    content : string; message_type : string; created_at : Z }.
End Messages.

Module Projets.
Record row := mk
  { id : Z; class_id : option Z; titre : option string;
    description : option string; date_debut : option Z;
    date_fin : option Z; statut : option string }.
End Projets.

Module Groupes.
Record row := mk
  { id : Z; projet_id : option Z; nom_groupe : option string;
    description : option string }.
End Groupes.

Module MembresGroupe.
Record row := mk { group_id : Z; user_id : option Z }.
End MembresGroupe.

Module GroupMembers.
Record row := mk { groupId : Z; userId : Z; isGroupCoordinator : bool }.
End GroupMembers.

(** A table: its rows in insertion order and the next AUTO_INCREMENT
      value. *)
Record Table (R : Type) := mkTable { rows : list R; auto_inc : Z }.
Arguments mkTable {R} _ _.
Arguments rows {R} _.
Arguments auto_inc {R} _.

Definition empty {R} : Table R := mkTable [] 1.

(** INSERT: the row is built from the generated id and appended. *)
Definition insert {R} (t : Table R) (mkrow : Z -> R) : Table R :=
  mkTable (rows t ++ [mkrow (auto_inc t)]) (auto_inc t + 1).

(** UPDATE ... WHERE: [affectedRows] is the number of matching rows. *)
Definition update {R} (t : Table R) (where_ : R -> bool) (set : R -> R)
    : Table R :=
  mkTable (map (fun r => if where_ r then set r else r) (rows t))
            (auto_inc t).

(** DELETE ... WHERE. *)
Definition delete {R} (t : Table R) (where_ : R -> bool) : Table R :=
  mkTable (filter (fun r => negb (where_ r)) (rows t)) (auto_inc t).

Definition affectedRows {R} (t : Table R) (where_ : R -> bool) : Z :=
    Z.of_nat (List.length (filter where_ (rows t))).

Record Store := mkStore
    { users : Table Users.row;
      classes : Table Classes.row;
      userClasses : Table UserClasses.row;
      classMembers : Table ClassMembers.row;
      announcements : Table Announcements.row;
      documentations : Table Documentations.row;
      tasks : Table Tasks.row;
      submissions : Table Submissions.row;
      messages : Table Messages.row;
      projets : Table Projets.row;
      groupes : Table Groupes.row;
      membresGroupe : Table MembresGroupe.row;
      groupMembers : Table GroupMembers.row }.

Definition emptyStore : Store :=
    mkStore empty empty empty empty empty empty empty empty empty empty
            empty empty empty.

Definition set_users (s : Store) t :=
    mkStore t (classes s) (userClasses s) (classMembers s) (announcements s)
            (documentations s) (tasks s) (submissions s) (messages s)
            (projets s) (groupes s) (membresGroupe s) (groupMembers s).
Definition set_classes (s : Store) t :=
    mkStore (users s) t (userClasses s) (classMembers s) (announcements s)
            (documentations s) (tasks s) (submissions s) (messages s)
            (projets s) (groupes s) (membresGroupe s) (groupMembers s).
Definition set_userClasses (s : Store) t :=
    mkStore (users s) (classes s) t (classMembers s) (announcements s)
            (documentations s) (tasks s) (submissions s) (messages s)
            (projets s) (groupes s) (membresGroupe s) (groupMembers s).
Definition set_announcements (s : Store) t :=
    mkStore (users s) (classes s) (userClasses s) (classMembers s) t
            (documentations s) (tasks s) (submissions s) (messages s)
            (projets s) (groupes s) (membresGroupe s) (groupMembers s).
Definition set_documentations (s : Store) t :=
    mkStore (users s) (classes s) (userClasses s) (classMembers s)
            (announcements s) t (tasks s) (submissions s) (messages s)
            (projets s) (groupes s) (membresGroupe s) (groupMembers s).
Definition set_tasks (s : Store) t :=
    mkStore (users s) (classes s) (userClasses s) (classMembers s)
            (announcements s) (documentations s) t (submissions s)
            (messages s) (projets s) (groupes s) (membresGroupe s)
            (groupMembers s).
Definition set_submissions (s : Store) t :=
    mkStore (users s) (classes s) (userClasses s) (classMembers s)
            (announcements s) (documentations s) (tasks s) t (messages s)
            (projets s) (groupes s) (membresGroupe s) (groupMembers s).
Definition set_messages (s : Store) t :=
    mkStore (users s) (classes s) (userClasses s) (classMembers s)
            (announcements s) (documentations s) (tasks s) (submissions s)
            t (projets s) (groupes s) (membresGroupe s) (groupMembers s).
Definition set_projets (s : Store) t :=
    mkStore (users s) (classes s) (userClasses s) (classMembers s)
            (announcements s) (documentations s) (tasks s) (submissions s)
            (messages s) t (groupes s) (membresGroupe s) (groupMembers s).
Definition set_groupes (s : Store) t :=
    mkStore (users s) (classes s) (userClasses s) (classMembers s)
            (announcements s) (documentations s) (tasks s) (submissions s)
            (messages s) (projets s) t (membresGroupe s) (groupMembers s).
Definition set_membresGroupe (s : Store) t :=
    mkStore (users s) (classes s) (userClasses s) (classMembers s)
            (announcements s) (documentations s) (tasks s) (submissions s)
            (messages s) (projets s) (groupes s) t (groupMembers s).

(** Order of a nullable column: NULL sorts before every value. *)
Definition leOpt {A} (le : A -> A -> bool) (a b : option A) : bool :=
  match a, b with
  | None, _ => true
  | Some _, None => false
  | Some x, Some y => le x y
  end.

(** ORDER BY: a stable insertion sort under the statement's order. *)
Section OrderBy.
Context {R : Type} (le : R -> R -> bool).

Fixpoint place (x : R) (l : list R) : list R :=
      match l with
      | [] => [x]
      | y :: l' => if le x y then x :: l else y :: place x l'
      end.

Fixpoint order_by (l : list R) : list R :=
      match l with
      | [] => []
      | x :: l' => place x (order_by l')
      end.
End OrderBy.

End Db.
Import Db.

(* ================================================================= *)
(** ** Requests, responses and collaborators *)

(** The identity carried by a token: [{ id, email, role }]. *)
Module Token.
Record payload := mk { id : Z; email : string; role : string }.
End Token.

(** The routes of [server.js], each with its route parameters and the
    fields its handler reads from [req.body].  [GET /api/classes/me] is
    registered twice; the first registration answers every request, so the
    second handler is never reached and has no route of its own. *)
Inductive Route : Type :=
| PostAuthRegister (nom prenom email password role : option string)
| PostAuthLogin (email motDePasse : option string)
| PostClasses (nom description : option string)
| GetClassesProfesseur
| GetClassesMe
| PostClassesJoin (code : option string)
| PostAnnouncements (class_id : option Z) (titre contenu : option string)
| GetAnnouncements (classId : Z)
| PostDocumentations (class_id : option Z)
    (titre description file_path : option string)
| GetDocumentations (classId : Z)
| PostTasks (class_id : option Z) (titre description : option string)
    (date_limite : option Z)
| GetTasksClass (classId : Z)
| PostTasksSubmit (taskId : Z) (file_path content : option string)
| GetTasksSubmissions (taskId : Z)
| PutSubmissionsGrade (submissionId : Z) (grade : Field Z)
    (feedback : Field string)
| GetSubmissions (submissionId : Z)
| GetUsersMeSubmissions
| PostMessages (receiver_id : option BodyId) (class_id : option Z)
    (content message_type : option string)
| GetMessagesPublicClass (classId : Z)
| GetMessagesPrivateMe
| GetUsersAll
| PostProjects (class_id : option Z) (titre description : option string)
    (date_debut date_fin : option Z)
| GetProjectsClass (classId : Z)
| PostGroups (projet_id : option Z) (nom_groupe description : option string)
| GetGroupsProject (projectId : Z)
| PostGroupsMembers (groupId : Z) (user_id_to_add : option Z)
| DeleteGroupsMembers (groupId userId : Z)
| GetClassesStudents (classId : Z)
| PutUsersRole (userId : Z) (role : option string)
| DeleteUsers (userId : Z)
| GetRoot.

(** A request: the [x-auth-token] header, [req.user] (unset until [auth]
    attaches the decoded token) and the route with its inputs. *)
Record Request := mkRequest
  { x_auth_token : option string;
    user : option Token.payload;
    route : Route }.

Definition request (token : option string) (r : Route) : Request :=
  mkRequest token None r.

Record Response := mkResponse { status : Z; body : Json }.

(** What the client observes: a response, or none (the handler never
    answers). *)
Inductive Outcome : Type :=
| Responded (r : Response)
| NoResponse.

(** The external collaborators: the token library ([jwt.sign] with the
    process secret and the one-hour validity, [jwt.verify], which fails on
    a malformed, expired or wrongly signed token), the credential hasher,
    the collation by which the store compares and orders text, and the
    integer the store reads a text as where a text parameter meets an
    integer column ([None] when it reads it as no integer). *)
Class Collaborators := mkCollaborators
  { jwt_sign : Token.payload -> string;
    jwt_verify : string -> option Token.payload;
    bcrypt_hash : string -> string -> string;
    bcrypt_compare : string -> string -> bool;
    collate : string -> string -> comparison;
    sql_number : string -> option Z }.

(** What the environment decides for one request: whether [getConnection]
    resolves, the store's CURRENT_TIMESTAMP, the salt [bcrypt.genSalt]
    yields and the successive results of [generateClassCode]. *)
Record Env := mkEnv
  { db_up : bool; now : Z; salt : string; codes : list string }.

(** One store access of a handler. *)
Inductive Call : Type :=
| Connect
| Execute (sql : string)
| EndConnection.

(** The state a handler runs in: the store, the accesses made so far and
    whether the handler's [connection] variable is set. *)
Record Run := mkRun
  { db : Store; calls : list Call; connection : bool }.

(** One step of a handler: it goes on with a value, has sent its response,
    has thrown, or waits for a class code that never comes. *)
Inductive Step (A : Type) : Type :=
| Next (a : A)
| Sent (r : Response)
| Thrown
| Starved.
Arguments Next {A} _.
Arguments Sent {A} _.
Arguments Thrown {A}.
Arguments Starved {A}.

Definition Handler (A : Type) : Type := Env -> Run -> Step A * Run.

Definition ret {A} (a : A) : Handler A := fun _ s => (Next a, s).

Definition bind {A B} (m : Handler A) (k : A -> Handler B) : Handler B :=
  fun e s =>
    match m e s with
    | (Next a, s') => k a e s'
    | (Sent r, s') => (Sent r, s')
    | (Thrown, s') => (Thrown, s')
    | (Starved, s') => (Starved, s')
    end.

Declare Scope handler_scope.
Delimit Scope handler_scope with handler.
Notation "x <- m ;; k" := (bind m (fun x => k))
  (at level 61, m at next level, right associativity) : handler_scope.
Notation "m ;; k" := (bind m (fun _ => k))
  (at level 61, right associativity) : handler_scope.
Open Scope handler_scope.

(** [res.status(code).json(body)], after which the handler is over. *)
Definition send {A} (code : Z) (b : Json) : Handler A :=
  fun _ s => (Sent (mkResponse code b), s).

Definition throw {A} : Handler A := fun _ s => (Thrown, s).

Definition starve {A} : Handler A := fun _ s => (Starved, s).

Definition ask : Handler Env := fun e s => (Next e, s).

(** [if (c) return ...;] *)
Definition when (c : bool) (m : Handler unit) : Handler unit :=
  if c then m else ret tt.

Definition log (c : Call) (s : Run) : Run :=
  mkRun (db s) (calls s ++ [c]) (connection s).

(** [connection = await getConnection()] *)
Definition getConnection : Handler unit :=
  fun e s =>
    if db_up e
    then (Next tt, mkRun (db s) (calls s ++ [Connect]) true)
    else (Thrown, log Connect s).

(** [await connection.execute(sql, params)] *)
Definition execute {A} (sql : string) (stmt : Store -> A * Store)
  : Handler A :=
  fun _ s =>
    let (a, st) := stmt (db s) in
    (Next a, mkRun st (calls s ++ [Execute sql]) (connection s)).

(** [finally { if (connection) connection.end(); }] *)
Definition finally (s : Run) : Run :=
  if connection s then log EndConnection s else s.

(** [try { body } catch (error) { handler } finally { ... }] *)
Definition try_catch_finally (body handler : Handler unit) : Handler unit :=
  fun e s =>
    match body e s with
    | (Thrown, s') => let (r, s'') := handler e s' in (r, finally s'')
    | (Starved, s') => (Starved, s')
    | (r, s') => (r, finally s')
    end.

(** A SELECT leaves the store as it is. *)
Definition select {R} (tbl : Store -> Table R) (where_ : R -> bool)
  : Store -> list R * Store :=
  fun st => (filter where_ (rows (tbl st)), st).

Definition reading {A} (q : Store -> A) : Store -> A * Store :=
  fun st => (q st, st).

(** [rows.length] *)
Definition len {A} (l : list A) : Z := Z.of_nat (List.length l).

(** The text of a field the handler has checked to be present. *)
Definition str (s : option string) : string :=
  match s with Some s => s | None => EmptyString end.

Definition num (n : option Z) : Z :=
  match n with Some n => n | None => 0 end.

(** Runs a middleware chain for one request against a store. *)
Definition serve (h : Handler unit) (e : Env) (st : Store)
  : Outcome * Store * list Call :=
  match h e (mkRun st [] false) with
  | (Sent r, s) => (Responded r, db s, calls s)
  | (_, s) => (NoResponse, db s, calls s)
  end.

(* ================================================================= *)
(** ** A small school, for running the handlers *)

Module Sample.

Definition ada : Token.payload := Token.mk 1 "ada@school.test" "Coordinateur".
Definition blaise : Token.payload := Token.mk 2 "blaise@school.test" "Professeur".
Definition carl : Token.payload := Token.mk 3 "carl@school.test" "Etudiant".
Definition dana : Token.payload := Token.mk 4 "dana@school.test" "Professeur".

(** Erin's token is still valid, but her account is gone. *)
Definition erin : Token.payload := Token.mk 5 "erin@school.test" "Coordinateur".

Definition sign (p : Token.payload) : string :=
  String.concat ":" [toString (Token.id p); Token.email p; Token.role p].

(** Only the tokens of the five known identities verify. *)
Definition verify (t : string) : option Token.payload :=
  find (fun p => (sign p =? t)%string) [ada; blaise; carl; dana; erin].

Definition hash (password salt : string) : string :=
  String.concat "$" [salt; password].

Definition compare (password hashed : string) : bool :=
  match index 0 "$" hashed with
  | Some i =>
      (substring (S i) (String.length hashed - S i) hashed =? password)%string
  | None => false
  end.

(** The store reads a decimal numeral as its number. *)
Definition number (s : string) : option Z :=
  option_map Z.of_int (NilEmpty.int_of_string s).

Definition ext : Collaborators :=
  mkCollaborators sign verify hash compare String.compare number.

Definition env : Env := mkEnv true 1000 "s4lt" ["ABC123"; "XYZ789"].

Definition down : Env := mkEnv false 1000 "s4lt" ["ABC123"; "XYZ789"].

Definition store : Store :=
  mkStore
    (mkTable
       [Users.mk 1 "Lovelace" "Ada" "ada@school.test" "s$a" "Coordinateur";
        Users.mk 2 "Pascal" "Blaise" "blaise@school.test" "s$b" "Professeur";
        Users.mk 3 "Gauss" "Carl" "carl@school.test" "s$c" "Etudiant";
        Users.mk 4 "Scott" "Dana" "dana@school.test" "s$d" "Professeur"]
       5)
    (mkTable [Classes.mk 10 "Logique" None "ABC123" 2] 11)
    (mkTable
       [UserClasses.mk 1 2 10 "Professeur"; UserClasses.mk 2 3 10 "Etudiant"]
       3)
    (mkTable [ClassMembers.mk 10 2; ClassMembers.mk 10 3] 1)
    empty
    empty
    (mkTable [Tasks.mk 20 (Some 10) 2 "Devoir" None 2000 900] 21)
    (mkTable [Submissions.mk 30 20 3 None (Some "v1") 950 None None] 31)
    empty
    (mkTable [Projets.mk 40 (Some 10) (Some "Projet") None None None None] 41)
    (mkTable [Groupes.mk 50 (Some 40) (Some "Equipe") None] 51)
    (mkTable [MembresGroupe.mk 50 (Some 3)] 1)
    empty.

End Sample.

(* ================================================================= *)
(** ** Middleware and route handlers *)

Section Server.
Context {ext : Collaborators}.

(** Equality and order of text inside a statement follow the collation. *)
Definition sameText (a b : string) : bool :=
  match collate a b with Eq => true | _ => false end.

Definition leText (a b : string) : bool :=
  match collate a b with Gt => false | _ => true end.

Definition eqS (col : string) (p : option string) : bool :=
  match p with Some v => sameText col v | None => false end.

(** *** [src/middleware/authMiddleware.js] *)

Definition auth (req : Request) (next : Request -> Handler unit)
  : Handler unit :=
  let token := x_auth_token req in
  if falsy token
  then send 401 (message "Aucun token, autorisation refusée")
  else
    match jwt_verify (str token) with
    | Some decoded =>
        next (mkRequest (x_auth_token req) (Some decoded) (route req))
    | None => send 401 (message "Token non valide")
    end.

Definition authorizeRole (roles : list string) (req : Request)
  (next : Request -> Handler unit) : Handler unit :=
  match user req with
  | None => send 403 (message "Accès non autorisé")
  | Some u =>
      if negb (includes roles (Token.role u))
      then send 403 (message "Accès non autorisé")
      else next req
  end.

(** A handler reads [req.user.id] and [req.user.role]; without [req.user]
    the read throws. *)
Definition withUser (h : Token.payload -> Handler unit) (req : Request)
  : Handler unit :=
  match user req with
  | Some u => h u
  | None => throw
  end.

(** *** [POST /api/auth/register] *)

Definition userJson (id : Z) (nom prenom email role : string) : Json :=
  JObj [("id", JNum id); ("nom", JStr nom); ("prenom", JStr prenom);
        ("email", JStr email); ("role", JStr role)].

Definition postAuthRegister (nom prenom email password role : option string)
  : Handler unit :=
  when (falsy nom || falsy prenom || falsy email || falsy password
        || falsy role)
    (send 400 (message "Tous les champs sont requis.")) ;;
  try_catch_finally
    (getConnection ;;
     existingUsers <-
       execute "SELECT id FROM Users WHERE email = ?"
         (select users (fun u => eqS (Users.email u) email)) ;;
     when (len existingUsers >? 0)
       (send 400 (message "Cet email est déjà enregistré.")) ;;
     e <- ask ;;
     let hashedPassword := bcrypt_hash (str password) (salt e) in
     insertId <-
       execute
         "INSERT INTO Users (nom, prenom, email, motDePasse, role) VALUES (?, ?, ?, ?, ?)"
         (fun st =>
            (auto_inc (users st),
             set_users st
               (insert (users st)
                  (fun id =>
                     Users.mk id (str nom) (str prenom) (str email)
                       hashedPassword (str role))))) ;;
     let token := jwt_sign (Token.mk insertId (str email) (str role)) in
     send 201
       (JObj [("message", JStr "Utilisateur enregistré avec succès !");
              ("token", JStr token);
              ("user",
               userJson insertId (str nom) (str prenom) (str email)
                 (str role))]))
    (send 500
       (message "Erreur interne du serveur lors de l'inscription.")).

(** *** [POST /api/auth/login] *)

Definition postAuthLogin (email motDePasse : option string) : Handler unit :=
  when (falsy email || falsy motDePasse)
    (send 400 (message "Email et mot de passe sont requis.")) ;;
  try_catch_finally
    (getConnection ;;
     users <-
       execute
         "SELECT id, nom, prenom, email, motDePasse, role FROM Users WHERE email = ?"
         (select users (fun u => eqS (Users.email u) email)) ;;
     match users with
     | [] => send 401 (message "Email ou mot de passe incorrect.")
     | user :: _ =>
         let isMatch :=
           bcrypt_compare (str motDePasse) (Users.motDePasse user) in
         when (negb isMatch)
           (send 401 (message "Email ou mot de passe incorrect.")) ;;
         let token :=
           jwt_sign
             (Token.mk (Users.id user) (Users.email user) (Users.role user))
         in
         send 200
           (JObj [("message", JStr "Connexion réussie.");
                  ("token", JStr token);
                  ("user",
                   userJson (Users.id user) (Users.nom user)
                     (Users.prenom user) (Users.email user)
                     (Users.role user))])
     end)
    (send 500
       (message "Erreur interne du serveur lors de la connexion.")).

(** *** [POST /api/classes] *)

(** The [while (codeExists)] loop: the code in hand is kept if no class
    has it, otherwise the next result of [generateClassCode] is tried. *)
Fixpoint uniqueClassCode (classCode : string) (draws : list string)
  : Handler string :=
  existingCode <-
    execute "SELECT id FROM Classes WHERE code = ?"
      (select classes (fun c => sameText (Classes.code c) classCode)) ;;
  if len existingCode =? 0
  then ret classCode
  else
    match draws with
    | [] => starve
    | next :: draws' => uniqueClassCode next draws'
    end.

Definition postClasses (nom description : option string)
  (u : Token.payload) : Handler unit :=
  let professeur_id := Token.id u in
  when (falsy nom)
    (send 400 (message "Le nom de la classe est requis.")) ;;
  try_catch_finally
    (getConnection ;;
     e <- ask ;;
     classCode <-
       match codes e with
       | [] => starve
       | first :: draws => uniqueClassCode first draws
       end ;;
     insertId <-
       execute
         "INSERT INTO Classes (nom, description, code, professeur_id) VALUES (?, ?, ?, ?)"
         (fun st =>
            (auto_inc (classes st),
             set_classes st
               (insert (classes st)
                  (fun id =>
                     Classes.mk id (str nom) description classCode
                       professeur_id)))) ;;
     execute
       "INSERT INTO UserClasses (user_id, class_id, role_dans_classe) VALUES (?, ?, ?)"
       (fun st =>
          (tt,
           set_userClasses st
             (insert (userClasses st)
                (fun id =>
                   UserClasses.mk id professeur_id insertId "Professeur")))) ;;
     send 201
       (JObj [("message", JStr "Classe créée avec succès !");
              ("class",
               JObj [("id", JNum insertId); ("nom", JStr (str nom));
                     ("description", JOptStr description);
                     ("code", JStr classCode);
                     ("professeur_id", JNum professeur_id)])]))
    (send 500
       (message
          "Erreur interne du serveur lors de la création de la classe.")).

(** *** [GET /api/classes/professeur] *)

Definition getClassesProfesseur (u : Token.payload) : Handler unit :=
  let professeur_id := Token.id u in
  try_catch_finally
    (getConnection ;;
     classes <-
       execute
         "SELECT id, nom, description, code FROM Classes WHERE professeur_id = ?"
         (select classes (fun c => Classes.professeur_id c =? professeur_id)) ;;
     send 200
       (JArr
          (map
             (fun c =>
                JObj [("id", JNum (Classes.id c));
                      ("nom", JStr (Classes.nom c));
                      ("description", JOptStr (Classes.description c));
                      ("code", JStr (Classes.code c))])
             classes)))
    (send 500 (message "Erreur interne du serveur.")).

(** *** [GET /api/classes/me] *)

Definition getClassesMe (u : Token.payload) : Handler unit :=
  let userId := Token.id u in
  try_catch_finally
    (getConnection ;;
     classes <-
       execute
         "SELECT C.id, C.nom, C.description, C.code, U.nom as professeurNom, U.prenom as professeurPrenom, UC.role_dans_classe FROM UserClasses UC JOIN Classes C ON UC.class_id = C.id JOIN Users U ON C.professeur_id = U.id WHERE UC.user_id = ?"
         (reading
            (fun st =>
               flat_map
                 (fun uc =>
                    flat_map
                      (fun c =>
                         map
                           (fun p =>
                              JObj [("id", JNum (Classes.id c));
                                    ("nom", JStr (Classes.nom c));
                                    ("description",
                                     JOptStr (Classes.description c));
                                    ("code", JStr (Classes.code c));
                                    ("professeurNom", JStr (Users.nom p));
                                    ("professeurPrenom",
                                     JStr (Users.prenom p));
                                    ("role_dans_classe",
                                     JStr (UserClasses.role_dans_classe uc))])
                           (filter
                              (fun p => Classes.professeur_id c =? Users.id p)
                              (rows (users st))))
                      (filter
                         (fun c => UserClasses.class_id uc =? Classes.id c)
                         (rows (Db.classes st))))
                 (filter (fun uc => UserClasses.user_id uc =? userId)
                    (rows (userClasses st))))) ;;
     send 200 (JArr classes))
    (send 500 (message "Erreur interne du serveur.")).

(** *** [POST /api/classes/join] *)

Definition postClassesJoin (code : option string) (u : Token.payload)
  : Handler unit :=
  let studentId := Token.id u in
  when (falsy code)
    (send 400 (message "Le code de la classe est requis.")) ;;
  try_catch_finally
    (getConnection ;;
     classes <-
       execute "SELECT id FROM Classes WHERE code = ?"
         (select classes (fun c => eqS (Classes.code c) code)) ;;
     match classes with
     | [] => send 404 (message "Classe introuvable avec ce code.")
     | classToJoin :: _ =>
         existingEnrollment <-
           execute
             "SELECT id FROM UserClasses WHERE user_id = ? AND class_id = ?"
             (select userClasses
                (fun uc =>
                   (UserClasses.user_id uc =? studentId)
                   && (UserClasses.class_id uc =? Classes.id classToJoin))) ;;
         when (len existingEnrollment >? 0)
           (send 409 (message "Vous êtes déjà inscrit à cette classe.")) ;;
         execute
           "INSERT INTO UserClasses (user_id, class_id, role_dans_classe) VALUES (?, ?, ?)"
           (fun st =>
              (tt,
               set_userClasses st
                 (insert (userClasses st)
                    (fun id =>
                       UserClasses.mk id studentId (Classes.id classToJoin)
                         "Etudiant")))) ;;
         send 200 (message "Classe rejointe avec succès !")
     end)
    (send 500
       (message
          "Erreur interne du serveur lors de l'inscription à la classe.")).

(** *** [POST /api/announcements] *)

(** [SELECT id FROM Classes WHERE id = ? AND professeur_id = ?] *)
Definition ownedClass (class_id : option Z) (professeur_id : Z)
  : Store -> list Classes.row * Store :=
  select classes
    (fun c =>
       eqP (Classes.id c) class_id
       && (Classes.professeur_id c =? professeur_id)).

Definition postAnnouncements (class_id : option Z)
  (titre contenu : option string) (u : Token.payload) : Handler unit :=
  let professeur_id := Token.id u in
  when (falsyZ class_id || falsy titre || falsy contenu)
    (send 400
       (message "L'ID de la classe, le titre et le contenu sont requis.")) ;;
  try_catch_finally
    (getConnection ;;
     classes <-
       execute "SELECT id FROM Classes WHERE id = ? AND professeur_id = ?"
         (ownedClass class_id professeur_id) ;;
     when (len classes =? 0)
       (send 403
          (message
             "Vous n'êtes pas autorisé à publier une annonce dans cette classe.")) ;;
     e <- ask ;;
     insertId <-
       execute
         "INSERT INTO Announcements (class_id, professeur_id, titre, contenu) VALUES (?, ?, ?, ?)"
         (fun st =>
            (auto_inc (announcements st),
             set_announcements st
               (insert (announcements st)
                  (fun id =>
                     Announcements.mk id class_id professeur_id (str titre)
                       (str contenu) (now e))))) ;;
     send 201
       (JObj [("message", JStr "Annonce créée avec succès !");
              ("announcement",
               JObj [("id", JNum insertId); ("class_id", JOptNum class_id);
                     ("professeur_id", JNum professeur_id);
                     ("titre", JStr (str titre));
                     ("contenu", JStr (str contenu))])]))
    (send 500
       (message
          "Erreur interne du serveur lors de la création de l'annonce.")).

(** *** [GET /api/announcements/:classId] *)

(** [SELECT id FROM UserClasses WHERE user_id = ? AND class_id = ?] *)
Definition enrollmentOf (userId classId : Z)
  : Store -> list UserClasses.row * Store :=
  select userClasses
    (fun uc =>
       (UserClasses.user_id uc =? userId)
       && (UserClasses.class_id uc =? classId)).

Definition getAnnouncements (classId : Z) (u : Token.payload)
  : Handler unit :=
  let userId := Token.id u in
  try_catch_finally
    (getConnection ;;
     enrollment <-
       execute "SELECT id FROM UserClasses WHERE user_id = ? AND class_id = ?"
         (enrollmentOf userId classId) ;;
     (if len enrollment =? 0
      then
        isProfessor <-
          execute "SELECT id FROM Classes WHERE id = ? AND professeur_id = ?"
            (ownedClass (Some classId) userId) ;;
        when (len isProfessor =? 0)
          (send 403 (message "Accès non autorisé à cette classe."))
      else ret tt) ;;
     announcements <-
       execute
         "SELECT A.id, A.titre, A.contenu, A.created_at, U.nom as professeurNom, U.prenom as professeurPrenom FROM Announcements A JOIN Users U ON A.professeur_id = U.id WHERE A.class_id = ? ORDER BY A.created_at DESC"
         (reading
            (fun st =>
               order_by
                 (fun x y =>
                    Announcements.created_at (fst y)
                    <=? Announcements.created_at (fst x))
                 (flat_map
                    (fun a =>
                       map (fun p => (a, p))
                         (filter
                            (fun p =>
                               Announcements.professeur_id a =? Users.id p)
                            (rows (users st))))
                    (filter
                       (fun a =>
                          eqPP (Announcements.class_id a) (Some classId))
                       (rows (Db.announcements st)))))) ;;
     send 200
       (JArr
          (map
             (fun '(a, p) =>
                JObj [("id", JNum (Announcements.id a));
                      ("titre", JStr (Announcements.titre a));
                      ("contenu", JStr (Announcements.contenu a));
                      ("created_at", JNum (Announcements.created_at a));
                      ("professeurNom", JStr (Users.nom p));
                      ("professeurPrenom", JStr (Users.prenom p))])
             announcements)))
    (send 500
       (message
          "Erreur interne du serveur lors de la récupération des annonces.")).

(** *** [POST /api/documentations] *)

Definition postDocumentations (class_id : option Z)
  (titre description file_path : option string) (u : Token.payload)
  : Handler unit :=
  let professeur_id := Token.id u in
  when (falsyZ class_id || falsy titre)
    (send 400 (message "L'ID de la classe et le titre sont requis.")) ;;
  try_catch_finally
    (getConnection ;;
     classes <-
       execute "SELECT id FROM Classes WHERE id = ? AND professeur_id = ?"
         (ownedClass class_id professeur_id) ;;
     when (len classes =? 0)
       (send 403
          (message
             "Vous n'êtes pas autorisé à partager de la documentation dans cette classe.")) ;;
     e <- ask ;;
     insertId <-
       execute
         "INSERT INTO Documentations (class_id, professeur_id, titre, description, file_path) VALUES (?, ?, ?, ?, ?)"
         (fun st =>
            (auto_inc (documentations st),
             set_documentations st
               (insert (documentations st)
                  (fun id =>
                     Documentations.mk id class_id professeur_id (str titre)
                       description file_path (now e))))) ;;
     send 201
       (JObj [("message", JStr "Documentation partagée avec succès !");
              ("documentation",
               JObj [("id", JNum insertId); ("class_id", JOptNum class_id);
                     ("professeur_id", JNum professeur_id);
                     ("titre", JStr (str titre));
                     ("description", JOptStr description);
                     ("file_path", JOptStr file_path)])]))
    (send 500
       (message
          "Erreur interne du serveur lors du partage de la documentation.")).

(** *** [GET /api/documentations/:classId] *)

Definition getDocumentations (classId : Z) (u : Token.payload)
  : Handler unit :=
  let userId := Token.id u in
  try_catch_finally
    (getConnection ;;
     enrollment <-
       execute "SELECT id FROM UserClasses WHERE user_id = ? AND class_id = ?"
         (enrollmentOf userId classId) ;;
     (if len enrollment =? 0
      then
        isProfessor <-
          execute "SELECT id FROM Classes WHERE id = ? AND professeur_id = ?"
            (ownedClass (Some classId) userId) ;;
        when (len isProfessor =? 0)
          (send 403 (message "Accès non autorisé à cette documentation."))
      else ret tt) ;;
     documentations <-
       execute
         "SELECT D.id, D.titre, D.description, D.file_path, D.created_at, U.nom as professeurNom, U.prenom as professeurPrenom FROM Documentations D JOIN Users U ON D.professeur_id = U.id WHERE D.class_id = ? ORDER BY D.created_at DESC"
         (reading
            (fun st =>
               order_by
                 (fun x y =>
                    Documentations.created_at (fst y)
                    <=? Documentations.created_at (fst x))
                 (flat_map
                    (fun d =>
                       map (fun p => (d, p))
                         (filter
                            (fun p =>
                               Documentations.professeur_id d =? Users.id p)
                            (rows (users st))))
                    (filter
                       (fun d =>
                          eqPP (Documentations.class_id d) (Some classId))
                       (rows (Db.documentations st)))))) ;;
     send 200
       (JArr
          (map
             (fun '(d, p) =>
                JObj [("id", JNum (Documentations.id d));
                      ("titre", JStr (Documentations.titre d));
                      ("description",
                       JOptStr (Documentations.description d));
                      ("file_path", JOptStr (Documentations.file_path d));
                      ("created_at", JNum (Documentations.created_at d));
                      ("professeurNom", JStr (Users.nom p));
                      ("professeurPrenom", JStr (Users.prenom p))])
             documentations)))
    (send 500
       (message
          "Erreur interne du serveur lors de la récupération de la documentation.")).

(** *** [POST /api/tasks] *)

Definition postTasks (class_id : option Z) (titre description : option string)
  (date_limite : option Z) (u : Token.payload) : Handler unit :=
  let professeur_id := Token.id u in
  when (falsyZ class_id || falsy titre || falsyZ date_limite)
    (send 400
       (message
          "L'ID de la classe, le titre et la date limite sont requis.")) ;;
  try_catch_finally
    (getConnection ;;
     classes <-
       execute "SELECT id FROM Classes WHERE id = ? AND professeur_id = ?"
         (ownedClass class_id professeur_id) ;;
     when (len classes =? 0)
       (send 403
          (message
             "Vous n'êtes pas autorisé à assigner une tâche dans cette classe.")) ;;
     e <- ask ;;
     insertId <-
       execute
         "INSERT INTO Tasks (class_id, professeur_id, titre, description, date_limite) VALUES (?, ?, ?, ?, ?)"
         (fun st =>
            (auto_inc (tasks st),
             set_tasks st
               (insert (tasks st)
                  (fun id =>
                     Tasks.mk id class_id professeur_id (str titre)
                       description (num date_limite) (now e))))) ;;
     send 201
       (JObj [("message", JStr "Tâche assignée avec succès !");
              ("task",
               JObj [("id", JNum insertId); ("class_id", JOptNum class_id);
                     ("professeur_id", JNum professeur_id);
                     ("titre", JStr (str titre));
                     ("description", JOptStr description);
                     ("date_limite", JOptNum date_limite)])]))
    (send 500
       (message
          "Erreur interne du serveur lors de l'assignation de la tâche.")).

(** *** [GET /api/tasks/class/:classId] *)

Definition getTasksClass (classId : Z) (u : Token.payload) : Handler unit :=
  let userId := Token.id u in
  try_catch_finally
    (getConnection ;;
     enrollment <-
       execute "SELECT id FROM UserClasses WHERE user_id = ? AND class_id = ?"
         (enrollmentOf userId classId) ;;
     isProfessor <-
       execute "SELECT id FROM Classes WHERE id = ? AND professeur_id = ?"
         (ownedClass (Some classId) userId) ;;
     when ((len enrollment =? 0) && (len isProfessor =? 0))
       (send 403 (message "Accès non autorisé à ces tâches.")) ;;
     tasks <-
       execute
         "SELECT T.id, T.titre, T.description, T.date_limite, T.created_at, U.nom as professeurNom, U.prenom as professeurPrenom FROM Tasks T JOIN Users U ON T.professeur_id = U.id WHERE T.class_id = ? ORDER BY T.date_limite ASC"
         (reading
            (fun st =>
               order_by
                 (fun x y =>
                    Tasks.date_limite (fst x) <=? Tasks.date_limite (fst y))
                 (flat_map
                    (fun t =>
                       map (fun p => (t, p))
                         (filter
                            (fun p => Tasks.professeur_id t =? Users.id p)
                            (rows (users st))))
                    (filter
                       (fun t => eqPP (Tasks.class_id t) (Some classId))
                       (rows (Db.tasks st)))))) ;;
     send 200
       (JArr
          (map
             (fun '(t, p) =>
                JObj [("id", JNum (Tasks.id t));
                      ("titre", JStr (Tasks.titre t));
                      ("description", JOptStr (Tasks.description t));
                      ("date_limite", JNum (Tasks.date_limite t));
                      ("created_at", JNum (Tasks.created_at t));
                      ("professeurNom", JStr (Users.nom p));
                      ("professeurPrenom", JStr (Users.prenom p))])
             tasks)))
    (send 500
       (message
          "Erreur interne du serveur lors de la récupération des tâches.")).

(** *** [POST /api/tasks/:taskId/submit] *)

(** [SELECT id FROM Submissions WHERE task_id = ? AND student_id = ?] *)
Definition submissionOf (taskId student_id : Z)
  : Store -> list Submissions.row * Store :=
  select submissions
    (fun s =>
       (Submissions.task_id s =? taskId)
       && (Submissions.student_id s =? student_id)).

Definition postTasksSubmit (taskId : Z) (file_path content : option string)
  (u : Token.payload) : Handler unit :=
  let student_id := Token.id u in
  when (falsy file_path && falsy content)
    (send 400
       (message
          "Un chemin de fichier ou un contenu est requis pour la soumission.")) ;;
  try_catch_finally
    (getConnection ;;
     taskInfo <-
       execute "SELECT class_id FROM Tasks WHERE id = ?"
         (select tasks (fun t => Tasks.id t =? taskId)) ;;
     match taskInfo with
     | [] => send 404 (message "Tâche non trouvée.")
     | task :: _ =>
         let class_id := Tasks.class_id task in
         enrollment <-
           execute
             "SELECT id FROM UserClasses WHERE user_id = ? AND class_id = ?"
             (select userClasses
                (fun uc =>
                   (UserClasses.user_id uc =? student_id)
                   && eqP (UserClasses.class_id uc) class_id)) ;;
         when (len enrollment =? 0)
           (send 403
              (message
                 "Vous n'êtes pas autorisé à soumettre à cette tâche (non inscrit à la classe).")) ;;
         existingSubmission <-
           execute
             "SELECT id FROM Submissions WHERE task_id = ? AND student_id = ?"
             (submissionOf taskId student_id) ;;
         e <- ask ;;
         match existingSubmission with
         | existing :: _ =>
             execute
               "UPDATE Submissions SET file_path = ?, content = ?, submitted_at = CURRENT_TIMESTAMP WHERE id = ?"
               (fun st =>
                  (tt,
                   set_submissions st
                     (update (submissions st)
                        (fun s => Submissions.id s =? Submissions.id existing)
                        (fun s =>
                           Submissions.mk (Submissions.id s)
                             (Submissions.task_id s)
                             (Submissions.student_id s) file_path content
                             (now e) (Submissions.grade s)
                             (Submissions.correction_feedback s))))) ;;
             send 200
               (message "Soumission de tâche mise à jour avec succès !")
         | [] =>
             insertId <-
               execute
                 "INSERT INTO Submissions (task_id, student_id, file_path, content) VALUES (?, ?, ?, ?)"
                 (fun st =>
                    (auto_inc (submissions st),
                     set_submissions st
                       (insert (submissions st)
                          (fun id =>
                             Submissions.mk id taskId student_id file_path
                               content (now e) None None)))) ;;
             send 201
               (JObj [("message", JStr "Tâche soumise avec succès !");
                      ("submissionId", JNum insertId)])
         end
     end)
    (send 500
       (message
          "Erreur interne du serveur lors de la soumission de la tâche.")).

(** *** [GET /api/tasks/:taskId/submissions] *)

Definition getTasksSubmissions (taskId : Z) (u : Token.payload)
  : Handler unit :=
  let professeur_id := Token.id u in
  try_catch_finally
    (getConnection ;;
     taskInfo <-
       execute "SELECT id FROM Tasks WHERE id = ? AND professeur_id = ?"
         (select tasks
            (fun t =>
               (Tasks.id t =? taskId)
               && (Tasks.professeur_id t =? professeur_id))) ;;
     when (len taskInfo =? 0)
       (send 403
          (message
             "Vous n'êtes pas autorisé à voir les soumissions de cette tâche.")) ;;
     submissions <-
       execute
         "SELECT S.id, S.file_path, S.content, S.submitted_at, S.grade, S.correction_feedback, U.nom as studentNom, U.prenom as studentPrenom FROM Submissions S JOIN Users U ON S.student_id = U.id WHERE S.task_id = ? ORDER BY S.submitted_at ASC"
         (reading
            (fun st =>
               order_by
                 (fun x y =>
                    Submissions.submitted_at (fst x)
                    <=? Submissions.submitted_at (fst y))
                 (flat_map
                    (fun s =>
                       map (fun p => (s, p))
                         (filter
                            (fun p => Submissions.student_id s =? Users.id p)
                            (rows (users st))))
                    (filter (fun s => Submissions.task_id s =? taskId)
                       (rows (Db.submissions st)))))) ;;
     send 200
       (JArr
          (map
             (fun '(s, p) =>
                JObj [("id", JNum (Submissions.id s));
                      ("file_path", JOptStr (Submissions.file_path s));
                      ("content", JOptStr (Submissions.content s));
                      ("submitted_at", JNum (Submissions.submitted_at s));
                      ("grade", JOptNum (Submissions.grade s));
                      ("correction_feedback",
                       JOptStr (Submissions.correction_feedback s));
                      ("studentNom", JStr (Users.nom p));
                      ("studentPrenom", JStr (Users.prenom p))])
             submissions)))
    (send 500
       (message
          "Erreur interne du serveur lors de la récupération des soumissions.")).

(** *** [PUT /api/submissions/:submissionId/grade] *)

Definition putSubmissionsGrade (submissionId : Z) (grade : Field Z)
  (feedback : Field string) (u : Token.payload) : Handler unit :=
  let professeur_id := Token.id u in
  when (undefined grade || undefined feedback)
    (send 400 (message "La note et le feedback sont requis.")) ;;
  try_catch_finally
    (getConnection ;;
     submissionInfo <-
       execute
         "SELECT T.professeur_id FROM Submissions S JOIN Tasks T ON S.task_id = T.id WHERE S.id = ?"
         (reading
            (fun st =>
               flat_map
                 (fun s =>
                    filter (fun t => Submissions.task_id s =? Tasks.id t)
                      (rows (tasks st)))
                 (filter (fun s => Submissions.id s =? submissionId)
                    (rows (submissions st))))) ;;
     when (match submissionInfo with
           | [] => true
           | t :: _ => negb (Tasks.professeur_id t =? professeur_id)
           end)
       (send 403
          (message "Vous n'êtes pas autorisé à noter cette soumission.")) ;;
     execute
       "UPDATE Submissions SET grade = ?, correction_feedback = ? WHERE id = ?"
       (fun st =>
          (tt,
           set_submissions st
             (update (submissions st)
                (fun s => Submissions.id s =? submissionId)
                (fun s =>
                   Submissions.mk (Submissions.id s) (Submissions.task_id s)
                     (Submissions.student_id s) (Submissions.file_path s)
                     (Submissions.content s) (Submissions.submitted_at s)
                     (bound grade) (bound feedback))))) ;;
     send 200 (message "Soumission notée et corrigée avec succès !"))
    (send 500
       (message
          "Erreur interne du serveur lors de la notation de la soumission.")).

(** *** [GET /api/submissions/:submissionId] *)

(** A row of the three-table join the handler reads. *)
Definition SubmissionView : Type :=
  (Submissions.row * Tasks.row * Users.row)%type.

(** [SELECT ... FROM Submissions S JOIN Tasks T ON S.task_id = T.id
     JOIN Users U ON S.student_id = U.id WHERE S.id = ?] *)
Definition submissionView (submissionId : Z) (st : Store)
  : list SubmissionView :=
  flat_map
    (fun s =>
       flat_map
         (fun t =>
            map (fun p => (s, t, p))
              (filter (fun p => Submissions.student_id s =? Users.id p)
                 (rows (users st))))
         (filter (fun t => Submissions.task_id s =? Tasks.id t)
            (rows (tasks st))))
    (filter (fun s => Submissions.id s =? submissionId)
       (rows (submissions st))).

Definition submissionJson (sub : SubmissionView) : Json :=
  let '(s, t, p) := sub in
  JObj [("id", JNum (Submissions.id s));
        ("task_id", JNum (Submissions.task_id s));
        ("student_id", JNum (Submissions.student_id s));
        ("file_path", JOptStr (Submissions.file_path s));
        ("content", JOptStr (Submissions.content s));
        ("submitted_at", JNum (Submissions.submitted_at s));
        ("grade", JOptNum (Submissions.grade s));
        ("correction_feedback",
         JOptStr (Submissions.correction_feedback s));
        ("professeur_id", JNum (Tasks.professeur_id t));
        ("taskTitre", JStr (Tasks.titre t));
        ("taskDescription", JOptStr (Tasks.description t));
        ("taskDateLimite", JNum (Tasks.date_limite t));
        ("studentNom", JStr (Users.nom p));
        ("studentPrenom", JStr (Users.prenom p))].

Definition getSubmissions (submissionId : Z) (u : Token.payload)
  : Handler unit :=
  let userId := Token.id u in
  let userRole := Token.role u in
  try_catch_finally
    (getConnection ;;
     submission <-
       execute
         "SELECT S.id, S.task_id, S.student_id, S.file_path, S.content, S.submitted_at, S.grade, S.correction_feedback, T.professeur_id, T.titre as taskTitre, T.description as taskDescription, T.date_limite as taskDateLimite, U.nom as studentNom, U.prenom as studentPrenom FROM Submissions S JOIN Tasks T ON S.task_id = T.id JOIN Users U ON S.student_id = U.id WHERE S.id = ?"
         (reading (submissionView submissionId)) ;;
     match submission with
     | [] => send 404 (message "Soumission non trouvée.")
     | sub :: _ =>
         let '(s, t, _) := sub in
         when ((userRole =? "Etudiant")%string
               && negb (Submissions.student_id s =? userId))
           (send 403
              (message "Vous n'êtes pas autorisé à voir cette soumission.")) ;;
         when ((userRole =? "Professeur")%string
               && negb (Tasks.professeur_id t =? userId))
           (send 403
              (message "Vous n'êtes pas autorisé à voir cette soumission.")) ;;
         send 200 (submissionJson sub)
     end)
    (send 500
       (message
          "Erreur interne du serveur lors de la récupération de la soumission.")).

(** *** [GET /api/users/me/submissions] *)

Definition getUsersMeSubmissions (u : Token.payload) : Handler unit :=
  let student_id := Token.id u in
  try_catch_finally
    (getConnection ;;
     submissions <-
       execute
         "SELECT S.id, S.task_id, S.file_path, S.content, S.submitted_at, S.grade, S.correction_feedback, T.titre as taskTitre, T.description as taskDescription, T.date_limite as taskDateLimite, C.nom as className, C.id as classId FROM Submissions S JOIN Tasks T ON S.task_id = T.id JOIN Classes C ON T.class_id = C.id WHERE S.student_id = ? ORDER BY S.submitted_at DESC"
         (reading
            (fun st =>
               order_by
                 (fun x y =>
                    Submissions.submitted_at (fst (fst y))
                    <=? Submissions.submitted_at (fst (fst x)))
                 (flat_map
                    (fun s =>
                       flat_map
                         (fun t =>
                            map (fun c => (s, t, c))
                              (filter
                                 (fun c =>
                                    eqP (Classes.id c) (Tasks.class_id t))
                                 (rows (classes st))))
                         (filter
                            (fun t => Submissions.task_id s =? Tasks.id t)
                            (rows (tasks st))))
                    (filter (fun s => Submissions.student_id s =? student_id)
                       (rows (Db.submissions st)))))) ;;
     send 200
       (JArr
          (map
             (fun '(s, t, c) =>
                JObj [("id", JNum (Submissions.id s));
                      ("task_id", JNum (Submissions.task_id s));
                      ("file_path", JOptStr (Submissions.file_path s));
                      ("content", JOptStr (Submissions.content s));
                      ("submitted_at", JNum (Submissions.submitted_at s));
                      ("grade", JOptNum (Submissions.grade s));
                      ("correction_feedback",
                       JOptStr (Submissions.correction_feedback s));
                      ("taskTitre", JStr (Tasks.titre t));
                      ("taskDescription", JOptStr (Tasks.description t));
                      ("taskDateLimite", JNum (Tasks.date_limite t));
                      ("className", JStr (Classes.nom c));
                      ("classId", JNum (Classes.id c))])
             submissions)))
    (send 500
       (message
          "Erreur interne du serveur lors de la récupération des soumissions de l'étudiant.")).

(** *** [POST /api/messages] *)

(** [SELECT * FROM ClassMembers WHERE class_id = ? AND user_id = ?] *)
Definition memberOf (class_id : option Z) (user_id : option Z)
  : Store -> list ClassMembers.row * Store :=
  select classMembers
    (fun cm =>
       eqP (ClassMembers.class_id cm) class_id
       && eqP (ClassMembers.user_id cm) user_id).

(** The bind parameter an identifier of the body makes for an integer
    column: a number is itself, a text is the integer the store reads it
    as. *)
Definition bindId (x : option BodyId) : option Z :=
  match x with
  | None => None
  | Some (IdNum n) => Some n
  | Some (IdText s) => sql_number s
  end.

Definition postMessages (receiver_id : option BodyId) (class_id : option Z)
  (content message_type : option string) (u : Token.payload)
  : Handler unit :=
  let sender_id := Token.id u in
  try_catch_finally
    (getConnection ;;
     when (falsy content || trimIsEmpty (str content))
       (send 400 (message "Le contenu du message ne peut pas être vide.")) ;;
     when (negb (isText message_type "public" || isText message_type "private"))
       (send 400
          (message
             (String.concat EmptyString
                ["Type de message invalide. Doit être "; dq; "public"; dq;
                 " ou "; dq; "private"; dq; "."]))) ;;
     e <- ask ;;
     if isText message_type "private"
     then
       when (falsyId receiver_id)
         (send 400
            (message
               "L'ID du destinataire est requis pour un message privé.")) ;;
       when (same sender_id receiver_id)
         (send 400
            (message
               "Vous ne pouvez pas vous envoyer un message privé à vous-même.")) ;;
       receiverExists <-
         execute "SELECT id FROM Users WHERE id = ?"
           (select users (fun p => eqP (Users.id p) (bindId receiver_id))) ;;
       when (len receiverExists =? 0)
         (send 404 (message "Destinataire non trouvé.")) ;;
       execute
         "INSERT INTO Messages (sender_id, receiver_id, content, message_type) VALUES (?, ?, ?, ?)"
         (fun st =>
            (tt,
             set_messages st
               (insert (messages st)
                  (fun id =>
                     Messages.mk id sender_id (bindId receiver_id) None
                       (str content) (str message_type) (now e))))) ;;
       send 201 (message "Message privé envoyé avec succès.")
     else if isText message_type "public"
     then
       when (falsyZ class_id)
         (send 400
            (message
               "L'ID de la classe est requis pour un message public.")) ;;
       classMembership <-
         execute
           "SELECT C.id FROM Classes C JOIN ClassMembers CM ON C.id = CM.class_id WHERE C.id = ? AND CM.user_id = ?"
           (reading
              (fun st =>
                 flat_map
                   (fun c =>
                      filter
                        (fun cm =>
                           (Classes.id c =? ClassMembers.class_id cm)
                           && (ClassMembers.user_id cm =? sender_id))
                        (rows (classMembers st)))
                   (filter (fun c => eqP (Classes.id c) class_id)
                      (rows (classes st))))) ;;
       when (len classMembership =? 0)
         (send 403
            (message
               "Vous devez être membre de cette classe pour y envoyer un message public.")) ;;
       senderRole <-
         execute "SELECT role FROM Users WHERE id = ?"
           (select users (fun p => Users.id p =? sender_id)) ;;
       when (match senderRole with
             | [] => true
             | p :: _ =>
                 negb (includes ["Professeur"; "Coordinateur"] (Users.role p))
             end)
         (send 403
            (message
               "Seuls les professeurs ou coordinateurs peuvent envoyer des messages publics.")) ;;
       execute
         "INSERT INTO Messages (sender_id, class_id, content, message_type) VALUES (?, ?, ?, ?)"
         (fun st =>
            (tt,
             set_messages st
               (insert (messages st)
                  (fun id =>
                     Messages.mk id sender_id None class_id (str content)
                       (str message_type) (now e))))) ;;
       send 201 (message "Message public envoyé avec succès.")
     else ret tt)
    (send 500
       (message "Erreur interne du serveur lors de l'envoi du message.")).

(** *** [GET /api/messages/public/class/:classId] *)

Definition getMessagesPublicClass (classId : Z) (u : Token.payload)
  : Handler unit :=
  let user_id := Token.id u in
  try_catch_finally
    (getConnection ;;
     isMember <-
       execute "SELECT * FROM ClassMembers WHERE class_id = ? AND user_id = ?"
         (memberOf (Some classId) (Some user_id)) ;;
     when (len isMember =? 0)
       (send 403 (message "Accès non autorisé à cette classe.")) ;;
     messages <-
       execute
         "SELECT M.id, M.content, M.created_at, U.prenom as senderPrenom, U.nom as senderNom, U.role as senderRole FROM Messages M JOIN Users U ON M.sender_id = U.id WHERE M.class_id = ? AND M.message_type = 'public' ORDER BY M.created_at DESC"
         (reading
            (fun st =>
               order_by
                 (fun x y =>
                    Messages.created_at (fst y)
                    <=? Messages.created_at (fst x))
                 (flat_map
                    (fun m =>
                       map (fun p => (m, p))
                         (filter (fun p => Messages.sender_id m =? Users.id p)
                            (rows (users st))))
                    (filter
                       (fun m =>
                          eqPP (Messages.class_id m) (Some classId)
                          && sameText (Messages.message_type m) "public")
                       (rows (Db.messages st)))))) ;;
     send 200
       (JArr
          (map
             (fun '(m, p) =>
                JObj [("id", JNum (Messages.id m));
                      ("content", JStr (Messages.content m));
                      ("created_at", JNum (Messages.created_at m));
                      ("senderPrenom", JStr (Users.prenom p));
                      ("senderNom", JStr (Users.nom p));
                      ("senderRole", JStr (Users.role p))])
             messages)))
    (send 500
       (message
          "Erreur interne du serveur lors de la récupération des messages publics.")).

(** *** [GET /api/messages/private/me] *)

Definition getMessagesPrivateMe (u : Token.payload) : Handler unit :=
  let user_id := Token.id u in
  try_catch_finally
    (getConnection ;;
     messages <-
       execute
         "SELECT M.id, M.content, M.created_at, M.message_type, S.prenom as senderPrenom, S.nom as senderNom, S.role as senderRole, S.id as senderId, R.prenom as receiverPrenom, R.nom as receiverNom, R.role as receiverRole, R.id as receiverId FROM Messages M JOIN Users S ON M.sender_id = S.id LEFT JOIN Users R ON M.receiver_id = R.id WHERE (M.sender_id = ? OR M.receiver_id = ?) AND M.message_type = 'private' ORDER BY M.created_at DESC"
         (reading
            (fun st =>
               order_by
                 (fun x y =>
                    Messages.created_at (fst (fst y))
                    <=? Messages.created_at (fst (fst x)))
                 (flat_map
                    (fun m =>
                       flat_map
                         (fun s =>
                            match
                              filter
                                (fun r =>
                                   eqPP (Messages.receiver_id m)
                                     (Some (Users.id r)))
                                (rows (users st))
                            with
                            | [] => [(m, s, None)]
                            | receivers =>
                                map (fun r => (m, s, Some r)) receivers
                            end)
                         (filter (fun s => Messages.sender_id m =? Users.id s)
                            (rows (users st))))
                    (filter
                       (fun m =>
                          ((Messages.sender_id m =? user_id)
                           || eqPP (Messages.receiver_id m) (Some user_id))
                          && sameText (Messages.message_type m) "private")
                       (rows (Db.messages st)))))) ;;
     send 200
       (JArr
          (map
             (fun '(m, s, r) =>
                JObj [("id", JNum (Messages.id m));
                      ("content", JStr (Messages.content m));
                      ("created_at", JNum (Messages.created_at m));
                      ("message_type", JStr (Messages.message_type m));
                      ("senderPrenom", JStr (Users.prenom s));
                      ("senderNom", JStr (Users.nom s));
                      ("senderRole", JStr (Users.role s));
                      ("senderId", JNum (Users.id s));
                      ("receiverPrenom", JOptStr (option_map Users.prenom r));
                      ("receiverNom", JOptStr (option_map Users.nom r));
                      ("receiverRole", JOptStr (option_map Users.role r));
                      ("receiverId", JOptNum (option_map Users.id r))])
             messages)))
    (send 500
       (message
          "Erreur interne du serveur lors de la récupération des messages privés.")).

(** *** [GET /api/users/all] *)

(** [ORDER BY role, nom, prenom] *)
Definition byRoleNomPrenom (x y : Users.row) : bool :=
  match collate (Users.role x) (Users.role y) with
  | Lt => true
  | Gt => false
  | Eq =>
      match collate (Users.nom x) (Users.nom y) with
      | Lt => true
      | Gt => false
      | Eq => leText (Users.prenom x) (Users.prenom y)
      end
  end.

(** The columns [id, prenom, nom, email, role] of a user. *)
Definition listedUser (p : Users.row) : Json :=
  JObj [("id", JNum (Users.id p)); ("prenom", JStr (Users.prenom p));
        ("nom", JStr (Users.nom p)); ("email", JStr (Users.email p));
        ("role", JStr (Users.role p))].

Definition getUsersAll (u : Token.payload) : Handler unit :=
  try_catch_finally
    (getConnection ;;
     users <-
       execute
         "SELECT id, prenom, nom, email, role FROM Users ORDER BY role, nom, prenom"
         (reading (fun st => order_by byRoleNomPrenom (rows (users st)))) ;;
     send 200 (JArr (map listedUser users)))
    (send 500 (message "Erreur interne du serveur.")).

(** *** [POST /api/projects] *)

Definition postProjects (class_id : option Z)
  (titre description : option string) (date_debut date_fin : option Z)
  (u : Token.payload) : Handler unit :=
  let user_id := Token.id u in
  try_catch_finally
    (getConnection ;;
     isClassOwner <-
       execute
         "SELECT * FROM Classes WHERE id = ? AND (professeur_id = ? OR EXISTS (SELECT 1 FROM Users WHERE id = ? AND role = 'Coordinateur'))"
         (reading
            (fun st =>
               filter
                 (fun c =>
                    eqP (Classes.id c) class_id
                    && ((Classes.professeur_id c =? user_id)
                        || existsb
                             (fun p =>
                                (Users.id p =? user_id)
                                && sameText (Users.role p) "Coordinateur")
                             (rows (users st))))
                 (rows (classes st)))) ;;
     when ((len isClassOwner =? 0)
           && negb (Token.role u =? "Coordinateur")%string)
       (send 403
          (message
             "Vous n'avez pas la permission de créer un projet pour cette classe.")) ;;
     (if (Token.role u =? "Coordinateur")%string
      then
        isMember <-
          execute
            "SELECT * FROM ClassMembers WHERE class_id = ? AND user_id = ?"
            (memberOf class_id (Some user_id)) ;;
        when (len isMember =? 0)
          (send 403
             (message
                "En tant que Coordinateur, vous devez être membre de la classe pour créer un projet."))
      else ret tt) ;;
     insertId <-
       execute
         "INSERT INTO Projets (class_id, titre, description, date_debut, date_fin) VALUES (?, ?, ?, ?, ?)"
         (fun st =>
            (auto_inc (projets st),
             set_projets st
               (insert (projets st)
                  (fun id =>
                     Projets.mk id class_id titre description date_debut
                       date_fin None)))) ;;
     send 201
       (JObj [("message", JStr "Projet créé avec succès.");
              ("projectId", JNum insertId)]))
    (send 500
       (message "Erreur interne du serveur lors de la création du projet.")).

(** *** [GET /api/projects/class/:classId] *)

Definition getProjectsClass (classId : Z) (u : Token.payload)
  : Handler unit :=
  let user_id := Token.id u in
  try_catch_finally
    (getConnection ;;
     isMember <-
       execute "SELECT * FROM ClassMembers WHERE class_id = ? AND user_id = ?"
         (memberOf (Some classId) (Some user_id)) ;;
     when (len isMember =? 0)
       (send 403 (message "Accès non autorisé à cette classe.")) ;;
     projects <-
       execute
         "SELECT id, class_id, titre, description, date_debut, date_fin, statut FROM Projets WHERE class_id = ? ORDER BY date_fin DESC"
         (reading
            (fun st =>
               order_by
                 (fun x y =>
                    leOpt Z.leb (Projets.date_fin y) (Projets.date_fin x))
                 (filter (fun p => eqPP (Projets.class_id p) (Some classId))
                    (rows (projets st))))) ;;
     send 200
       (JArr
          (map
             (fun p =>
                JObj [("id", JNum (Projets.id p));
                      ("class_id", JOptNum (Projets.class_id p));
                      ("titre", JOptStr (Projets.titre p));
                      ("description", JOptStr (Projets.description p));
                      ("date_debut", JOptNum (Projets.date_debut p));
                      ("date_fin", JOptNum (Projets.date_fin p));
                      ("statut", JOptStr (Projets.statut p))])
             projects)))
    (send 500
       (message
          "Erreur interne du serveur lors de la récupération des projets.")).

(** *** [POST /api/groups] *)

(** [SELECT P.class_id, C.professeur_id FROM Projets P
     JOIN Classes C ON P.class_id = C.id WHERE P.id = ?] *)
Definition projectInfoOf (projet_id : option Z) (st : Store)
  : list (Projets.row * Classes.row) :=
  flat_map
    (fun p =>
       map (fun c => (p, c))
         (filter (fun c => eqP (Classes.id c) (Projets.class_id p))
            (rows (classes st))))
    (filter (fun p => eqP (Projets.id p) projet_id) (rows (projets st))).

Definition postGroups (projet_id : option Z)
  (nom_groupe description : option string) (u : Token.payload)
  : Handler unit :=
  let user_id := Token.id u in
  try_catch_finally
    (getConnection ;;
     projectInfo <-
       execute
         "SELECT P.class_id, C.professeur_id FROM Projets P JOIN Classes C ON P.class_id = C.id WHERE P.id = ?"
         (reading (projectInfoOf projet_id)) ;;
     match projectInfo with
     | [] => send 404 (message "Projet non trouvé.")
     | (p, c) :: _ =>
         let class_id := Projets.class_id p in
         let professeur_id := Classes.professeur_id c in
         when (negb (professeur_id =? user_id)
               && negb (Token.role u =? "Coordinateur")%string)
           (send 403
              (message
                 "Vous n'avez pas la permission de créer un groupe pour ce projet.")) ;;
         (if (Token.role u =? "Coordinateur")%string
          then
            isMember <-
              execute
                "SELECT * FROM ClassMembers WHERE class_id = ? AND user_id = ?"
                (memberOf class_id (Some user_id)) ;;
            when (len isMember =? 0)
              (send 403
                 (message
                    "En tant que Coordinateur, vous devez être membre de la classe du projet pour créer un groupe."))
          else ret tt) ;;
         insertId <-
           execute
             "INSERT INTO Groupes (projet_id, nom_groupe, description) VALUES (?, ?, ?)"
             (fun st =>
                (auto_inc (groupes st),
                 set_groupes st
                   (insert (groupes st)
                      (fun id =>
                         Groupes.mk id projet_id nom_groupe description)))) ;;
         send 201
           (JObj [("message", JStr "Groupe créé avec succès.");
                  ("groupId", JNum insertId)])
     end)
    (send 500
       (message "Erreur interne du serveur lors de la création du groupe.")).

(** *** [GET /api/groups/project/:projectId] *)

(** [for (let group of groups) { ... }]: one statement per group, in
    order. *)
Fixpoint forEach {A B} (l : list A) (f : A -> Handler B) : Handler (list B) :=
  match l with
  | [] => ret []
  | x :: l' =>
      y <- f x ;;
      ys <- forEach l' f ;;
      ret (y :: ys)
  end.

Definition memberJson (p : Users.row) : Json :=
  JObj [("id", JNum (Users.id p)); ("prenom", JStr (Users.prenom p));
        ("nom", JStr (Users.nom p)); ("role", JStr (Users.role p))].

Definition getGroupsProject (projectId : Z) (u : Token.payload)
  : Handler unit :=
  let user_id := Token.id u in
  try_catch_finally
    (getConnection ;;
     projectClassInfo <-
       execute "SELECT P.class_id FROM Projets P WHERE P.id = ?"
         (select projets (fun p => Projets.id p =? projectId)) ;;
     match projectClassInfo with
     | [] => send 404 (message "Projet non trouvé.")
     | p :: _ =>
         let class_id := Projets.class_id p in
         isMember <-
           execute
             "SELECT * FROM ClassMembers WHERE class_id = ? AND user_id = ?"
             (memberOf class_id (Some user_id)) ;;
         when (len isMember =? 0)
           (send 403
              (message "Accès non autorisé à ce projet ou à sa classe.")) ;;
         groups <-
           execute
             "SELECT G.id, G.nom_groupe, G.description FROM Groupes G WHERE G.projet_id = ? ORDER BY G.nom_groupe"
             (reading
                (fun st =>
                   order_by
                     (fun x y =>
                        leOpt leText (Groupes.nom_groupe x)
                          (Groupes.nom_groupe y))
                     (filter
                        (fun g => eqPP (Groupes.projet_id g) (Some projectId))
                        (rows (groupes st))))) ;;
         groups <-
           forEach groups
             (fun group =>
                members <-
                  execute
                    "SELECT U.id, U.prenom, U.nom, U.role FROM MembresGroupe MG JOIN Users U ON MG.user_id = U.id WHERE MG.group_id = ?"
                    (reading
                       (fun st =>
                          flat_map
                            (fun mg =>
                               filter
                                 (fun p =>
                                    eqP (Users.id p)
                                      (MembresGroupe.user_id mg))
                                 (rows (users st)))
                            (filter
                               (fun mg =>
                                  MembresGroupe.group_id mg =? Groupes.id group)
                               (rows (membresGroupe st))))) ;;
                ret
                  (JObj [("id", JNum (Groupes.id group));
                         ("nom_groupe", JOptStr (Groupes.nom_groupe group));
                         ("description", JOptStr (Groupes.description group));
                         ("members", JArr (map memberJson members))])) ;;
         send 200 (JArr groups)
     end)
    (send 500
       (message
          "Erreur interne du serveur lors de la récupération des groupes.")).

(** *** [POST /api/groups/:groupId/members] *)

(** [SELECT G.projet_id, P.class_id, C.professeur_id FROM Groupes G
     JOIN Projets P ON G.projet_id = P.id JOIN Classes C ON P.class_id = C.id
     WHERE G.id = ?] *)
Definition groupInfoOf (groupId : Z) (st : Store)
  : list (Groupes.row * Projets.row * Classes.row) :=
  flat_map
    (fun g =>
       flat_map
         (fun p =>
            map (fun c => (g, p, c))
              (filter (fun c => eqP (Classes.id c) (Projets.class_id p))
                 (rows (classes st))))
         (filter (fun p => eqP (Projets.id p) (Groupes.projet_id g))
            (rows (projets st))))
    (filter (fun g => Groupes.id g =? groupId) (rows (groupes st))).

Definition postGroupsMembers (groupId : Z) (user_id_to_add : option Z)
  (u : Token.payload) : Handler unit :=
  let admin_user_id := Token.id u in
  try_catch_finally
    (getConnection ;;
     groupInfo <-
       execute
         "SELECT G.projet_id, P.class_id, C.professeur_id FROM Groupes G JOIN Projets P ON G.projet_id = P.id JOIN Classes C ON P.class_id = C.id WHERE G.id = ?"
         (reading (groupInfoOf groupId)) ;;
     match groupInfo with
     | [] => send 404 (message "Groupe non trouvé.")
     | (_, p, c) :: _ =>
         let class_id := Projets.class_id p in
         let professeur_id := Classes.professeur_id c in
         when (negb (professeur_id =? admin_user_id)
               && negb (Token.role u =? "Coordinateur")%string)
           (send 403
              (message
                 "Vous n'avez pas la permission de modifier ce groupe.")) ;;
         (if (Token.role u =? "Coordinateur")%string
          then
            isMember <-
              execute
                "SELECT * FROM ClassMembers WHERE class_id = ? AND user_id = ?"
                (memberOf class_id (Some admin_user_id)) ;;
            when (len isMember =? 0)
              (send 403
                 (message
                    "En tant que Coordinateur, vous devez être membre de la classe du projet du groupe pour le modifier."))
          else ret tt) ;;
         userToAddInfo <-
           execute "SELECT id, role FROM Users WHERE id = ?"
             (select users (fun p => eqP (Users.id p) user_id_to_add)) ;;
         when (match userToAddInfo with
               | [] => true
               | p :: _ => negb (Users.role p =? "Etudiant")%string
               end)
           (send 400
              (message
                 "L'utilisateur à ajouter n'existe pas ou n'est pas un étudiant.")) ;;
         isStudentInClass <-
           execute
             "SELECT * FROM ClassMembers WHERE class_id = ? AND user_id = ?"
             (memberOf class_id user_id_to_add) ;;
         when (len isStudentInClass =? 0)
           (send 400
              (message
                 "L'étudiant n'est pas membre de la classe de ce projet.")) ;;
         existingMember <-
           execute
             "SELECT * FROM MembresGroupe WHERE group_id = ? AND user_id = ?"
             (select membresGroupe
                (fun mg =>
                   (MembresGroupe.group_id mg =? groupId)
                   && eqPP (MembresGroupe.user_id mg) user_id_to_add)) ;;
         when (len existingMember >? 0)
           (send 409
              (message "Cet utilisateur est déjà membre de ce groupe.")) ;;
         execute "INSERT INTO MembresGroupe (group_id, user_id) VALUES (?, ?)"
           (fun st =>
              (tt,
               set_membresGroupe st
                 (insert (membresGroupe st)
                    (fun _ => MembresGroupe.mk groupId user_id_to_add)))) ;;
         send 200 (message "Membre ajouté au groupe avec succès.")
     end)
    (send 500
       (message "Erreur interne du serveur lors de l'ajout du membre.")).

(** *** [DELETE /api/groups/:groupId/members/:userId] *)

Definition deleteGroupsMembers (groupId userId : Z) (u : Token.payload)
  : Handler unit :=
  let admin_user_id := Token.id u in
  try_catch_finally
    (getConnection ;;
     groupInfo <-
       execute
         "SELECT G.projet_id, P.class_id, C.professeur_id FROM Groupes G JOIN Projets P ON G.projet_id = P.id JOIN Classes C ON P.class_id = C.id WHERE G.id = ?"
         (reading (groupInfoOf groupId)) ;;
     match groupInfo with
     | [] => send 404 (message "Groupe non trouvé.")
     | (_, p, c) :: _ =>
         let class_id := Projets.class_id p in
         let professeur_id := Classes.professeur_id c in
         when (negb (professeur_id =? admin_user_id)
               && negb (Token.role u =? "Coordinateur")%string)
           (send 403
              (message
                 "Vous n'avez pas la permission de modifier ce groupe.")) ;;
         (if (Token.role u =? "Coordinateur")%string
          then
            isMember <-
              execute
                "SELECT * FROM ClassMembers WHERE class_id = ? AND user_id = ?"
                (memberOf class_id (Some admin_user_id)) ;;
            when (len isMember =? 0)
              (send 403
                 (message
                    "En tant que Coordinateur, vous devez être membre de la classe du projet du groupe pour le modifier."))
          else ret tt) ;;
         affected <-
           execute
             "DELETE FROM MembresGroupe WHERE group_id = ? AND user_id = ?"
             (fun st =>
                let where_ mg :=
                  (MembresGroupe.group_id mg =? groupId)
                  && eqPP (MembresGroupe.user_id mg) (Some userId) in
                (affectedRows (membresGroupe st) where_,
                 set_membresGroupe st (delete (membresGroupe st) where_))) ;;
         when (affected =? 0)
           (send 404 (message "Membre non trouvé dans ce groupe.")) ;;
         send 200 (message "Membre supprimé du groupe avec succès.")
     end)
    (send 500
       (message
          "Erreur interne du serveur lors de la suppression du membre.")).

(** *** [GET /api/classes/:classId/students] *)

Definition getClassesStudents (classId : Z) (u : Token.payload)
  : Handler unit :=
  let user_id := Token.id u in
  try_catch_finally
    (getConnection ;;
     isMember <-
       execute "SELECT * FROM ClassMembers WHERE class_id = ? AND user_id = ?"
         (memberOf (Some classId) (Some user_id)) ;;
     when (len isMember =? 0)
       (send 403 (message "Accès non autorisé à cette classe.")) ;;
     students <-
       execute
         "SELECT U.id, U.prenom, U.nom FROM Users U JOIN ClassMembers CM ON U.id = CM.user_id WHERE CM.class_id = ? AND U.role = 'Etudiant' ORDER BY U.prenom, U.nom"
         (reading
            (fun st =>
               order_by
                 (fun x y =>
                    match collate (Users.prenom x) (Users.prenom y) with
                    | Lt => true
                    | Gt => false
                    | Eq => leText (Users.nom x) (Users.nom y)
                    end)
                 (flat_map
                    (fun p =>
                       map (fun _ => p)
                         (filter
                            (fun cm =>
                               (Users.id p =? ClassMembers.user_id cm)
                               && (ClassMembers.class_id cm =? classId))
                            (rows (classMembers st))))
                    (filter (fun p => sameText (Users.role p) "Etudiant")
                       (rows (users st)))))) ;;
     send 200
       (JArr
          (map
             (fun p =>
                JObj [("id", JNum (Users.id p));
                      ("prenom", JStr (Users.prenom p));
                      ("nom", JStr (Users.nom p))])
             students)))
    (send 500
       (message
          "Erreur interne du serveur lors de la récupération des étudiants de la classe.")).

(** *** [PUT /api/users/:userId/role] *)

Definition putUsersRole (userId : Z) (role : option string)
  (u : Token.payload) : Handler unit :=
  let requestingUserId := Token.id u in
  when (falsy role
        || negb (includes ["Etudiant"; "Professeur"; "Coordinateur"]
                   (str role)))
    (send 400 (message "Rôle invalide fourni.")) ;;
  when ((userId =? requestingUserId) && negb (isText role "Coordinateur"))
    (send 403
       (message "Un Coordinateur ne peut pas se rétrograder lui-même.")) ;;
  try_catch_finally
    (getConnection ;;
     affected <-
       execute "UPDATE Users SET role = ? WHERE id = ?"
         (fun st =>
            let where_ p := Users.id p =? userId in
            (affectedRows (users st) where_,
             set_users st
               (update (users st) where_
                  (fun p =>
                     Users.mk (Users.id p) (Users.nom p) (Users.prenom p)
                       (Users.email p) (Users.motDePasse p) (str role))))) ;;
     when (affected =? 0) (send 404 (message "Utilisateur non trouvé.")) ;;
     send 200
       (message
          (String.concat EmptyString
             ["Rôle de l'utilisateur "; toString userId; " mis à jour en ";
              dq; str role; dq; "."])))
    (send 500
       (message
          "Erreur interne du serveur lors de la modification du rôle.")).

(** *** [DELETE /api/users/:userId] *)

(** [SELECT COUNT( * ) AS count FROM Users WHERE role = 'Coordinateur'] *)
Definition countCoordinators (st : Store) : Z :=
  len (filter (fun p => sameText (Users.role p) "Coordinateur")
         (rows (users st))).

Definition deleteUsers (userId : Z) (u : Token.payload) : Handler unit :=
  let requestingUserId := Token.id u in
  when (userId =? requestingUserId)
    (send 403
       (message "Un Coordinateur ne peut pas supprimer son propre compte.")) ;;
  try_catch_finally
    (getConnection ;;
     userToDelete <-
       execute "SELECT role FROM Users WHERE id = ?"
         (select users (fun p => Users.id p =? userId)) ;;
     match userToDelete with
     | p :: _ =>
         if (Users.role p =? "Coordinateur")%string
         then
           count <-
             execute
               "SELECT COUNT( * ) AS count FROM Users WHERE role = 'Coordinateur'"
               (reading countCoordinators) ;;
           when (count =? 1)
             (send 403
                (message
                   "Impossible de supprimer le seul compte Coordinateur."))
         else ret tt
     | [] => ret tt
     end ;;
     affected <-
       execute "DELETE FROM Users WHERE id = ?"
         (fun st =>
            let where_ p := Users.id p =? userId in
            (affectedRows (users st) where_,
             set_users st (delete (users st) where_))) ;;
     when (affected =? 0) (send 404 (message "Utilisateur non trouvé.")) ;;
     send 200
       (message
          (String.concat EmptyString
             ["Utilisateur "; toString userId; " supprimé avec succès."])))
    (send 500
       (message
          "Erreur interne du serveur lors de la suppression de l'utilisateur.")).

(** *** [checkIsGroupCoordinator] *)

(** The end of a handler's scope: the [connection] variable of the next
    handler is its own and starts unset. *)
Definition leave : Handler unit :=
  fun _ s => (Next tt, mkRun (db s) (calls s) false).

(** The guard calls [next()] and does not await it, and the handlers of
    [server.js] are all [async]: a handler behind the guard makes its store
    accesses and gives its answer once the guard's [finally] block has
    ended the guard's connection, and what it throws does not reach the
    guard's [catch].  So the block goes on with [ret tt] where the source
    calls [next()], and the next handler runs after the block. *)
Definition checkIsGroupCoordinator (groupId : Z) (req : Request)
  (next : Request -> Handler unit) : Handler unit :=
  match user req with
  | None => send 401 (message "Token non valide ou manquant.")
  | Some u =>
      if Token.id u =? 0
      then send 401 (message "Token non valide ou manquant.")
      else
        let userId := Token.id u in
        try_catch_finally
          (getConnection ;;
           rows <-
             execute
               "SELECT isGroupCoordinator FROM GroupMembers WHERE groupId = ? AND userId = ?"
               (select groupMembers
                  (fun gm =>
                     (GroupMembers.groupId gm =? groupId)
                     && (GroupMembers.userId gm =? userId))) ;;
           match rows with
           | gm :: _ =>
               if GroupMembers.isGroupCoordinator gm
               then ret tt
               else
                 send 403
                   (message
                      "Accès refusé. Seul le responsable de ce groupe est autorisé.")
           | [] =>
               send 403
                 (message
                    "Accès refusé. Seul le responsable de ce groupe est autorisé.")
           end)
          (send 500 (message "Erreur interne du serveur.")) ;;
        leave ;;
        next req
  end.

(** *** [GET /] *)

Definition getRoot : Handler unit :=
  send 200 (JStr "API React Classroom fonctionne correctement !").

(** *** The route table *)

(** The middleware a route is registered with, before its handler. *)
Inductive Guard : Type :=
| Auth
| AuthorizeRole (roles : list string).

Definition guards (r : Route) : list Guard :=
  match r with
  | PostAuthRegister _ _ _ _ _ => []
  | PostAuthLogin _ _ => []
  | PostClasses _ _ => [Auth; AuthorizeRole ["Professeur"]]
  | GetClassesProfesseur => [Auth; AuthorizeRole ["Professeur"]]
  | GetClassesMe => [Auth]
  | PostClassesJoin _ => [Auth; AuthorizeRole ["Etudiant"]]
  | PostAnnouncements _ _ _ => [Auth; AuthorizeRole ["Professeur"]]
  | GetAnnouncements _ => [Auth]
  | PostDocumentations _ _ _ _ => [Auth; AuthorizeRole ["Professeur"]]
  | GetDocumentations _ => [Auth]
  | PostTasks _ _ _ _ => [Auth; AuthorizeRole ["Professeur"]]
  | GetTasksClass _ => [Auth]
  | PostTasksSubmit _ _ _ => [Auth; AuthorizeRole ["Etudiant"]]
  | GetTasksSubmissions _ => [Auth; AuthorizeRole ["Professeur"]]
  | PutSubmissionsGrade _ _ _ => [Auth; AuthorizeRole ["Professeur"]]
  | GetSubmissions _ => [Auth]
  | GetUsersMeSubmissions => [Auth; AuthorizeRole ["Etudiant"]]
  | PostMessages _ _ _ _ => [Auth]
  | GetMessagesPublicClass _ => [Auth]
  | GetMessagesPrivateMe => [Auth]
  | GetUsersAll => [Auth; AuthorizeRole ["Professeur"; "Coordinateur"]]
  | PostProjects _ _ _ _ _ =>
      [Auth; AuthorizeRole ["Professeur"; "Coordinateur"]]
  | GetProjectsClass _ => [Auth]
  | PostGroups _ _ _ => [Auth; AuthorizeRole ["Professeur"; "Coordinateur"]]
  | GetGroupsProject _ => [Auth]
  | PostGroupsMembers _ _ =>
      [Auth; AuthorizeRole ["Professeur"; "Coordinateur"]]
  | DeleteGroupsMembers _ _ =>
      [Auth; AuthorizeRole ["Professeur"; "Coordinateur"]]
  | GetClassesStudents _ => [Auth]
  | PutUsersRole _ _ => [Auth; AuthorizeRole ["Coordinateur"]]
  | DeleteUsers _ => [Auth; AuthorizeRole ["Coordinateur"]]
  | GetRoot => []
  end.

Definition middleware (g : Guard) (req : Request)
  (next : Request -> Handler unit) : Handler unit :=
  match g with
  | Auth => auth req next
  | AuthorizeRole roles => authorizeRole roles req next
  end.

Definition handler (r : Route) : Request -> Handler unit :=
  match r with
  | PostAuthRegister nom prenom email password role =>
      fun _ => postAuthRegister nom prenom email password role
  | PostAuthLogin email motDePasse => fun _ => postAuthLogin email motDePasse
  | PostClasses nom description => withUser (postClasses nom description)
  | GetClassesProfesseur => withUser getClassesProfesseur
  | GetClassesMe => withUser getClassesMe
  | PostClassesJoin code => withUser (postClassesJoin code)
  | PostAnnouncements class_id titre contenu =>
      withUser (postAnnouncements class_id titre contenu)
  | GetAnnouncements classId => withUser (getAnnouncements classId)
  | PostDocumentations class_id titre description file_path =>
      withUser (postDocumentations class_id titre description file_path)
  | GetDocumentations classId => withUser (getDocumentations classId)
  | PostTasks class_id titre description date_limite =>
      withUser (postTasks class_id titre description date_limite)
  | GetTasksClass classId => withUser (getTasksClass classId)
  | PostTasksSubmit taskId file_path content =>
      withUser (postTasksSubmit taskId file_path content)
  | GetTasksSubmissions taskId => withUser (getTasksSubmissions taskId)
  | PutSubmissionsGrade submissionId grade feedback =>
      withUser (putSubmissionsGrade submissionId grade feedback)
  | GetSubmissions submissionId => withUser (getSubmissions submissionId)
  | GetUsersMeSubmissions => withUser getUsersMeSubmissions
  | PostMessages receiver_id class_id content message_type =>
      withUser (postMessages receiver_id class_id content message_type)
  | GetMessagesPublicClass classId =>
      withUser (getMessagesPublicClass classId)
  | GetMessagesPrivateMe => withUser getMessagesPrivateMe
  | GetUsersAll => withUser getUsersAll
  | PostProjects class_id titre description date_debut date_fin =>
      withUser (postProjects class_id titre description date_debut date_fin)
  | GetProjectsClass classId => withUser (getProjectsClass classId)
  | PostGroups projet_id nom_groupe description =>
      withUser (postGroups projet_id nom_groupe description)
  | GetGroupsProject projectId => withUser (getGroupsProject projectId)
  | PostGroupsMembers groupId user_id_to_add =>
      withUser (postGroupsMembers groupId user_id_to_add)
  | DeleteGroupsMembers groupId userId =>
      withUser (deleteGroupsMembers groupId userId)
  | GetClassesStudents classId => withUser (getClassesStudents classId)
  | PutUsersRole userId role => withUser (putUsersRole userId role)
  | DeleteUsers userId => withUser (deleteUsers userId)
  | GetRoot => fun _ => getRoot
  end.

(** [app.METHOD(path, ...middleware, handler)]: each middleware runs the
    rest of the chain through [next]. *)
Fixpoint chain (gs : list Guard) (h : Request -> Handler unit)
  : Request -> Handler unit :=
  match gs with
  | [] => h
  | g :: gs' => fun req => middleware g req (chain gs' h)
  end.

Definition app (req : Request) : Handler unit :=
  chain (guards (route req)) (handler (route req)) req.

(** One request against a store: the observed outcome, the store left
    behind and the store accesses made. *)
Definition handle (e : Env) (st : Store) (token : option string) (r : Route)
  : Outcome * Store * list Call :=
  serve (app (request token r)) e st.

(** A protected route is one registered behind [auth]. *)
Definition protected (r : Route) : bool :=
  match guards r with
  | Auth :: _ => true
  | _ => false
  end.

(** The role allow-list of a route, if it has a role gate. *)
Definition allowList (r : Route) : option (list string) :=
  match guards r with
  | [Auth; AuthorizeRole roles] => Some roles
  | _ => None
  end.

(** What a request leaves to observe. *)
Definition outcome (x : Outcome * Store * list Call) : Outcome :=
  fst (fst x).

Definition storeAfter (x : Outcome * Store * list Call) : Store :=
  snd (fst x).

Definition storeCalls (x : Outcome * Store * list Call) : list Call :=
  snd x.

(** The status the client receives, if any. *)
Definition statusOf (o : Outcome) : option Z :=
  match o with
  | Responded r => Some (status r)
  | NoResponse => None
  end.

(** The request presents a token that verifies to the identity [u]. *)
Definition authenticates (token : option string) (u : Token.payload) : Prop :=
  falsy token = false /\ jwt_verify (str token) = Some u.

(** The answer of [authorizeRole] to a role outside the allow-list. *)
Definition forbidden : Response :=
  mkResponse 403 (message "Accès non autorisé").

(** One user of the global listing: the columns id, first name, family
    name, e-mail address and role. *)
Definition userEntry (p : Users.row) : Json :=
  JObj [("id", JNum (Users.id p)); ("prenom", JStr (Users.prenom p));
        ("nom", JStr (Users.nom p)); ("email", JStr (Users.email p));
        ("role", JStr (Users.role p))].

(** [x] comes no later than [y] in the order by role, then family name,
    then first name, each compared under the collation. *)
Definition listedBefore (x y : Users.row) : Prop :=
  collate (Users.role x) (Users.role y) = Lt
  \/ (collate (Users.role x) (Users.role y) = Eq
      /\ (collate (Users.nom x) (Users.nom y) = Lt
          \/ (collate (Users.nom x) (Users.nom y) = Eq
              /\ collate (Users.prenom x) (Users.prenom y) <> Gt))).

(** A class-membership row links the user to the class. *)
Definition enrolledIn (st : Store) (user_id : Z) (class_id : option Z)
  : Prop :=
  exists cm,
    In cm (rows (classMembers st))
    /\ ClassMembers.user_id cm = user_id
    /\ class_id = Some (ClassMembers.class_id cm).

(** The row a resubmission writes over [s]. *)
Definition resubmitted (file_path content : option string) (at_ : Z)
  (s : Submissions.row) : Submissions.row :=
  Submissions.mk (Submissions.id s) (Submissions.task_id s)
    (Submissions.student_id s) file_path content at_ (Submissions.grade s)
    (Submissions.correction_feedback s).

(** The rows of the pair (task, student): the submissions of the table
    whose task is [taskId] and whose student is [student_id], in the
    order of the table. *)
Definition submitted (taskId student_id : Z) (st : Store)
  : list Submissions.row :=
  filter
    (fun s =>
       (Submissions.task_id s =? taskId)
       && (Submissions.student_id s =? student_id))
    (rows (submissions st)).

(** The student may submit to the task: it exists and the student is
    enrolled in its class. *)
Definition maySubmit (st : Store) (student_id taskId : Z) : Prop :=
  (exists t, In t (rows (tasks st)) /\ Tasks.id t = taskId)
  /\ (forall t,
         In t (rows (tasks st)) -> Tasks.id t = taskId ->
         exists uc,
           In uc (rows (userClasses st))
           /\ UserClasses.user_id uc = student_id
           /\ Tasks.class_id t = Some (UserClasses.class_id uc)).

(** The full contents of a submission: its own columns, the teacher,
    title, description and deadline of its task, and the names of its
    student. *)
Definition submissionContents (s : Submissions.row) (t : Tasks.row)
  (p : Users.row) : Json :=
  JObj [("id", JNum (Submissions.id s));
        ("task_id", JNum (Submissions.task_id s));
        ("student_id", JNum (Submissions.student_id s));
        ("file_path", JOptStr (Submissions.file_path s));
        ("content", JOptStr (Submissions.content s));
        ("submitted_at", JNum (Submissions.submitted_at s));
        ("grade", JOptNum (Submissions.grade s));
        ("correction_feedback",
         JOptStr (Submissions.correction_feedback s));
        ("professeur_id", JNum (Tasks.professeur_id t));
        ("taskTitre", JStr (Tasks.titre t));
        ("taskDescription", JOptStr (Tasks.description t));
        ("taskDateLimite", JNum (Tasks.date_limite t));
        ("studentNom", JStr (Users.nom p));
        ("studentPrenom", JStr (Users.prenom p))].

(** The submission [s] has the id [submissionId], [t] is its task and
    [p] its student, all three rows of the store. *)
Definition submissionOfId (st : Store) (submissionId : Z)
  (s : Submissions.row) (t : Tasks.row) (p : Users.row) : Prop :=
  In s (rows (submissions st)) /\ Submissions.id s = submissionId
  /\ In t (rows (tasks st)) /\ Tasks.id t = Submissions.task_id s
  /\ In p (rows (users st)) /\ Users.id p = Submissions.student_id s.


(** The handler never changes the part [part] of the store, whatever the
    environment and the state it starts in. *)
Definition keeps {T A : Type} (part : Store -> T) (h : Handler A) : Prop :=
  forall e s, part (db (snd (h e s))) = part (db s).

(** No private message goes from a user to themself. *)
Definition privateApart (st : Store) : Prop :=
  forall m,
    In m (rows (messages st)) ->
    Messages.message_type m = "private" ->
    Messages.receiver_id m <> Some (Messages.sender_id m).

(** The store after the user [sender] was sent a private message of
    their own. *)
Definition withSelfMessage (e : Env) (st : Store) (sender : Z)
  (content : string) : Store :=
  set_messages st
    (mkTable
       (rows (messages st)
        ++ [Messages.mk (auto_inc (messages st)) sender (Some sender) None
              content "private" (now e)])
       (auto_inc (messages st) + 1)).

(** Every pair (task, student) has at most one submission. *)
Definition oneSubmissionPerPair (st : Store) : Prop :=
  forall taskId student_id,
    (List.length (submitted taskId student_id st) <= 1)%nat.

(** The handler's run once the guards of the route have let the request
    through with the identity [u] attached. *)
Definition reach (e : Env) (st : Store) (token : option string)
  (u : Token.payload) (r : Route) : Outcome * Store * list Call :=
  serve (handler r (mkRequest token (Some u) r)) e st.

(** The request is answered with [code] and the store is left as [st]. *)
Definition answers (x : Outcome * Store * list Call) (code : Z) (st : Store)
  : Prop :=
  statusOf (outcome x) = Some code /\ storeAfter x = st.

(** The one answer of a refused login. *)
Definition loginRefused : Response :=
  mkResponse 401 (message "Email ou mot de passe incorrect.").

(** The row registration stores. *)
Definition registered (e : Env) (st : Store)
  (nom prenom email password role : string) : Users.row :=
  Users.mk (auto_inc (users st)) nom prenom email
    (bcrypt_hash password (salt e)) role.

(** The answer of a login as the user [p]. *)
Definition loggedIn (p : Users.row) : Response :=
  mkResponse 200
    (JObj [("message", JStr "Connexion réussie.");
           ("token",
            JStr
              (jwt_sign
                 (Token.mk (Users.id p) (Users.email p) (Users.role p))));
           ("user",
            userJson (Users.id p) (Users.nom p) (Users.prenom p)
              (Users.email p) (Users.role p))]).

(** The request is answered 400 with a message, the store is as before
    and no connection was asked for. *)
Definition rejectedUnseen (x : Outcome * Store * list Call) (st : Store)
  : Prop :=
  exists m, x = (Responded (mkResponse 400 (message m)), st, []).

Definition isExecute (c : Call) : bool :=
  match c with Execute _ => true | _ => false end.

(** The store accesses of a request that was answered: none at all, a
    connection that was refused, or a connection opened, used for
    statements only and ended. *)
Inductive Bracketed : list Call -> Prop :=
| NoAccess : Bracketed []
| Refused : Bracketed [Connect]
| Scoped (l : list Call) :
    Forall (fun c => isExecute c = true) l ->
    Bracketed (Connect :: l ++ [EndConnection]).

(** The handler only executes statements: it adds [Execute] calls to the
    trace and leaves the [connection] variable alone. *)
Definition Statements {A : Type} (h : Handler A) : Prop :=
  forall e s,
  exists l,
    calls (snd (h e s)) = calls s ++ l
    /\ Forall (fun c => isExecute c = true) l
    /\ connection (snd (h e s)) = connection s.

(** A whole request handler, started on a fresh run: if it answers, its
    trace is bracketed; if the store is down it changes nothing, and
    either never asks for the connection or answers 500. *)
Definition Tidy (h : Handler unit) : Prop :=
  forall e st,
    (forall r, fst (h e (mkRun st [] false)) = Sent r ->
               Bracketed (calls (snd (h e (mkRun st [] false)))))
    /\ (db_up e = false ->
        db (snd (h e (mkRun st [] false))) = st
        /\ (calls (snd (h e (mkRun st [] false))) = []
            \/ calls (snd (h e (mkRun st [] false))) = [Connect]
               /\ exists b,
                   fst (h e (mkRun st [] false)) = Sent (mkResponse 500 b))).

(** No class of the store has the code [c]. *)
Definition freeCode (st : Store) (c : string) : bool :=
  len (filter (fun cl => sameText (Classes.code cl) c) (rows (classes st)))
  =? 0.

(** The store after a Teacher created a class: the class row, and the
    Teacher's own enrolment in it. *)
Definition withClass (st : Store) (professeur_id : Z) (nom : string)
  (description : option string) (code : string) : Store :=
  set_userClasses
    (set_classes st
       (insert (classes st)
          (fun id => Classes.mk id nom description code professeur_id)))
    (insert (userClasses st)
       (fun id =>
          UserClasses.mk id professeur_id (auto_inc (classes st))
            "Professeur")).

(** No class has the code of a class created before it. *)
Definition distinctCodes (st : Store) : Prop :=
  ForallOrdPairs
    (fun old new => sameText (Classes.code old) (Classes.code new) = false)
    (rows (classes st)).

(** No user has the e-mail address of a user registered before them. *)
Definition distinctEmails (st : Store) : Prop :=
  ForallOrdPairs
    (fun old new => sameText (Users.email old) (Users.email new) = false)
    (rows (users st)).

(** The routes whose handler has a statement that writes the Users
    table: registration, the role change and the deletion of a user. *)
Definition writesUsers (r : Route) : bool :=
  match r with
  | PostAuthRegister _ _ _ _ _ | PutUsersRole _ _ | DeleteUsers _ => true
  | _ => false
  end.

(** The routes that only read: every GET route, and login. *)
Definition readOnly (r : Route) : bool :=
  match r with
  | PostAuthLogin _ _ | GetClassesProfesseur | GetClassesMe
  | GetAnnouncements _ | GetDocumentations _ | GetTasksClass _
  | GetTasksSubmissions _ | GetSubmissions _ | GetUsersMeSubmissions
  | GetMessagesPublicClass _ | GetMessagesPrivateMe | GetUsersAll
  | GetProjectsClass _ | GetGroupsProject _ | GetClassesStudents _
  | GetRoot => true
  | _ => false
  end.

(** A UserClasses row enrols the user in the class. *)
Definition enrolled (st : Store) (user_id classId : Z) : Prop :=
  exists uc,
    In uc (rows (userClasses st))
    /\ UserClasses.user_id uc = user_id
    /\ UserClasses.class_id uc = classId.

(** The user is the owning Teacher of the class. *)
Definition owns (st : Store) (user_id classId : Z) : Prop :=
  exists c,
    In c (rows (classes st))
    /\ Classes.id c = classId
    /\ Classes.professeur_id c = user_id.

(** The row a grading writes over [r]. *)
Definition graded (grade : Z) (feedback : string) (r : Submissions.row)
  : Submissions.row :=
  Submissions.mk (Submissions.id r) (Submissions.task_id r)
    (Submissions.student_id r) (Submissions.file_path r)
    (Submissions.content r) (Submissions.submitted_at r) (Some grade)
    (Some feedback).

(** One private message as [GET /api/messages/private/me] lists it: the
    message, its sender and, if the Users table has them, its receiver. *)
Definition privateMessageJson
  (x : Messages.row * Users.row * option Users.row) : Json :=
  let '(m, s, r) := x in
  JObj [("id", JNum (Messages.id m));
        ("content", JStr (Messages.content m));
        ("created_at", JNum (Messages.created_at m));
        ("message_type", JStr (Messages.message_type m));
        ("senderPrenom", JStr (Users.prenom s));
        ("senderNom", JStr (Users.nom s));
        ("senderRole", JStr (Users.role s));
        ("senderId", JNum (Users.id s));
        ("receiverPrenom", JOptStr (option_map Users.prenom r));
        ("receiverNom", JOptStr (option_map Users.nom r));
        ("receiverRole", JOptStr (option_map Users.role r));
        ("receiverId", JOptNum (option_map Users.id r))].

(** One announcement as [GET /api/announcements/:classId] lists it, with
    the Users row of its author. *)
Definition announcementJson (x : Announcements.row * Users.row) : Json :=
  let '(a, p) := x in
  JObj [("id", JNum (Announcements.id a));
        ("titre", JStr (Announcements.titre a));
        ("contenu", JStr (Announcements.contenu a));
        ("created_at", JNum (Announcements.created_at a));
        ("professeurNom", JStr (Users.nom p));
        ("professeurPrenom", JStr (Users.prenom p))].

(** The store after the announcement [a] was inserted. *)
Definition withAnnouncement (st : Store) (a : Announcements.row) : Store :=
  set_announcements st
    (mkTable (rows (announcements st) ++ [a])
       (auto_inc (announcements st) + 1)).

(** [rows.length > 0 && rows[0].isGroupCoordinator]: the first GroupMembers
    row of the user in the group marks them as its coordinator. *)
Definition leadsGroup (st : Store) (groupId userId : Z) : bool :=
  match
    filter
      (fun gm =>
         (GroupMembers.groupId gm =? groupId)
         && (GroupMembers.userId gm =? userId))
      (rows (groupMembers st))
  with
  | gm :: _ => GroupMembers.isGroupCoordinator gm
  | [] => false
  end.

(** User ids are keys of the Users table. *)
Definition keyIds (st : Store) : Prop :=
  NoDup (map Users.id (rows (users st))).

(** The store has a Coordinator account. *)
Definition hasCoordinator (st : Store) : Prop :=
  exists p, In p (rows (users st)) /\ Users.role p = "Coordinateur".

(** SQL's comparison [role = 'Coordinateur'] and JavaScript's
    [role === 'Coordinateur'] pick the same rows of the Users table. *)
Definition rolesCompareAlike (st : Store) : Prop :=
  forall p,
    In p (rows (users st)) ->
    (sameText (Users.role p) "Coordinateur" = true
     <-> Users.role p = "Coordinateur").

(** The row [UPDATE Users SET role = ?] writes over [p]. *)
Definition withRole (role : string) (p : Users.row) : Users.row :=
  Users.mk (Users.id p) (Users.nom p) (Users.prenom p) (Users.email p)
    (Users.motDePasse p) role.

(** The store after a sequence of requests, each with its own
    environment and token. *)
Fixpoint afterAll (st : Store)
  (requests : list (Env * option string * Route)) : Store :=
  match requests with
  | [] => st
  | (e, token, r) :: later =>
      afterAll (storeAfter (handle e st token r)) later
  end.

(** The members of a group as [GET /api/groups/project/:projectId] reads
    them: the Users rows its MembresGroupe rows name. *)
Definition membersOf (st : Store) (group : Groupes.row) : list Users.row :=
  flat_map
    (fun mg =>
       filter (fun p => eqP (Users.id p) (MembresGroupe.user_id mg))
         (rows (users st)))
    (filter (fun mg => MembresGroupe.group_id mg =? Groupes.id group)
       (rows (membresGroupe st))).

(** One group of the listing, with its members. *)
Definition groupJson (st : Store) (group : Groupes.row) : Json :=
  JObj [("id", JNum (Groupes.id group));
        ("nom_groupe", JOptStr (Groupes.nom_groupe group));
        ("description", JOptStr (Groupes.description group));
        ("members", JArr (map memberJson (membersOf st group)))].

(** The user is the Teacher of the task. *)
Definition ownsTask (st : Store) (user_id taskId : Z) : Prop :=
  exists t,
    In t (rows (tasks st))
    /\ Tasks.id t = taskId
    /\ Tasks.professeur_id t = user_id.

(** One submission as [GET /api/tasks/:taskId/submissions] lists it, with
    the Users row of the student. *)
Definition taskSubmissionJson (x : Submissions.row * Users.row) : Json :=
  let '(s, p) := x in
  JObj [("id", JNum (Submissions.id s));
        ("file_path", JOptStr (Submissions.file_path s));
        ("content", JOptStr (Submissions.content s));
        ("submitted_at", JNum (Submissions.submitted_at s));
        ("grade", JOptNum (Submissions.grade s));
        ("correction_feedback",
         JOptStr (Submissions.correction_feedback s));
        ("studentNom", JStr (Users.nom p));
        ("studentPrenom", JStr (Users.prenom p))].

(** One submission as [GET /api/users/me/submissions] lists it, with its
    task and the class of the task. *)
Definition mySubmissionJson
  (x : Submissions.row * Tasks.row * Classes.row) : Json :=
  let '(s, t, c) := x in
  JObj [("id", JNum (Submissions.id s));
        ("task_id", JNum (Submissions.task_id s));
        ("file_path", JOptStr (Submissions.file_path s));
        ("content", JOptStr (Submissions.content s));
        ("submitted_at", JNum (Submissions.submitted_at s));
        ("grade", JOptNum (Submissions.grade s));
        ("correction_feedback",
         JOptStr (Submissions.correction_feedback s));
        ("taskTitre", JStr (Tasks.titre t));
        ("taskDescription", JOptStr (Tasks.description t));
        ("taskDateLimite", JNum (Tasks.date_limite t));
        ("className", JStr (Classes.nom c));
        ("classId", JNum (Classes.id c))].

(* ================================================================= *)
(** ** Properties *)

(** *** ORDER BY *)

Section OrderByFacts.
Context {R : Type} (le : R -> R -> bool).

Lemma place_perm (x : R) (l : list R) : Permutation (place le x l) (x :: l).
Proof.
  induction l as [|y l IH]; simpl.
  - apply Permutation_refl.
  - destruct (le x y).
    + apply Permutation_refl.
    + apply Permutation_trans with (y :: x :: l).
      * apply perm_skip, IH.
      * apply perm_swap.
Qed.

Lemma order_by_perm (l : list R) : Permutation (order_by le l) l.
Proof.
  induction l as [|x l IH]; simpl.
  - apply perm_nil.
  - apply Permutation_trans with (x :: order_by le l).
    + apply place_perm.
    + apply perm_skip, IH.
Qed.

Hypothesis le_total : forall x y, le x y = false -> le y x = true.

Lemma place_hdrel (a x : R) (l : list R) :
  le a x = true ->
  HdRel (fun p q => le p q = true) a l ->
  HdRel (fun p q => le p q = true) a (place le x l).
Proof.
  intros Hax Hl. destruct l as [|y l]; simpl.
  - constructor. exact Hax.
  - destruct (le x y); constructor.
    + exact Hax.
    + inversion Hl; assumption.
Qed.

Lemma place_sorted (x : R) (l : list R) :
  Sorted (fun p q => le p q = true) l ->
  Sorted (fun p q => le p q = true) (place le x l).
Proof.
  induction 1 as [|y l Hs IH Hhd]; simpl.
  - repeat constructor.
  - destruct (le x y) eqn:Hxy.
    + constructor; [constructor; assumption | constructor; exact Hxy].
    + constructor; [exact IH |].
      apply place_hdrel; [apply le_total; exact Hxy | exact Hhd].
Qed.

Lemma order_by_sorted (l : list R) :
  Sorted (fun p q => le p q = true) (order_by le l).
Proof.
  induction l as [|x l IH]; simpl.
  - constructor.
  - apply place_sorted, IH.
Qed.

End OrderByFacts.

Lemma Sorted_weaken {R : Type} (P Q : R -> R -> Prop) (l : list R) :
  (forall x y, P x y -> Q x y) -> Sorted P l -> Sorted Q l.
Proof.
  intros HPQ. induction 1 as [|x l Hs IH Hhd]; constructor.
  - exact IH.
  - destruct Hhd; constructor. apply HPQ. assumption.
Qed.

(** *** Authentication comes first *)

(** The routes registered without [auth] are registration, login and the
    liveness page; every other route is protected. *)
Lemma protected_routes (r : Route) :
  protected r = false <->
  (exists nom prenom email password role,
      r = PostAuthRegister nom prenom email password role)
  \/ (exists email motDePasse, r = PostAuthLogin email motDePasse)
  \/ r = GetRoot.
Proof.
  split.
  - destruct r; simpl; intros H; try discriminate H; eauto 10.
  - intros [(? & ? & ? & ? & ? & ->) | [(? & ? & ->) | ->]]; reflexivity.
Qed.

(** On a protected route the chain starts with [auth]. *)
Lemma protected_chain (r : Route) :
  protected r = true -> exists gs, guards r = Auth :: gs.
Proof.
  unfold protected. destruct (guards r) as [|[|roles] gs]; intros H;
    try discriminate H. exists gs. reflexivity.
Qed.

(** C7. A request to a protected route without a token (no header, or an
    empty one) or with a token that fails verification is answered 401,
    and the handler makes no store access: the store is as before and no
    connection was asked for, no statement executed. *)
Theorem C7_unauthenticated_no_store_access :
  forall (e : Env) (st : Store) (token : option string) (r : Route),
    protected r = true ->
    (falsy token = true ->
     handle e st token r
     = (Responded
          (mkResponse 401 (message "Aucun token, autorisation refusée")),
        st, []))
    /\ (falsy token = false -> jwt_verify (str token) = None ->
        handle e st token r
        = (Responded (mkResponse 401 (message "Token non valide")), st, [])).
Proof.
  intros e st token r Hp.
  destruct (protected_chain r Hp) as [gs Hgs].
  unfold handle, serve, app, request; cbn [route]; rewrite Hgs.
  cbn [chain middleware]. unfold auth. cbn [x_auth_token].
  split.
  - intros ->. reflexivity.
  - intros -> ->. reflexivity.
Qed.

(** *** Authenticated requests *)

(** Behind [auth] alone, an authenticated request reaches the handler. *)
Lemma handle_auth_only e st token u r :
  guards r = [Auth] ->
  authenticates token u ->
  handle e st token r = reach e st token u r.
Proof.
  intros Hg [Hf Hv].
  unfold handle, app, request; cbn [route]; rewrite Hg.
  cbn [chain middleware]. unfold auth. cbn [x_auth_token route].
  rewrite Hf, Hv. reflexivity.
Qed.

(** Behind a role gate, an authenticated request reaches the handler when
    the token's role is on the allow-list and is answered 403 otherwise,
    before any store access. *)
Lemma handle_role_gate e st token u r roles :
  guards r = [Auth; AuthorizeRole roles] ->
  authenticates token u ->
  handle e st token r
  = if includes roles (Token.role u)
    then reach e st token u r
    else (Responded forbidden, st, []).
Proof.
  intros Hg [Hf Hv].
  unfold handle, app, request; cbn [route]; rewrite Hg.
  cbn [chain middleware]. unfold auth. cbn [x_auth_token route].
  rewrite Hf, Hv. unfold authorizeRole. cbn [user].
  destruct (includes roles (Token.role u)); reflexivity.
Qed.

(** *** C1: the global user listing *)

Lemma byRoleNomPrenom_total :
  (forall a b, collate b a = CompOpp (collate a b)) ->
  forall x y, byRoleNomPrenom x y = false -> byRoleNomPrenom y x = true.
Proof.
  intros Hanti x y. unfold byRoleNomPrenom, leText.
  rewrite (Hanti (Users.role x) (Users.role y)).
  rewrite (Hanti (Users.nom x) (Users.nom y)).
  rewrite (Hanti (Users.prenom x) (Users.prenom y)).
  destruct (collate (Users.role x) (Users.role y));
    destruct (collate (Users.nom x) (Users.nom y));
    destruct (collate (Users.prenom x) (Users.prenom y));
    simpl; congruence.
Qed.

Lemma byRoleNomPrenom_listedBefore x y :
  byRoleNomPrenom x y = true -> listedBefore x y.
Proof.
  unfold byRoleNomPrenom, listedBefore, leText.
  destruct (collate (Users.role x) (Users.role y));
    [|left; reflexivity | discriminate].
  destruct (collate (Users.nom x) (Users.nom y));
    [|intros _; right; split; [reflexivity | left; reflexivity]
     | discriminate].
  destruct (collate (Users.prenom x) (Users.prenom y)); intros H;
    try discriminate H;
    right; (split; [reflexivity|]); right; split;
    solve [reflexivity | discriminate].
Qed.

(** What [getUsersAll] does once the connection is open. *)
Lemma getUsersAll_up e st token u :
  db_up e = true ->
  reach e st token u GetUsersAll
  = (Responded
       (mkResponse 200
          (JArr (map listedUser (order_by byRoleNomPrenom (rows (users st)))))),
     st,
     [Connect;
      Execute
        "SELECT id, prenom, nom, email, role FROM Users ORDER BY role, nom, prenom";
      EndConnection]).
Proof.
  intros Hup.
  unfold reach, serve, handler, withUser; cbn [user].
  unfold getUsersAll, try_catch_finally, bind, getConnection.
  rewrite Hup. reflexivity.
Qed.

(** C1 (amended). On [GET /api/users/all] the allow-list holds both
    Coordinator and Teacher: an authenticated caller with either role is
    answered 200 with every user of the store, each with the five columns
    of the listing, in the order by role, then family name, then first
    name; a caller with any other role, a Student for one, is answered
    403 and the store is not accessed.  The collation is taken to be
    antisymmetric, as an order is. *)
Theorem C1_users_all_coordinator_or_teacher :
  forall (e : Env) (st : Store) (token : option string) (u : Token.payload),
    (forall a b, collate b a = CompOpp (collate a b)) ->
    db_up e = true ->
    authenticates token u ->
    (Token.role u = "Coordinateur" \/ Token.role u = "Professeur" ->
     exists listed,
       outcome (handle e st token GetUsersAll)
       = Responded (mkResponse 200 (JArr (map userEntry listed)))
       /\ Permutation listed (rows (users st))
       /\ Sorted listedBefore listed
       /\ storeAfter (handle e st token GetUsersAll) = st)
    /\ (Token.role u <> "Coordinateur" -> Token.role u <> "Professeur" ->
        handle e st token GetUsersAll = (Responded forbidden, st, [])).
Proof.
  intros e st token u Hanti Hup Hauth.
  rewrite (handle_role_gate e st token u GetUsersAll
             ["Professeur"; "Coordinateur"] eq_refl Hauth).
  split.
  - intros Hrole.
    assert (Hin : includes ["Professeur"; "Coordinateur"] (Token.role u) = true)
      by (destruct Hrole as [-> | ->]; reflexivity).
    rewrite Hin, (getUsersAll_up e st token u Hup).
    exists (order_by byRoleNomPrenom (rows (users st))).
    repeat split.
    + apply order_by_perm.
    + apply Sorted_weaken with (P := fun p q => byRoleNomPrenom p q = true).
      * apply byRoleNomPrenom_listedBefore.
      * apply order_by_sorted, byRoleNomPrenom_total, Hanti.
  - intros Hc Hp.
    assert (Hout : includes ["Professeur"; "Coordinateur"] (Token.role u) = false).
    { unfold includes; cbn [existsb].
      destruct (String.eqb_spec (Token.role u) "Professeur"); [contradiction|].
      destruct (String.eqb_spec (Token.role u) "Coordinateur"); [contradiction|].
      reflexivity. }
    rewrite Hout. reflexivity.
Qed.

(** *** C2: the order of the checks *)

Lemma filter_none {A} (f : A -> bool) (l : list A) :
  (forall x, In x l -> f x = false) -> filter f l = [].
Proof.
  induction l as [|x l IH]; simpl; intros H; [reflexivity|].
  rewrite (H x (or_introl eq_refl)). apply IH.
  intros y Hy. apply H. right. exact Hy.
Qed.

Lemma filter_head {A} (f : A -> bool) (l : list A) (x : A) (rest : list A) :
  filter f l = x :: rest -> In x l /\ f x = true.
Proof.
  intros H. apply filter_In. rewrite H. left. reflexivity.
Qed.

Lemma allowList_guards (r : Route) (roles : list string) :
  allowList r = Some roles -> guards r = [Auth; AuthorizeRole roles].
Proof.
  unfold allowList.
  destruct (guards r) as [|[|?] [|[|roles'] [|? ?]]]; intros H;
    try discriminate H.
  injection H as ->. reflexivity.
Qed.

(** Unfolds the plumbing of a handler run, down to its statements. *)
Ltac run_handler :=
  cbv beta iota delta
    [reach serve handler withUser user try_catch_finally bind
     getConnection execute when ret send ask throw starve select reading
     finally log db calls connection answers outcome storeAfter statusOf
     fst snd status].

(** Enters the handler of a route reached with the identity [u]. *)
Ltac enter_handler :=
  unfold reach, handler, withUser; cbn [user].

Section Order.
Variables (e : Env) (st : Store) (token : option string) (u : Token.payload).
Hypothesis up : db_up e = true.

(** Creation of an announcement, a documentation or a task: the class is
    looked up together with its owner, so a class that does not exist is
    refused like a class of somebody else. *)
Lemma postAnnouncements_no_class cid titre contenu :
  cid <> 0 -> falsy titre = false -> falsy contenu = false ->
  (forall c, In c (rows (classes st)) -> Classes.id c <> cid) ->
  answers (reach e st token u (PostAnnouncements (Some cid) titre contenu))
    403 st.
Proof.
  intros Hcid Ht Hc Hno. enter_handler.
  unfold postAnnouncements, ownedClass. cbn [falsyZ].
  rewrite (proj2 (Z.eqb_neq _ _) Hcid), Ht, Hc.
  cbn [orb]. run_handler. rewrite up. run_handler.
  rewrite filter_none.
  - split; reflexivity.
  - intros c Hin. cbn [eqP].
    rewrite (proj2 (Z.eqb_neq _ _) (Hno c Hin)). reflexivity.
Qed.

Lemma postDocumentations_no_class cid titre description file_path :
  cid <> 0 -> falsy titre = false ->
  (forall c, In c (rows (classes st)) -> Classes.id c <> cid) ->
  answers
    (reach e st token u
       (PostDocumentations (Some cid) titre description file_path))
    403 st.
Proof.
  intros Hcid Ht Hno. enter_handler.
  unfold postDocumentations, ownedClass. cbn [falsyZ].
  rewrite (proj2 (Z.eqb_neq _ _) Hcid), Ht.
  cbn [orb]. run_handler. rewrite up. run_handler.
  rewrite filter_none.
  - split; reflexivity.
  - intros c Hin. cbn [eqP].
    rewrite (proj2 (Z.eqb_neq _ _) (Hno c Hin)). reflexivity.
Qed.

Lemma postTasks_no_class cid titre description date_limite :
  cid <> 0 -> falsy titre = false -> falsyZ date_limite = false ->
  (forall c, In c (rows (classes st)) -> Classes.id c <> cid) ->
  answers
    (reach e st token u (PostTasks (Some cid) titre description date_limite))
    403 st.
Proof.
  intros Hcid Ht Hd Hno. enter_handler.
  unfold postTasks, ownedClass. rewrite Hd. cbn [falsyZ].
  rewrite (proj2 (Z.eqb_neq _ _) Hcid), Ht.
  cbn [orb]. run_handler. rewrite up. run_handler.
  rewrite filter_none.
  - split; reflexivity.
  - intros c Hin. cbn [eqP].
    rewrite (proj2 (Z.eqb_neq _ _) (Hno c Hin)). reflexivity.
Qed.

Lemma postProjects_teacher_no_class cid titre description date_debut date_fin :
  Token.role u = "Professeur" ->
  (forall c, In c (rows (classes st)) -> Classes.id c <> cid) ->
  answers
    (reach e st token u
       (PostProjects (Some cid) titre description date_debut date_fin))
    403 st.
Proof.
  intros Hrole Hno. enter_handler.
  unfold postProjects. rewrite Hrole.
  run_handler. rewrite up. run_handler.
  rewrite filter_none.
  - split; reflexivity.
  - intros c Hin. cbn [eqP].
    rewrite (proj2 (Z.eqb_neq _ _) (Hno c Hin)). reflexivity.
Qed.

(** Listing the submissions of a task: the task is looked up together with
    its owner. *)
Lemma getTasksSubmissions_no_task taskId :
  (forall t, In t (rows (tasks st)) -> Tasks.id t <> taskId) ->
  answers (reach e st token u (GetTasksSubmissions taskId)) 403 st.
Proof.
  intros Hno. enter_handler. unfold getTasksSubmissions.
  run_handler. rewrite up. run_handler.
  rewrite filter_none.
  - split; reflexivity.
  - intros t Hin.
    rewrite (proj2 (Z.eqb_neq _ _) (Hno t Hin)). reflexivity.
Qed.

(** Grading: a submission that does not exist is refused like a
    submission to somebody else's task. *)
Lemma putSubmissionsGrade_no_submission submissionId grade feedback :
  (forall s, In s (rows (submissions st)) -> Submissions.id s <> submissionId) ->
  answers
    (reach e st token u
       (PutSubmissionsGrade submissionId (Given grade) (Given feedback)))
    403 st.
Proof.
  intros Hno. enter_handler. unfold putSubmissionsGrade.
  cbn [undefined orb]. run_handler. rewrite up. run_handler.
  rewrite filter_none.
  - split; reflexivity.
  - intros s Hin.
    rewrite (proj2 (Z.eqb_neq _ _) (Hno s Hin)). reflexivity.
Qed.

(** Submitting to a task: the task is looked up first ... *)
Lemma postTasksSubmit_no_task taskId file_path content :
  falsy file_path && falsy content = false ->
  (forall t, In t (rows (tasks st)) -> Tasks.id t <> taskId) ->
  answers (reach e st token u (PostTasksSubmit taskId file_path content))
    404 st.
Proof.
  intros Hbody Hno. enter_handler. unfold postTasksSubmit. rewrite Hbody.
  run_handler. rewrite up. run_handler.
  rewrite filter_none.
  - split; reflexivity.
  - intros t Hin.
    rewrite (proj2 (Z.eqb_neq _ _) (Hno t Hin)). reflexivity.
Qed.

(** ... and the enrolment in its class only then. *)
Lemma postTasksSubmit_not_enrolled taskId file_path content :
  falsy file_path && falsy content = false ->
  (exists t, In t (rows (tasks st)) /\ Tasks.id t = taskId) ->
  (forall t uc,
      In t (rows (tasks st)) -> Tasks.id t = taskId ->
      In uc (rows (userClasses st)) ->
      UserClasses.user_id uc = Token.id u ->
      Tasks.class_id t <> Some (UserClasses.class_id uc)) ->
  answers (reach e st token u (PostTasksSubmit taskId file_path content))
    403 st.
Proof.
  intros Hbody (t0 & Hin0 & Hid0) Hnot. enter_handler.
  unfold postTasksSubmit. rewrite Hbody.
  run_handler. rewrite up. run_handler.
  destruct (filter (fun t => Tasks.id t =? taskId) (rows (tasks st)))
    as [|t rest] eqn:Hf.
  - exfalso.
    assert (Hin : In t0 (filter (fun t => Tasks.id t =? taskId)
                           (rows (tasks st)))).
    { apply filter_In. split; [exact Hin0 | apply Z.eqb_eq; exact Hid0]. }
    rewrite Hf in Hin. exact Hin.
  - apply filter_head in Hf. destruct Hf as [Hin Hid].
    apply Z.eqb_eq in Hid.
    rewrite filter_none.
    + split; reflexivity.
    + intros uc Huc.
      destruct (UserClasses.user_id uc =? Token.id u) eqn:Hu;
        [|reflexivity].
      apply Z.eqb_eq in Hu. cbn [andb].
      pose proof (Hnot t uc Hin Hid Huc Hu) as Hne.
      unfold eqP. destruct (Tasks.class_id t) as [c|]; [|reflexivity].
      apply Z.eqb_neq. intros Heq. apply Hne. rewrite Heq. reflexivity.
Qed.

(** Creating a group: the project is looked up first ... *)
Lemma projectInfoOf_none pid :
  (forall p, In p (rows (projets st)) -> Projets.id p <> pid) ->
  projectInfoOf (Some pid) st = [].
Proof.
  intros Hno. unfold projectInfoOf. rewrite filter_none; [reflexivity|].
  intros p Hin. cbn [eqP].
  rewrite (proj2 (Z.eqb_neq _ _) (Hno p Hin)). reflexivity.
Qed.

Lemma postGroups_no_project pid nom_groupe description :
  (forall p, In p (rows (projets st)) -> Projets.id p <> pid) ->
  answers (reach e st token u (PostGroups (Some pid) nom_groupe description))
    404 st.
Proof.
  intros Hno. enter_handler. unfold postGroups.
  run_handler. rewrite up. run_handler.
  rewrite (projectInfoOf_none pid Hno). split; reflexivity.
Qed.

(** ... and the ownership of its class only then. *)
Lemma postGroups_teacher_not_owner projet_id nom_groupe description :
  Token.role u = "Professeur" ->
  projectInfoOf projet_id st <> [] ->
  (forall p c, In (p, c) (projectInfoOf projet_id st) ->
               Classes.professeur_id c <> Token.id u) ->
  answers (reach e st token u (PostGroups projet_id nom_groupe description))
    403 st.
Proof.
  intros Hrole Hsome Hnot. enter_handler. unfold postGroups. rewrite Hrole.
  run_handler. rewrite up. run_handler.
  destruct (projectInfoOf projet_id st) as [|[p c] rest]; [congruence|].
  rewrite (proj2 (Z.eqb_neq _ _) (Hnot p c (or_introl eq_refl))).
  split; reflexivity.
Qed.

(** Adding or removing a group member: the same order, from the group. *)
Lemma groupInfoOf_none groupId :
  (forall g, In g (rows (groupes st)) -> Groupes.id g <> groupId) ->
  groupInfoOf groupId st = [].
Proof.
  intros Hno. unfold groupInfoOf. rewrite filter_none; [reflexivity|].
  intros g Hin.
  rewrite (proj2 (Z.eqb_neq _ _) (Hno g Hin)). reflexivity.
Qed.

Lemma postGroupsMembers_no_group groupId user_id_to_add :
  (forall g, In g (rows (groupes st)) -> Groupes.id g <> groupId) ->
  answers (reach e st token u (PostGroupsMembers groupId user_id_to_add))
    404 st.
Proof.
  intros Hno. enter_handler. unfold postGroupsMembers.
  run_handler. rewrite up. run_handler.
  rewrite (groupInfoOf_none groupId Hno). split; reflexivity.
Qed.

Lemma postGroupsMembers_teacher_not_owner groupId user_id_to_add :
  Token.role u = "Professeur" ->
  groupInfoOf groupId st <> [] ->
  (forall g p c, In (g, p, c) (groupInfoOf groupId st) ->
                 Classes.professeur_id c <> Token.id u) ->
  answers (reach e st token u (PostGroupsMembers groupId user_id_to_add))
    403 st.
Proof.
  intros Hrole Hsome Hnot. enter_handler. unfold postGroupsMembers.
  rewrite Hrole. run_handler. rewrite up. run_handler.
  destruct (groupInfoOf groupId st) as [|[[g p] c] rest]; [congruence|].
  rewrite (proj2 (Z.eqb_neq _ _) (Hnot g p c (or_introl eq_refl))).
  split; reflexivity.
Qed.

Lemma deleteGroupsMembers_no_group groupId userId :
  (forall g, In g (rows (groupes st)) -> Groupes.id g <> groupId) ->
  answers (reach e st token u (DeleteGroupsMembers groupId userId)) 404 st.
Proof.
  intros Hno. enter_handler. unfold deleteGroupsMembers.
  run_handler. rewrite up. run_handler.
  rewrite (groupInfoOf_none groupId Hno). split; reflexivity.
Qed.

Lemma deleteGroupsMembers_teacher_not_owner groupId userId :
  Token.role u = "Professeur" ->
  groupInfoOf groupId st <> [] ->
  (forall g p c, In (g, p, c) (groupInfoOf groupId st) ->
                 Classes.professeur_id c <> Token.id u) ->
  answers (reach e st token u (DeleteGroupsMembers groupId userId)) 403 st.
Proof.
  intros Hrole Hsome Hnot. enter_handler. unfold deleteGroupsMembers.
  rewrite Hrole. run_handler. rewrite up. run_handler.
  destruct (groupInfoOf groupId st) as [|[[g p] c] rest]; [congruence|].
  rewrite (proj2 (Z.eqb_neq _ _) (Hnot g p c (or_introl eq_refl))).
  split; reflexivity.
Qed.

End Order.

(** C2 (amended). The role gate always comes first: a role outside the
    allow-list is answered 403 before any store access.  Behind it (and
    behind the validation of the body), submitting to a task, creating a
    group and adding or removing a group member look the resource up first
    (404 when it does not exist) and test the relationship only then (403).
    Creating an announcement, a documentation, a task or a project, listing
    the submissions of a task and grading make no separate existence check:
    the one lookup tests existence and ownership together, and a Teacher
    naming a resource that does not exist is answered 403. *)
Theorem C2_role_gate_then_lookup :
  forall (e : Env) (st : Store) (token : option string) (u : Token.payload),
    db_up e = true ->
    authenticates token u ->
    (forall r roles,
        allowList r = Some roles ->
        includes roles (Token.role u) = false ->
        handle e st token r = (Responded forbidden, st, []))
    /\ (Token.role u = "Etudiant" ->
        forall taskId file_path content,
          falsy file_path && falsy content = false ->
          ((forall t, In t (rows (tasks st)) -> Tasks.id t <> taskId) ->
           answers (handle e st token (PostTasksSubmit taskId file_path content))
             404 st)
          /\ ((exists t, In t (rows (tasks st)) /\ Tasks.id t = taskId) ->
              (forall t uc,
                  In t (rows (tasks st)) -> Tasks.id t = taskId ->
                  In uc (rows (userClasses st)) ->
                  UserClasses.user_id uc = Token.id u ->
                  Tasks.class_id t <> Some (UserClasses.class_id uc)) ->
              answers
                (handle e st token (PostTasksSubmit taskId file_path content))
                403 st))
    /\ (Token.role u = "Professeur" \/ Token.role u = "Coordinateur" ->
        (forall pid nom_groupe description,
            (forall p, In p (rows (projets st)) -> Projets.id p <> pid) ->
            answers
              (handle e st token (PostGroups (Some pid) nom_groupe description))
              404 st)
        /\ (forall groupId user_id_to_add,
               (forall g, In g (rows (groupes st)) -> Groupes.id g <> groupId) ->
               answers
                 (handle e st token (PostGroupsMembers groupId user_id_to_add))
                 404 st)
        /\ (forall groupId userId,
               (forall g, In g (rows (groupes st)) -> Groupes.id g <> groupId) ->
               answers
                 (handle e st token (DeleteGroupsMembers groupId userId))
                 404 st))
    /\ (Token.role u = "Professeur" ->
        (forall projet_id nom_groupe description,
            projectInfoOf projet_id st <> [] ->
            (forall p c, In (p, c) (projectInfoOf projet_id st) ->
                         Classes.professeur_id c <> Token.id u) ->
            answers
              (handle e st token (PostGroups projet_id nom_groupe description))
              403 st)
        /\ (forall groupId user_id_to_add,
               groupInfoOf groupId st <> [] ->
               (forall g p c, In (g, p, c) (groupInfoOf groupId st) ->
                              Classes.professeur_id c <> Token.id u) ->
               answers
                 (handle e st token (PostGroupsMembers groupId user_id_to_add))
                 403 st)
        /\ (forall groupId userId,
               groupInfoOf groupId st <> [] ->
               (forall g p c, In (g, p, c) (groupInfoOf groupId st) ->
                              Classes.professeur_id c <> Token.id u) ->
               answers
                 (handle e st token (DeleteGroupsMembers groupId userId))
                 403 st))
    /\ (Token.role u = "Professeur" ->
        (forall cid titre contenu,
            cid <> 0 -> falsy titre = false -> falsy contenu = false ->
            (forall c, In c (rows (classes st)) -> Classes.id c <> cid) ->
            answers
              (handle e st token (PostAnnouncements (Some cid) titre contenu))
              403 st)
        /\ (forall cid titre description file_path,
               cid <> 0 -> falsy titre = false ->
               (forall c, In c (rows (classes st)) -> Classes.id c <> cid) ->
               answers
                 (handle e st token
                    (PostDocumentations (Some cid) titre description
                       file_path))
                 403 st)
        /\ (forall cid titre description date_limite,
               cid <> 0 -> falsy titre = false ->
               falsyZ date_limite = false ->
               (forall c, In c (rows (classes st)) -> Classes.id c <> cid) ->
               answers
                 (handle e st token
                    (PostTasks (Some cid) titre description date_limite))
                 403 st)
        /\ (forall cid titre description date_debut date_fin,
               (forall c, In c (rows (classes st)) -> Classes.id c <> cid) ->
               answers
                 (handle e st token
                    (PostProjects (Some cid) titre description date_debut
                       date_fin))
                 403 st)
        /\ (forall taskId,
               (forall t, In t (rows (tasks st)) -> Tasks.id t <> taskId) ->
               answers (handle e st token (GetTasksSubmissions taskId)) 403 st)
        /\ (forall submissionId grade feedback,
               (forall s, In s (rows (submissions st)) ->
                          Submissions.id s <> submissionId) ->
               answers
                 (handle e st token
                    (PutSubmissionsGrade submissionId (Given grade)
                       (Given feedback)))
                 403 st)).
Proof.
  intros e st token u Hup Hauth.
  assert (Hgate : forall r roles,
             guards r = [Auth; AuthorizeRole roles] ->
             includes roles (Token.role u) = true ->
             handle e st token r = reach e st token u r).
  { intros r roles Hg Hin.
    rewrite (handle_role_gate e st token u r roles Hg Hauth), Hin.
    reflexivity. }
  split; [|split; [|split; [|split]]].
  - intros r roles Hallow Hout.
    rewrite (handle_role_gate e st token u r roles
               (allowList_guards r roles Hallow) Hauth), Hout.
    reflexivity.
  - intros Hrole taskId file_path content Hbody.
    rewrite (Hgate (PostTasksSubmit taskId file_path content) ["Etudiant"]
               eq_refl) by (rewrite Hrole; reflexivity).
    split.
    + apply postTasksSubmit_no_task; assumption.
    + apply postTasksSubmit_not_enrolled; assumption.
  - intros Hrole.
    assert (Hin : includes ["Professeur"; "Coordinateur"] (Token.role u) = true)
      by (destruct Hrole as [-> | ->]; reflexivity).
    split; [|split].
    + intros pid nom_groupe description Hno.
      rewrite (Hgate (PostGroups (Some pid) nom_groupe description) _ eq_refl Hin).
      apply postGroups_no_project; assumption.
    + intros groupId user_id_to_add Hno.
      rewrite (Hgate (PostGroupsMembers groupId user_id_to_add) _ eq_refl Hin).
      apply postGroupsMembers_no_group; assumption.
    + intros groupId userId Hno.
      rewrite (Hgate (DeleteGroupsMembers groupId userId) _ eq_refl Hin).
      apply deleteGroupsMembers_no_group; assumption.
  - intros Hrole.
    assert (Hin : includes ["Professeur"; "Coordinateur"] (Token.role u) = true)
      by (rewrite Hrole; reflexivity).
    split; [|split].
    + intros projet_id nom_groupe description Hsome Hnot.
      rewrite (Hgate (PostGroups projet_id nom_groupe description) _ eq_refl Hin).
      apply postGroups_teacher_not_owner; assumption.
    + intros groupId user_id_to_add Hsome Hnot.
      rewrite (Hgate (PostGroupsMembers groupId user_id_to_add) _ eq_refl Hin).
      apply postGroupsMembers_teacher_not_owner; assumption.
    + intros groupId userId Hsome Hnot.
      rewrite (Hgate (DeleteGroupsMembers groupId userId) _ eq_refl Hin).
      apply deleteGroupsMembers_teacher_not_owner; assumption.
  - intros Hrole.
    assert (Hin1 : includes ["Professeur"] (Token.role u) = true)
      by (rewrite Hrole; reflexivity).
    assert (Hin2 : includes ["Professeur"; "Coordinateur"] (Token.role u) = true)
      by (rewrite Hrole; reflexivity).
    split; [|split; [|split; [|split; [|split]]]].
    + intros cid titre contenu Hcid Ht Hc Hno.
      rewrite (Hgate (PostAnnouncements (Some cid) titre contenu) _ eq_refl Hin1).
      apply postAnnouncements_no_class; assumption.
    + intros cid titre description file_path Hcid Ht Hno.
      rewrite (Hgate (PostDocumentations (Some cid) titre description file_path)
                 _ eq_refl Hin1).
      apply postDocumentations_no_class; assumption.
    + intros cid titre description date_limite Hcid Ht Hd Hno.
      rewrite (Hgate (PostTasks (Some cid) titre description date_limite)
                 _ eq_refl Hin1).
      apply postTasks_no_class; assumption.
    + intros cid titre description date_debut date_fin Hno.
      rewrite (Hgate (PostProjects (Some cid) titre description date_debut
                        date_fin) _ eq_refl Hin2).
      apply postProjects_teacher_no_class; assumption.
    + intros taskId Hno.
      rewrite (Hgate (GetTasksSubmissions taskId) _ eq_refl Hin1).
      apply getTasksSubmissions_no_task; assumption.
    + intros submissionId grade feedback Hno.
      rewrite (Hgate (PutSubmissionsGrade submissionId (Given grade)
                        (Given feedback)) _ eq_refl Hin1).
      apply putSubmissionsGrade_no_submission; assumption.
Qed.

(** *** C3: a Coordinator acts on the classes they are a member of *)

Lemma eqP_true (col : Z) (p : option Z) : eqP col p = true <-> p = Some col.
Proof.
  unfold eqP. destruct p as [v|]; split; intros H; try discriminate H.
  - apply Z.eqb_eq in H. rewrite H. reflexivity.
  - injection H as ->. apply Z.eqb_refl.
Qed.

Lemma memberOf_spec (st : Store) (class_id : option Z) (user_id : Z) cm :
  In cm (fst (memberOf class_id (Some user_id) st))
  <-> In cm (rows (classMembers st))
      /\ ClassMembers.user_id cm = user_id
      /\ class_id = Some (ClassMembers.class_id cm).
Proof.
  unfold memberOf, select; cbn [fst]. rewrite filter_In, andb_true_iff.
  rewrite !eqP_true. intuition congruence.
Qed.

Lemma memberOf_enrolled (st : Store) (class_id : option Z) (user_id : Z) :
  fst (memberOf class_id (Some user_id) st) <> []
  <-> enrolledIn st user_id class_id.
Proof.
  unfold enrolledIn. split.
  - destruct (fst (memberOf class_id (Some user_id) st)) as [|cm rest] eqn:Hm;
      [congruence|]. intros _. exists cm.
    apply memberOf_spec. rewrite Hm. left. reflexivity.
  - intros (cm & Hcm) Hnil. apply memberOf_spec in Hcm.
    rewrite Hnil in Hcm. exact Hcm.
Qed.

Section Coordinator.
Variables (e : Env) (st : Store) (token : option string) (u : Token.payload).
Hypothesis up : db_up e = true.
Hypothesis coordinator : Token.role u = "Coordinateur".

(** The token's role is the literal the handlers compare it with. *)
Ltac as_coordinator :=
  rewrite coordinator;
  change (("Coordinateur" =? "Coordinateur")%string) with true;
  cbn [negb]; rewrite ?andb_false_r.

(** The membership test as the handlers run it: without a row the answer
    is 403; with one the handler goes on. *)
Ltac test_membership cid :=
  change (filter
            (fun cm =>
               eqP (ClassMembers.class_id cm) cid
               && eqP (ClassMembers.user_id cm) (Some (Token.id u)))
            (rows (classMembers st)))
    with (fst (memberOf cid (Some (Token.id u)) st));
  destruct (fst (memberOf cid (Some (Token.id u)) st))
    as [|cm members] eqn:Hmember;
  [left; split; [intros Hen; apply memberOf_enrolled in Hen; congruence
                | split; reflexivity]
  | right;
    assert (Hen : enrolledIn st (Token.id u) cid)
      by (apply memberOf_enrolled; rewrite Hmember; discriminate)].

Lemma postProjects_coordinator class_id titre description date_debut date_fin :
  let x :=
    reach e st token u
      (PostProjects class_id titre description date_debut date_fin) in
  (~ enrolledIn st (Token.id u) class_id /\ answers x 403 st)
  \/ (enrolledIn st (Token.id u) class_id
      /\ statusOf (outcome x) = Some 201).
Proof.
  intros x; subst x. enter_handler. unfold postProjects, memberOf.
  as_coordinator. run_handler. rewrite up. run_handler.
  rewrite andb_false_r. run_handler.
  test_membership class_id.
  split; [exact Hen | reflexivity].
Qed.

Lemma postGroups_coordinator projet_id nom_groupe description :
  let x := reach e st token u (PostGroups projet_id nom_groupe description) in
  (projectInfoOf projet_id st = [] /\ answers x 404 st)
  \/ (exists p c rest,
         projectInfoOf projet_id st = (p, c) :: rest
         /\ ((~ enrolledIn st (Token.id u) (Projets.class_id p)
              /\ answers x 403 st)
             \/ (enrolledIn st (Token.id u) (Projets.class_id p)
                 /\ statusOf (outcome x) = Some 201))).
Proof.
  intros x; subst x. enter_handler. unfold postGroups, memberOf.
  as_coordinator. run_handler. rewrite up. run_handler.
  destruct (projectInfoOf projet_id st) as [|[p c] rest].
  - left. split; [reflexivity | split; reflexivity].
  - right. exists p, c, rest. split; [reflexivity|].
    rewrite andb_false_r. run_handler.
    test_membership (Projets.class_id p).
    split; [exact Hen | reflexivity].
Qed.

Lemma postGroupsMembers_coordinator groupId user_id_to_add :
  let x := reach e st token u (PostGroupsMembers groupId user_id_to_add) in
  (groupInfoOf groupId st = [] /\ answers x 404 st)
  \/ (exists g p c rest,
         groupInfoOf groupId st = (g, p, c) :: rest
         /\ ((~ enrolledIn st (Token.id u) (Projets.class_id p)
              /\ answers x 403 st)
             \/ enrolledIn st (Token.id u) (Projets.class_id p))).
Proof.
  intros x; subst x. enter_handler. unfold postGroupsMembers, memberOf.
  as_coordinator. run_handler. rewrite up. run_handler.
  destruct (groupInfoOf groupId st) as [|[[g p] c] rest].
  - left. split; [reflexivity | split; reflexivity].
  - right. exists g, p, c, rest. split; [reflexivity|].
    rewrite andb_false_r. run_handler.
    test_membership (Projets.class_id p). exact Hen.
Qed.

Lemma deleteGroupsMembers_coordinator groupId userId :
  let x := reach e st token u (DeleteGroupsMembers groupId userId) in
  (groupInfoOf groupId st = [] /\ answers x 404 st)
  \/ (exists g p c rest,
         groupInfoOf groupId st = (g, p, c) :: rest
         /\ ((~ enrolledIn st (Token.id u) (Projets.class_id p)
              /\ answers x 403 st)
             \/ enrolledIn st (Token.id u) (Projets.class_id p))).
Proof.
  intros x; subst x. enter_handler. unfold deleteGroupsMembers, memberOf.
  as_coordinator. run_handler. rewrite up. run_handler.
  destruct (groupInfoOf groupId st) as [|[[g p] c] rest].
  - left. split; [reflexivity | split; reflexivity].
  - right. exists g, p, c, rest. split; [reflexivity|].
    rewrite andb_false_r. run_handler.
    test_membership (Projets.class_id p). exact Hen.
Qed.

End Coordinator.

Lemma answers_status x code st code' :
  answers x code st -> statusOf (outcome x) = Some code' -> code = code'.
Proof. intros [Hs _] Hs'. congruence. Qed.

(** C3. For a caller whose token carries the role Coordinator, creating a
    project, creating a group and adding or removing a group member go
    through only if a class-membership row links the caller to the class
    concerned: the class named in the request, the class of the project, or
    the class of the project of the group.  Without that row the answer is
    403 and the store is unchanged. *)
Theorem C3_coordinator_needs_membership :
  forall (e : Env) (st : Store) (token : option string) (u : Token.payload),
    db_up e = true ->
    authenticates token u ->
    Token.role u = "Coordinateur" ->
    (forall class_id titre description date_debut date_fin,
        let x :=
          handle e st token
            (PostProjects class_id titre description date_debut date_fin) in
        (~ enrolledIn st (Token.id u) class_id -> answers x 403 st)
        /\ (statusOf (outcome x) = Some 201 ->
            enrolledIn st (Token.id u) class_id))
    /\ (forall projet_id nom_groupe description,
           let x :=
             handle e st token (PostGroups projet_id nom_groupe description) in
           (forall p c rest,
               projectInfoOf projet_id st = (p, c) :: rest ->
               ~ enrolledIn st (Token.id u) (Projets.class_id p) ->
               answers x 403 st)
           /\ (statusOf (outcome x) = Some 201 ->
               exists p c rest,
                 projectInfoOf projet_id st = (p, c) :: rest
                 /\ enrolledIn st (Token.id u) (Projets.class_id p)))
    /\ (forall groupId user_id_to_add,
           let x :=
             handle e st token (PostGroupsMembers groupId user_id_to_add) in
           (forall g p c rest,
               groupInfoOf groupId st = (g, p, c) :: rest ->
               ~ enrolledIn st (Token.id u) (Projets.class_id p) ->
               answers x 403 st)
           /\ (statusOf (outcome x) = Some 200 ->
               exists g p c rest,
                 groupInfoOf groupId st = (g, p, c) :: rest
                 /\ enrolledIn st (Token.id u) (Projets.class_id p)))
    /\ (forall groupId userId,
           let x := handle e st token (DeleteGroupsMembers groupId userId) in
           (forall g p c rest,
               groupInfoOf groupId st = (g, p, c) :: rest ->
               ~ enrolledIn st (Token.id u) (Projets.class_id p) ->
               answers x 403 st)
           /\ (statusOf (outcome x) = Some 200 ->
               exists g p c rest,
                 groupInfoOf groupId st = (g, p, c) :: rest
                 /\ enrolledIn st (Token.id u) (Projets.class_id p))).
Proof.
  intros e st token u Hup Hauth Hrole.
  assert (Hgate : forall r,
             guards r = [Auth; AuthorizeRole ["Professeur"; "Coordinateur"]] ->
             handle e st token r = reach e st token u r).
  { intros r Hg.
    rewrite (handle_role_gate e st token u r _ Hg Hauth), Hrole.
    reflexivity. }
  split; [|split; [|split]].
  - intros class_id titre description date_debut date_fin x; subst x.
    rewrite (Hgate (PostProjects class_id titre description date_debut date_fin) eq_refl).
    destruct (postProjects_coordinator e st token u Hup Hrole class_id titre
                description date_debut date_fin) as [[Hno H403] | [Hen H201]].
    + split; [intros _; exact H403|].
      intros H. pose proof (answers_status _ _ _ _ H403 H). discriminate.
    + split; [intros Hno; contradiction | intros _; exact Hen].
  - intros projet_id nom_groupe description x; subst x.
    rewrite (Hgate (PostGroups projet_id nom_groupe description) eq_refl).
    destruct (postGroups_coordinator e st token u Hup Hrole projet_id
                nom_groupe description)
      as [[Hnil H404] | (p & c & rest & Hinfo & [[Hno H403] | [Hen H201]])].
    + split; [intros p c rest Hinfo; congruence|].
      intros H. pose proof (answers_status _ _ _ _ H404 H). discriminate.
    + split.
      * intros p' c' rest' Hinfo' _. exact H403.
      * intros H. pose proof (answers_status _ _ _ _ H403 H). discriminate.
    + split.
      * intros p' c' rest' Hinfo' Hno. rewrite Hinfo in Hinfo'.
        injection Hinfo' as <- <- <-. contradiction.
      * intros _. exists p, c, rest. split; assumption.
  - intros groupId user_id_to_add x; subst x.
    rewrite (Hgate (PostGroupsMembers groupId user_id_to_add) eq_refl).
    destruct (postGroupsMembers_coordinator e st token u Hup Hrole groupId
                user_id_to_add)
      as [[Hnil H404]
         | (g & p & c & rest & Hinfo & [[Hno H403] | Hen])].
    + split; [intros g p c rest Hinfo; congruence|].
      intros H. pose proof (answers_status _ _ _ _ H404 H). discriminate.
    + split.
      * intros g' p' c' rest' Hinfo' _. exact H403.
      * intros H. pose proof (answers_status _ _ _ _ H403 H). discriminate.
    + split.
      * intros g' p' c' rest' Hinfo' Hno. rewrite Hinfo in Hinfo'.
        injection Hinfo' as <- <- <- <-. contradiction.
      * intros _. exists g, p, c, rest. split; assumption.
  - intros groupId userId x; subst x.
    rewrite (Hgate (DeleteGroupsMembers groupId userId) eq_refl).
    destruct (deleteGroupsMembers_coordinator e st token u Hup Hrole groupId
                userId)
      as [[Hnil H404]
         | (g & p & c & rest & Hinfo & [[Hno H403] | Hen])].
    + split; [intros g p c rest Hinfo; congruence|].
      intros H. pose proof (answers_status _ _ _ _ H404 H). discriminate.
    + split.
      * intros g' p' c' rest' Hinfo' _. exact H403.
      * intros H. pose proof (answers_status _ _ _ _ H403 H). discriminate.
    + split.
      * intros g' p' c' rest' Hinfo' Hno. rewrite Hinfo in Hinfo'.
        injection Hinfo' as <- <- <- <-. contradiction.
      * intros _. exists g, p, c, rest. split; assumption.
Qed.

(** *** C4: uniqueness violations *)

Lemma filter_some {A} (f : A -> bool) (l : list A) (x : A) :
  In x l -> f x = true -> exists y rest, filter f l = y :: rest.
Proof.
  intros Hin Hf.
  destruct (filter f l) as [|y rest] eqn:Hfl.
  - assert (H : In x (filter f l)) by (apply filter_In; split; assumption).
    rewrite Hfl in H. destruct H.
  - exists y, rest. reflexivity.
Qed.

Lemma len_cons_pos {A} (x : A) (l : list A) : (len (x :: l) >? 0) = true.
Proof.
  unfold len. cbn [List.length]. apply Z.gtb_lt. lia.
Qed.

Lemma len_cons_nonzero {A} (x : A) (l : list A) : (len (x :: l) =? 0) = false.
Proof.
  unfold len. cbn [List.length]. apply Z.eqb_neq. lia.
Qed.

Section Uniqueness.
Variables (e : Env) (st : Store) (token : option string).
Hypothesis up : db_up e = true.

(** Registration with an e-mail address some user already has. *)
Lemma postAuthRegister_duplicate nom prenom email password role :
  falsy nom = false -> falsy prenom = false -> falsy email = false ->
  falsy password = false -> falsy role = false ->
  (exists p, In p (rows (users st)) /\ eqS (Users.email p) email = true) ->
  answers
    (handle e st token (PostAuthRegister nom prenom email password role))
    400 st.
Proof.
  intros Hn Hp He Hpw Hr (p & Hin & Hsame).
  unfold handle, app, request; cbn [route guards chain handler].
  unfold postAuthRegister. rewrite Hn, Hp, He, Hpw, Hr. cbn [orb].
  run_handler. rewrite up. run_handler.
  destruct (filter_some (fun q => eqS (Users.email q) email) _ p Hin Hsame)
    as (y & rest & ->).
  rewrite len_cons_pos. split; reflexivity.
Qed.

Variable u : Token.payload.

(** Joining a class the caller is already enrolled in. *)
Lemma postClassesJoin_duplicate code :
  falsy code = false ->
  (exists c, In c (rows (classes st)) /\ eqS (Classes.code c) code = true) ->
  (forall c,
      In c (rows (classes st)) -> eqS (Classes.code c) code = true ->
      exists uc,
        In uc (rows (userClasses st))
        /\ UserClasses.user_id uc = Token.id u
        /\ UserClasses.class_id uc = Classes.id c) ->
  answers (reach e st token u (PostClassesJoin code)) 409 st.
Proof.
  intros Hcode (c0 & Hin0 & Hc0) Henrolled. enter_handler.
  unfold postClassesJoin. rewrite Hcode.
  run_handler. rewrite up. run_handler.
  destruct (filter_some (fun c => eqS (Classes.code c) code) _ c0 Hin0 Hc0)
    as (c & rest & Hf).
  rewrite Hf. run_handler.
  apply filter_head in Hf. destruct Hf as [Hin Hc].
  destruct (Henrolled c Hin Hc) as (uc & Huc & Huser & Hclass).
  destruct (filter_some
              (fun uc =>
                 (UserClasses.user_id uc =? Token.id u)
                 && (UserClasses.class_id uc =? Classes.id c))
              _ uc Huc) as (y & others & ->).
  { rewrite Huser, Hclass, !Z.eqb_refl. reflexivity. }
  rewrite len_cons_pos. split; reflexivity.
Qed.

(** Adding to a group a student who is already a member of it, by a caller
    allowed to manage the group. *)
Lemma postGroupsMembers_duplicate groupId uid g p c rest :
  groupInfoOf groupId st = (g, p, c) :: rest ->
  (Token.role u = "Professeur" /\ Classes.professeur_id c = Token.id u
   \/ Token.role u = "Coordinateur"
      /\ enrolledIn st (Token.id u) (Projets.class_id p)) ->
  (exists s, In s (rows (users st)) /\ Users.id s = uid) ->
  (forall s, In s (rows (users st)) -> Users.id s = uid ->
             Users.role s = "Etudiant") ->
  enrolledIn st uid (Projets.class_id p) ->
  (exists mg,
      In mg (rows (membresGroupe st))
      /\ MembresGroupe.group_id mg = groupId
      /\ MembresGroupe.user_id mg = Some uid) ->
  answers (reach e st token u (PostGroupsMembers groupId (Some uid))) 409 st.
Proof.
  intros Hinfo Hallowed (s0 & Hs0 & Hid0) Hstudent Hclass
    (mg & Hmg & Hgroup & Huser).
  enter_handler. unfold postGroupsMembers.
  run_handler. rewrite up. run_handler. rewrite Hinfo. run_handler.
  assert (Hgate :
    (negb (Classes.professeur_id c =? Token.id u)
     && negb (Token.role u =? "Coordinateur")%string) = false).
  { destruct Hallowed as [[_ ->] | [-> _]].
    - rewrite Z.eqb_refl. reflexivity.
    - apply andb_false_r. }
  rewrite Hgate. run_handler.
  assert (Hmember :
    (if (Token.role u =? "Coordinateur")%string
     then
       len (fst (memberOf (Projets.class_id p) (Some (Token.id u)) st)) =? 0
     else false) = false).
  { destruct Hallowed as [[-> _] | [-> Hen]]; [reflexivity|].
    change (("Coordinateur" =? "Coordinateur")%string) with true. cbv iota.
    apply memberOf_enrolled in Hen.
    destruct (fst (memberOf (Projets.class_id p) (Some (Token.id u)) st));
      [congruence | apply len_cons_nonzero]. }
  unfold memberOf, select in Hmember; cbn [fst] in Hmember.
  assert (Hfound : exists s others,
             filter (fun q => eqP (Users.id q) (Some uid)) (rows (users st))
             = s :: others).
  { apply (filter_some _ _ s0 Hs0). apply eqP_true. rewrite Hid0.
    reflexivity. }
  destruct Hfound as (s & others & Hfound).
  assert (Hrole : negb (Users.role s =? "Etudiant")%string = false).
  { apply filter_head in Hfound. destruct Hfound as [Hs Hid].
    apply eqP_true in Hid. injection Hid as Hid.
    rewrite (Hstudent s Hs (eq_sym Hid)). reflexivity. }
  assert (Hinclass :
    (len (fst (memberOf (Projets.class_id p) (Some uid) st)) =? 0) = false).
  { apply memberOf_enrolled in Hclass.
    destruct (fst (memberOf (Projets.class_id p) (Some uid) st));
      [congruence | apply len_cons_nonzero]. }
  unfold memberOf, select in Hinclass; cbn [fst] in Hinclass.
  assert (Hexisting : exists m ms,
             filter
               (fun mg =>
                  (MembresGroupe.group_id mg =? groupId)
                  && eqPP (MembresGroupe.user_id mg) (Some uid))
               (rows (membresGroupe st))
             = m :: ms).
  { apply (filter_some _ _ mg Hmg). rewrite Hgroup, Huser, Z.eqb_refl.
    cbn [eqPP andb]. apply Z.eqb_refl. }
  destruct Hexisting as (m & ms & Hexisting).
  unfold memberOf.
  destruct (Token.role u =? "Coordinateur")%string; run_handler;
    rewrite ?Hmember; run_handler;
    rewrite Hfound; run_handler; rewrite Hrole; run_handler;
    rewrite Hinclass; run_handler;
    rewrite Hexisting, len_cons_pos; split; reflexivity.
Qed.

End Uniqueness.

(** C4 (amended). Joining a class the caller is already enrolled in and
    adding to a group a student who is already a member of it are answered
    409.  Registering with an e-mail address that is already registered is
    refused as well, and no user is created, but the answer is 400. *)
Theorem C4_duplicates_rejected :
  forall (e : Env) (st : Store) (token : option string),
    db_up e = true ->
    (forall nom prenom email password role,
        falsy nom = false -> falsy prenom = false -> falsy email = false ->
        falsy password = false -> falsy role = false ->
        (exists p, In p (rows (users st)) /\ eqS (Users.email p) email = true) ->
        answers
          (handle e st token (PostAuthRegister nom prenom email password role))
          400 st)
    /\ (forall u code,
           authenticates token u ->
           Token.role u = "Etudiant" ->
           falsy code = false ->
           (exists c,
               In c (rows (classes st)) /\ eqS (Classes.code c) code = true) ->
           (forall c,
               In c (rows (classes st)) -> eqS (Classes.code c) code = true ->
               exists uc,
                 In uc (rows (userClasses st))
                 /\ UserClasses.user_id uc = Token.id u
                 /\ UserClasses.class_id uc = Classes.id c) ->
           answers (handle e st token (PostClassesJoin code)) 409 st)
    /\ (forall u groupId uid g p c rest,
           authenticates token u ->
           groupInfoOf groupId st = (g, p, c) :: rest ->
           (Token.role u = "Professeur"
            /\ Classes.professeur_id c = Token.id u
            \/ Token.role u = "Coordinateur"
               /\ enrolledIn st (Token.id u) (Projets.class_id p)) ->
           (exists s, In s (rows (users st)) /\ Users.id s = uid) ->
           (forall s, In s (rows (users st)) -> Users.id s = uid ->
                      Users.role s = "Etudiant") ->
           enrolledIn st uid (Projets.class_id p) ->
           (exists mg,
               In mg (rows (membresGroupe st))
               /\ MembresGroupe.group_id mg = groupId
               /\ MembresGroupe.user_id mg = Some uid) ->
           answers (handle e st token (PostGroupsMembers groupId (Some uid)))
             409 st).
Proof.
  intros e st token Hup. split; [|split].
  - intros. apply postAuthRegister_duplicate; assumption.
  - intros u code Hauth Hrole Hcode Hclass Henrolled.
    rewrite (handle_role_gate e st token u (PostClassesJoin code) ["Etudiant"]
               eq_refl Hauth), Hrole.
    apply postClassesJoin_duplicate; assumption.
  - intros u groupId uid g p c rest Hauth Hinfo Hallowed Hs Hstudent Hclass Hmg.
    rewrite (handle_role_gate e st token u (PostGroupsMembers groupId (Some uid))
               ["Professeur"; "Coordinateur"] eq_refl Hauth).
    assert (Hin : includes ["Professeur"; "Coordinateur"] (Token.role u) = true)
      by (destruct Hallowed as [[-> _] | [-> _]]; reflexivity).
    rewrite Hin.
    apply (postGroupsMembers_duplicate e st token Hup u groupId uid g p c rest);
      assumption.
Qed.

(** *** What a request leaves alone *)

Section Keeps.
Context {T : Type} (part : Store -> T).

Lemma keeps_ret {A} (a : A) : keeps part (ret a).
Proof. intros e s. reflexivity. Qed.

Lemma keeps_send {A} code b : keeps part (@send A code b).
Proof. intros e s. reflexivity. Qed.

Lemma keeps_throw {A} : keeps part (@throw A).
Proof. intros e s. reflexivity. Qed.

Lemma keeps_starve {A} : keeps part (@starve A).
Proof. intros e s. reflexivity. Qed.

Lemma keeps_ask : keeps part ask.
Proof. intros e s. reflexivity. Qed.

Lemma keeps_getConnection : keeps part getConnection.
Proof. intros e s. unfold getConnection. destruct (db_up e); reflexivity. Qed.

Lemma keeps_bind {A B} (m : Handler A) (k : A -> Handler B) :
  keeps part m -> (forall a, keeps part (k a)) -> keeps part (bind m k).
Proof.
  intros Hm Hk e s. unfold bind. specialize (Hm e s).
  destruct (m e s) as [[a | r | |] s']; cbn [snd] in *; try exact Hm.
  rewrite (Hk a e s'). exact Hm.
Qed.

Lemma keeps_when c (m : Handler unit) : keeps part m -> keeps part (when c m).
Proof. intros Hm. unfold when. destruct c; [exact Hm | apply keeps_ret]. Qed.

Lemma keeps_execute {A} sql (stmt : Store -> A * Store) :
  (forall st, part (snd (stmt st)) = part st) -> keeps part (execute sql stmt).
Proof.
  intros Hstmt e s. unfold execute. specialize (Hstmt (db s)).
  destruct (stmt (db s)) as [a st']. exact Hstmt.
Qed.

Lemma finally_db s : db (finally s) = db s.
Proof. unfold finally, log. destruct (connection s); reflexivity. Qed.

Lemma keeps_try body handler :
  keeps part body -> keeps part handler ->
  keeps part (try_catch_finally body handler).
Proof.
  intros Hb Hh e s. unfold try_catch_finally. specialize (Hb e s).
  destruct (body e s) as [[a | r | |] s']; cbn [snd] in *;
    rewrite ?finally_db; try exact Hb.
  specialize (Hh e s'). destruct (handler e s') as [r' s''].
  cbn [snd] in *. rewrite finally_db, Hh. exact Hb.
Qed.

Lemma keeps_forEach {A B} (l : list A) (f : A -> Handler B) :
  (forall x, keeps part (f x)) -> keeps part (forEach l f).
Proof.
  intros Hf. induction l as [|x l IH]; cbn [forEach].
  - apply keeps_ret.
  - apply keeps_bind; [apply Hf | intros y].
    apply keeps_bind; [exact IH | intros ys]. apply keeps_ret.
Qed.

Lemma keeps_uniqueClassCode classCode draws :
  keeps part (uniqueClassCode classCode draws).
Proof.
  revert classCode. induction draws as [|next draws IH]; intros classCode;
    cbn [uniqueClassCode];
    (apply keeps_bind; [apply keeps_execute; reflexivity | intros existing]);
    destruct (len existing =? 0);
    first [apply keeps_ret | apply keeps_starve | apply IH].
Qed.

End Keeps.

(** Walks through a handler, statement by statement. *)
Ltac keep :=
  repeat first
    [ apply keeps_ret | apply keeps_send | apply keeps_throw
    | apply keeps_starve | apply keeps_ask | apply keeps_getConnection
    | apply keeps_uniqueClassCode
    | apply keeps_forEach; intros ?
    | apply keeps_try
    | apply keeps_when
    | apply keeps_bind; [|intros ?]
    | apply keeps_execute; intros ?; reflexivity
    | match goal with
      | |- keeps _ (match ?x with _ => _ end) => destruct x
      end ].

(** Walks through the handler of every route but the ones set aside. *)
Ltac walk_handlers :=
  unfold postAuthRegister, postAuthLogin, postClasses, getClassesProfesseur,
    getClassesMe, postClassesJoin, postAnnouncements, getAnnouncements,
    postDocumentations, getDocumentations, postTasks, getTasksClass,
    postTasksSubmit, getTasksSubmissions, putSubmissionsGrade,
    getSubmissions, getUsersMeSubmissions, postMessages,
    getMessagesPublicClass, getMessagesPrivateMe, getUsersAll, postProjects,
    getProjectsClass, postGroups, getGroupsProject, postGroupsMembers,
    deleteGroupsMembers, getClassesStudents, putUsersRole, deleteUsers,
    getRoot;
  cbv zeta; keep.

(** Only [POST /api/messages] writes to the Messages table. *)
Lemma handler_keeps_messages (r : Route) (req : Request) :
  (forall receiver_id class_id content message_type,
      r <> PostMessages receiver_id class_id content message_type) ->
  keeps messages (handler r req).
Proof.
  intros Hr. destruct r; cbn [handler]; unfold withUser;
    try (destruct (user req) as [u|]; [|apply keeps_throw]).
  all: try solve [exfalso; eapply Hr; reflexivity].
  all: walk_handlers.
Qed.

(** Only submitting and grading write to the Submissions table. *)
Lemma handler_keeps_submissions (r : Route) (req : Request) :
  (forall taskId file_path content,
      r <> PostTasksSubmit taskId file_path content) ->
  (forall submissionId grade feedback,
      r <> PutSubmissionsGrade submissionId grade feedback) ->
  keeps submissions (handler r req).
Proof.
  intros Hs Hg. destruct r; cbn [handler]; unfold withUser;
    try (destruct (user req) as [u|]; [|apply keeps_throw]).
  all: try solve [exfalso; eapply Hs; reflexivity].
  all: try solve [exfalso; eapply Hg; reflexivity].
  all: walk_handlers.
Qed.

Lemma serve_store (h : Handler unit) (e : Env) (st : Store) :
  storeAfter (serve h e st) = db (snd (h e (mkRun st [] false))).
Proof.
  unfold serve, storeAfter.
  destruct (h e (mkRun st [] false)) as [[a | r | |] s]; reflexivity.
Qed.

(** Whatever the guards decide, the store is either left alone or handed
    to the route's handler. *)
Lemma chain_store (e : Env) (st : Store) (h : Request -> Handler unit)
  (gs : list Guard) (req : Request) :
  storeAfter (serve (chain gs h req) e st) = st
  \/ exists req',
      storeAfter (serve (chain gs h req) e st)
      = storeAfter (serve (h req') e st).
Proof.
  revert req. induction gs as [|g gs IH]; intros req; cbn [chain].
  - right. exists req. reflexivity.
  - destruct g as [|roles]; cbn [middleware].
    + unfold auth. destruct (falsy (x_auth_token req)); [left; reflexivity|].
      destruct (jwt_verify (str (x_auth_token req))) as [decoded|];
        [apply IH | left; reflexivity].
    + unfold authorizeRole. destruct (user req) as [u|]; [|left; reflexivity].
      destruct (negb (includes roles (Token.role u)));
        [left; reflexivity | apply IH].
Qed.

(** *** C5: one submission per task and student *)

Lemma postTasksSubmit_step e st token u taskId file_path content :
  db_up e = true ->
  falsy file_path && falsy content = false ->
  maySubmit st (Token.id u) taskId ->
  let x := reach e st token u (PostTasksSubmit taskId file_path content) in
  tasks (storeAfter x) = tasks st
  /\ userClasses (storeAfter x) = userClasses st
  /\ match submitted taskId (Token.id u) st with
     | [] =>
         statusOf (outcome x) = Some 201
         /\ submissions (storeAfter x)
            = insert (submissions st)
                (fun id =>
                   Submissions.mk id taskId (Token.id u) file_path content
                     (now e) None None)
     | s :: _ =>
         statusOf (outcome x) = Some 200
         /\ submissions (storeAfter x)
            = update (submissions st)
                (fun r => Submissions.id r =? Submissions.id s)
                (resubmitted file_path content (now e))
     end.
Proof.
  intros Hup Hbody [(t0 & Hin0 & Hid0) Henrolled] x; subst x.
  enter_handler. unfold postTasksSubmit, submitted, submissionOf.
  rewrite Hbody. run_handler. rewrite Hup. run_handler.
  destruct (filter_some (fun t => Tasks.id t =? taskId) _ t0 Hin0
              (proj2 (Z.eqb_eq _ _) Hid0)) as (t & others & Hf).
  rewrite Hf. run_handler.
  apply filter_head in Hf. destruct Hf as [Hin Hid]. apply Z.eqb_eq in Hid.
  destruct (Henrolled t Hin Hid) as (uc & Huc & Huser & Hclass).
  destruct (filter_some
              (fun uc =>
                 (UserClasses.user_id uc =? Token.id u)
                 && eqP (UserClasses.class_id uc) (Tasks.class_id t))
              _ uc Huc) as (y & ys & ->).
  { rewrite Huser, Z.eqb_refl. apply eqP_true. exact Hclass. }
  rewrite len_cons_nonzero. run_handler.
  destruct (filter
              (fun s =>
                 (Submissions.task_id s =? taskId)
                 && (Submissions.student_id s =? Token.id u))
              (rows (submissions st))) as [|s rest];
    repeat split; reflexivity.
Qed.

Lemma filter_map_commute {A} (p : A -> bool) (f : A -> A) (l : list A) :
  (forall x, p (f x) = p x) -> filter p (map f l) = map f (filter p l).
Proof.
  intros Hp. induction l as [|x l IH]; simpl; [reflexivity|].
  rewrite Hp. destruct (p x); simpl; rewrite IH; reflexivity.
Qed.

Lemma submitted_insert st st' taskId student_id file_path content at_ :
  submissions st'
  = insert (submissions st)
      (fun id =>
         Submissions.mk id taskId student_id file_path content at_ None None) ->
  submitted taskId student_id st'
  = submitted taskId student_id st
    ++ [Submissions.mk (auto_inc (submissions st)) taskId student_id file_path
          content at_ None None].
Proof.
  intros Hs. unfold submitted, submissionOf, select; cbn [fst].
  rewrite Hs. unfold insert; cbn [rows]. rewrite filter_app. cbn [filter].
  cbn [Submissions.task_id Submissions.student_id].
  rewrite !Z.eqb_refl. reflexivity.
Qed.

Lemma submitted_update st st' taskId student_id where_ file_path content at_ :
  submissions st'
  = update (submissions st) where_ (resubmitted file_path content at_) ->
  submitted taskId student_id st'
  = map (fun r => if where_ r then resubmitted file_path content at_ r else r)
      (submitted taskId student_id st).
Proof.
  intros Hs. unfold submitted, submissionOf, select; cbn [fst].
  rewrite Hs. unfold update; cbn [rows]. apply filter_map_commute.
  intros r. destruct (where_ r); reflexivity.
Qed.

Lemma update_length {R} (t : Table R) where_ set :
  List.length (rows (update t where_ set)) = List.length (rows t).
Proof. unfold update; cbn [rows]. apply length_map. Qed.

(** What a request does to the Submissions table: it rewrites rows in
    place, keeping their task and student, or appends the first row of a
    pair (task, student). *)
Lemma postTasksSubmit_effect e st taskId file_path content u :
  let x := serve (postTasksSubmit taskId file_path content u) e st in
  (exists f,
      (forall s, Submissions.task_id (f s) = Submissions.task_id s
                 /\ Submissions.student_id (f s) = Submissions.student_id s)
      /\ rows (submissions (storeAfter x)) = map f (rows (submissions st)))
  \/ (exists new,
         submitted (Submissions.task_id new) (Submissions.student_id new) st
         = []
         /\ rows (submissions (storeAfter x))
            = rows (submissions st) ++ [new]).
Proof.
  intros x; subst x.
  assert (Hsame : forall st' : Store,
             st' = st ->
             exists f,
               (forall s,
                   Submissions.task_id (f s) = Submissions.task_id s
                   /\ Submissions.student_id (f s) = Submissions.student_id s)
               /\ rows (submissions st') = map f (rows (submissions st))).
  { intros st' ->. exists (fun s => s). split; [intros s; split; reflexivity|].
    symmetry. apply map_id. }
  unfold postTasksSubmit, submissionOf.
  destruct (falsy file_path && falsy content);
    [left; apply Hsame; reflexivity|].
  destruct (db_up e) eqn:Hup;
    [|left; apply Hsame; run_handler; rewrite Hup; reflexivity].
  run_handler. rewrite Hup. run_handler.
  destruct (filter (fun t => Tasks.id t =? taskId) (rows (tasks st)))
    as [|t ts]; [left; apply Hsame; reflexivity|].
  run_handler.
  match goal with
  | |- context [len ?l =? 0] => destruct (len l =? 0)
  end; [left; apply Hsame; reflexivity|].
  run_handler.
  destruct (filter
              (fun s =>
                 (Submissions.task_id s =? taskId)
                 && (Submissions.student_id s =? Token.id u))
              (rows (submissions st))) as [|s rest] eqn:Hpair.
  - run_handler. right. eexists. split; [|reflexivity].
    cbn [Submissions.task_id Submissions.student_id]. exact Hpair.
  - run_handler. left.
    exists (fun r =>
              if Submissions.id r =? Submissions.id s
              then resubmitted file_path content (now e) r
              else r).
    split; [|reflexivity].
    intros r. destruct (Submissions.id r =? Submissions.id s);
      split; reflexivity.
Qed.

Lemma putSubmissionsGrade_effect e st submissionId grade feedback u :
  let x := serve (putSubmissionsGrade submissionId grade feedback u) e st in
  exists f,
    (forall s, Submissions.task_id (f s) = Submissions.task_id s
               /\ Submissions.student_id (f s) = Submissions.student_id s)
    /\ rows (submissions (storeAfter x)) = map f (rows (submissions st)).
Proof.
  intros x; subst x.
  assert (Hsame : forall st' : Store,
             st' = st ->
             exists f,
               (forall s,
                   Submissions.task_id (f s) = Submissions.task_id s
                   /\ Submissions.student_id (f s) = Submissions.student_id s)
               /\ rows (submissions st') = map f (rows (submissions st))).
  { intros st' ->. exists (fun s => s). split; [intros s; split; reflexivity|].
    symmetry. apply map_id. }
  unfold putSubmissionsGrade.
  destruct (undefined grade || undefined feedback);
    [apply Hsame; reflexivity|].
  destruct (db_up e) eqn:Hup;
    [|apply Hsame; run_handler; rewrite Hup; reflexivity].
  run_handler. rewrite Hup. run_handler.
  match goal with
  | |- context [match ?l with [] => true | _ :: _ => _ end] =>
      destruct (match l with [] => true
                | t :: _ => negb (Tasks.professeur_id t =? Token.id u) end)
  end; [apply Hsame; reflexivity|].
  eexists. split; [|reflexivity].
  intros s. cbv beta. destruct (Submissions.id s =? submissionId);
    split; reflexivity.
Qed.

Lemma submissions_effect e st token r :
  let st' := storeAfter (handle e st token r) in
  (exists f,
      (forall s, Submissions.task_id (f s) = Submissions.task_id s
                 /\ Submissions.student_id (f s) = Submissions.student_id s)
      /\ rows (submissions st') = map f (rows (submissions st)))
  \/ (exists new,
         submitted (Submissions.task_id new) (Submissions.student_id new) st
         = []
         /\ rows (submissions st') = rows (submissions st) ++ [new]).
Proof.
  intros st'; subst st'.
  assert (Hsame : forall st' : Store,
             submissions st' = submissions st ->
             exists f,
               (forall s,
                   Submissions.task_id (f s) = Submissions.task_id s
                   /\ Submissions.student_id (f s) = Submissions.student_id s)
               /\ rows (submissions st') = map f (rows (submissions st))).
  { intros st' ->. exists (fun s => s). split; [intros s; split; reflexivity|].
    symmetry. apply map_id. }
  unfold handle, app.
  destruct (chain_store e st (handler (route (request token r)))
              (guards (route (request token r))) (request token r))
    as [-> | (req & ->)]; [left; apply Hsame; reflexivity|].
  cbn [route request].
  destruct r;
    try (left; apply Hsame; rewrite serve_store;
         apply handler_keeps_submissions; intros; discriminate).
  - cbn [handler]. unfold withUser.
    destruct (user req) as [u|]; [|left; apply Hsame; reflexivity].
    apply postTasksSubmit_effect.
  - cbn [handler]. unfold withUser.
    destruct (user req) as [u|]; [|left; apply Hsame; reflexivity].
    left. apply putSubmissionsGrade_effect.
Qed.

(** No request ever gives a pair (task, student) a second row. *)
Lemma handle_keeps_oneSubmissionPerPair e st token r :
  oneSubmissionPerPair st ->
  oneSubmissionPerPair (storeAfter (handle e st token r)).
Proof.
  intros Hone taskId student_id.
  unfold submitted, submissionOf, select; cbn [fst].
  destruct (submissions_effect e st token r)
    as [(f & Hf & ->) | (new & Hnone & ->)].
  - rewrite filter_map_commute.
    + rewrite length_map. apply Hone.
    + intros s. destruct (Hf s) as [-> ->]. reflexivity.
  - rewrite filter_app, length_app. cbn [filter].
    destruct ((Submissions.task_id new =? taskId)
              && (Submissions.student_id new =? student_id)) eqn:Hpair.
    + apply andb_prop in Hpair. destruct Hpair as [Ht Hs].
      apply Z.eqb_eq in Ht. apply Z.eqb_eq in Hs. subst taskId student_id.
      unfold submitted, submissionOf, select in Hnone; cbn [fst] in Hnone.
      rewrite Hnone. cbn [List.length]. lia.
    + cbn [List.length]. rewrite Nat.add_0_r. apply Hone.
Qed.

(** C5. A student who may submit to a task and has at most one submission
    for it submits twice.  After the first request the pair (task, student)
    has exactly one row; after the second it still has exactly one, the
    same row (same id, task and student) with the file path, content and
    timestamp of the second request, and the table has not grown. *)
Theorem C5_submission_upsert :
  forall (e1 e2 : Env) (st : Store) (token : option string)
         (u : Token.payload) (taskId : Z)
         (file_path1 content1 file_path2 content2 : option string),
    db_up e1 = true -> db_up e2 = true ->
    authenticates token u ->
    Token.role u = "Etudiant" ->
    falsy file_path1 && falsy content1 = false ->
    falsy file_path2 && falsy content2 = false ->
    maySubmit st (Token.id u) taskId ->
    (List.length (submitted taskId (Token.id u) st) <= 1)%nat ->
    let first :=
      handle e1 st token (PostTasksSubmit taskId file_path1 content1) in
    let second :=
      handle e2 (storeAfter first) token
        (PostTasksSubmit taskId file_path2 content2) in
    exists s1,
      submitted taskId (Token.id u) (storeAfter first) = [s1]
      /\ submitted taskId (Token.id u) (storeAfter second)
         = [resubmitted file_path2 content2 (now e2) s1]
      /\ statusOf (outcome second) = Some 200
      /\ List.length (rows (submissions (storeAfter second)))
         = List.length (rows (submissions (storeAfter first))).
Proof.
  intros e1 e2 st token u taskId fp1 c1 fp2 c2 Hup1 Hup2 Hauth Hrole Hb1 Hb2
    Hmay Hmost first second.
  assert (Hgate : forall e st' fp c,
             handle e st' token (PostTasksSubmit taskId fp c)
             = reach e st' token u (PostTasksSubmit taskId fp c)).
  { intros e st' fp c.
    rewrite (handle_role_gate e st' token u (PostTasksSubmit taskId fp c)
               ["Etudiant"] eq_refl Hauth), Hrole.
    reflexivity. }
  subst second first. rewrite !Hgate.
  destruct (postTasksSubmit_step e1 st token u taskId fp1 c1 Hup1 Hb1 Hmay)
    as (Ht1 & Hu1 & Hs1).
  set (st1 := storeAfter (reach e1 st token u (PostTasksSubmit taskId fp1 c1)))
    in *.
  assert (Hone : exists s1, submitted taskId (Token.id u) st1 = [s1]).
  { destruct (submitted taskId (Token.id u) st) as [|s rest] eqn:Hsub.
    - destruct Hs1 as [_ Hs1].
      rewrite (submitted_insert st st1 _ _ _ _ _ Hs1), Hsub.
      eexists. reflexivity.
    - destruct rest as [|s' rest]; [|cbn [List.length] in Hmost; lia].
      destruct Hs1 as [_ Hs1].
      rewrite (submitted_update st st1 _ _ _ _ _ _ Hs1), Hsub.
      eexists. reflexivity. }
  destruct Hone as (s1 & Hone). exists s1.
  assert (Hmay1 : maySubmit st1 (Token.id u) taskId).
  { unfold maySubmit. rewrite Ht1, Hu1. exact Hmay. }
  destruct (postTasksSubmit_step e2 st1 token u taskId fp2 c2 Hup2 Hb2 Hmay1)
    as (_ & _ & Hs2).
  rewrite Hone in Hs2. destruct Hs2 as [Hstatus Hs2].
  split; [exact Hone|]. split; [|split].
  - rewrite (submitted_update st1 _ _ _ _ _ _ _ Hs2), Hone.
    cbn [map]. rewrite Z.eqb_refl. reflexivity.
  - exact Hstatus.
  - rewrite Hs2. apply update_length.
Qed.

(** *** C6: a Coordinator cannot remove the last Coordinator *)



(** *** C8: the check of a private message to oneself *)

(** What [POST /api/messages] does to the Messages table: nothing, or one
    more row, sent by the caller and, when private and not addressed by a
    text, to somebody else. *)
Lemma postMessages_effect e st receiver_id class_id content message_type u :
  let x :=
    serve (postMessages receiver_id class_id content message_type u) e st in
  messages (storeAfter x) = messages st
  \/ exists m,
      rows (messages (storeAfter x)) = rows (messages st) ++ [m]
      /\ Messages.sender_id m = Token.id u
      /\ ((forall text, receiver_id <> Some (IdText text)) ->
          Messages.message_type m = "private" ->
          Messages.receiver_id m <> Some (Messages.sender_id m)).
Proof.
  intros x; subst x. unfold postMessages.
  destruct (db_up e) eqn:Hup;
    [|left; run_handler; rewrite Hup; reflexivity].
  run_handler. rewrite Hup. run_handler.
  destruct (falsy content || trimIsEmpty (str content));
    [left; reflexivity|]. run_handler.
  destruct (isText message_type "private") eqn:Hprivate.
  - rewrite orb_true_r. cbn [negb]. run_handler.
    destruct (falsyId receiver_id); [left; reflexivity|]. run_handler.
    destruct (same (Token.id u) receiver_id) eqn:Hsame;
      [left; reflexivity|]. run_handler.
    destruct (len
                (filter (fun p => eqP (Users.id p) (bindId receiver_id))
                   (rows (users st))) =? 0);
      [left; reflexivity|].
    right. eexists. split; [reflexivity|]. split; [reflexivity|].
    intros Hnumber _ Hto.
    cbn [Messages.receiver_id Messages.sender_id] in Hto.
    destruct receiver_id as [[n | text]|]; cbn [bindId same] in Hto, Hsame.
    + injection Hto as ->. rewrite Z.eqb_refl in Hsame. discriminate Hsame.
    + apply (Hnumber text). reflexivity.
    + discriminate Hto.
  - rewrite orb_false_r.
    destruct (isText message_type "public") eqn:Hpublic;
      [|left; reflexivity].
    cbn [negb]. run_handler.
    destruct (falsyZ class_id); [left; reflexivity|]. run_handler.
    match goal with
    | |- context [len ?l =? 0] => destruct (len l =? 0)
    end; [left; reflexivity|]. run_handler.
    destruct (filter (fun p => Users.id p =? Token.id u) (rows (users st)))
      as [|p ps]; [left; reflexivity|].
    destruct (negb (includes ["Professeur"; "Coordinateur"] (Users.role p)));
      [left; reflexivity|].
    right. eexists. split; [reflexivity|]. split; [reflexivity|].
    intros _ Htype. cbn [Messages.message_type] in Htype.
    unfold isText in Hprivate. destruct message_type as [t|];
      cbn [str] in Htype; [|discriminate Htype].
    rewrite Htype in Hprivate. discriminate Hprivate.
Qed.

Lemma handle_keeps_messages e st token r :
  (forall receiver_id class_id content message_type,
      r <> PostMessages receiver_id class_id content message_type) ->
  messages (storeAfter (handle e st token r)) = messages st.
Proof.
  intros Hr. unfold handle, app.
  destruct (chain_store e st (handler (route (request token r)))
              (guards (route (request token r))) (request token r))
    as [-> | (req & ->)]; [reflexivity|].
  rewrite serve_store. cbn [route request].
  apply (handler_keeps_messages r req Hr).
Qed.

Lemma privateApart_grows st st' m :
  privateApart st ->
  rows (messages st') = rows (messages st) ++ [m] ->
  (Messages.message_type m = "private" ->
   Messages.receiver_id m <> Some (Messages.sender_id m)) ->
  privateApart st'.
Proof.
  intros Hst Hrows Hm m' Hin. rewrite Hrows in Hin.
  apply in_app_or in Hin. destruct Hin as [Hin | [<- | []]].
  - apply Hst. exact Hin.
  - exact Hm.
Qed.

(** C8.  The handler compares the sender with the receiver of the body by
    [===].  A private message whose receiver is the sender's id as a
    number is refused: no Message row is created and, the store being up,
    the answer is 400; and as long as receivers are given as numbers, a
    store in which no private message goes from a user to themself stays
    so, whatever the request.  A receiver given as a text that the store
    reads as the sender's id passes the comparison: the request is
    answered 201 and the store gains a private message whose receiver is
    its sender. *)
Theorem C8_self_message_check_misses_text_ids :
  forall (e : Env) (st : Store) (token : option string),
    (forall u class_id content,
        authenticates token u ->
        let x :=
          handle e st token
            (PostMessages (Some (IdNum (Token.id u))) class_id content
               (Some "private")) in
        storeAfter x = st
        /\ (db_up e = true -> statusOf (outcome x) = Some 400))
    /\ (forall r,
           (forall text class_id content message_type,
               r <> PostMessages (Some (IdText text)) class_id content
                      message_type) ->
           privateApart st ->
           privateApart (storeAfter (handle e st token r)))
    /\ (forall u text class_id content p,
           db_up e = true ->
           authenticates token u ->
           text <> EmptyString ->
           sql_number text = Some (Token.id u) ->
           content <> EmptyString -> trimIsEmpty content = false ->
           In p (rows (users st)) -> Users.id p = Token.id u ->
           let x :=
             handle e st token
               (PostMessages (Some (IdText text)) class_id (Some content)
                  (Some "private")) in
           statusOf (outcome x) = Some 201
           /\ storeAfter x = withSelfMessage e st (Token.id u) content).
Proof.
  intros e st token. split; [|split].
  - intros u class_id content Hauth x; subst x.
    rewrite (handle_auth_only e st token u
               (PostMessages (Some (IdNum (Token.id u))) class_id content
                  (Some "private")) eq_refl Hauth).
    enter_handler. unfold postMessages.
    destruct (db_up e) eqn:Hup.
    + run_handler. rewrite Hup. run_handler.
      destruct (falsy content || trimIsEmpty (str content));
        [split; reflexivity|].
      run_handler. cbn [falsyId same]. rewrite Z.eqb_refl.
      destruct (Token.id u =? 0); split; reflexivity.
    + run_handler. rewrite Hup. split; [reflexivity | discriminate].
  - intros r Hnumber Hst.
    destruct r;
      try (intros m;
           rewrite handle_keeps_messages by (intros; discriminate);
           apply Hst).
    unfold handle, app.
    destruct (chain_store e st
                (handler
                   (route
                      (request token
                         (PostMessages receiver_id class_id content
                            message_type))))
                (guards
                   (route
                      (request token
                         (PostMessages receiver_id class_id content
                            message_type))))
                (request token
                   (PostMessages receiver_id class_id content message_type)))
      as [-> | (req & ->)]; [exact Hst|].
    cbn [route request handler]. unfold withUser.
    destruct (user req) as [u|]; [|exact Hst].
    destruct (postMessages_effect e st receiver_id class_id content
                message_type u) as [Hsame | (m & Hrows & _ & Hm)].
    + intros m. rewrite Hsame. apply Hst.
    + apply (privateApart_grows st _ m Hst Hrows). apply Hm.
      intros text ->.
      apply (Hnumber text class_id content message_type). reflexivity.
  - intros u text class_id content p Hup Hauth Htext Hreads Hcontent Htrim
      Hp Hid x; subst x.
    rewrite (handle_auth_only e st token u
               (PostMessages (Some (IdText text)) class_id (Some content)
                  (Some "private")) eq_refl Hauth).
    enter_handler. unfold postMessages, withSelfMessage.
    run_handler. rewrite Hup. run_handler.
    cbn [falsy str]. rewrite (proj2 (String.eqb_neq _ _) Hcontent), Htrim.
    cbn [orb isText negb]. run_handler.
    change (("private" =? "public")%string) with false.
    change (("private" =? "private")%string) with true.
    cbn [orb negb falsyId same bindId]. run_handler.
    rewrite (proj2 (String.eqb_neq _ _) Htext). run_handler.
    rewrite Hreads.
    destruct (filter_some (fun q => eqP (Users.id q) (Some (Token.id u)))
                (rows (users st)) p Hp) as (q & qs & ->).
    { cbn [eqP]. rewrite Hid. apply Z.eqb_refl. }
    rewrite len_cons_nonzero. run_handler. split; reflexivity.
Qed.

(** *** C9: registration stores the requested role *)

(** C9. Registration needs no token (whatever the [x-auth-token] header
    holds, it is not looked at).  With the five fields present and an
    e-mail address no user has, the new user is stored with exactly the
    role of the request body, whatever that text is, Coordinateur
    included; the answer is 201 and the role claim of the token issued is
    that same role. *)
Theorem C9_register_stores_requested_role :
  forall (e : Env) (st : Store) (token : option string)
         (nom prenom email password role : string),
    db_up e = true ->
    nom <> EmptyString -> prenom <> EmptyString -> email <> EmptyString ->
    password <> EmptyString -> role <> EmptyString ->
    (forall p, In p (rows (users st)) ->
               sameText (Users.email p) email = false) ->
    let x :=
      handle e st token
        (PostAuthRegister (Some nom) (Some prenom) (Some email)
           (Some password) (Some role)) in
    let id := auto_inc (users st) in
    outcome x
    = Responded
        (mkResponse 201
           (JObj [("message", JStr "Utilisateur enregistré avec succès !");
                  ("token", JStr (jwt_sign (Token.mk id email role)));
                  ("user", userJson id nom prenom email role)]))
    /\ rows (users (storeAfter x))
       = rows (users st)
         ++ [Users.mk id nom prenom email (bcrypt_hash password (salt e))
               role].
Proof.
  intros e st token nom prenom email password role Hup Hn Hp He Hpw Hr
    Hunused x id; subst x id.
  unfold handle, app, request; cbn [route guards chain handler].
  unfold postAuthRegister. cbn [falsy].
  rewrite (proj2 (String.eqb_neq _ _) Hn), (proj2 (String.eqb_neq _ _) Hp),
    (proj2 (String.eqb_neq _ _) He), (proj2 (String.eqb_neq _ _) Hpw),
    (proj2 (String.eqb_neq _ _) Hr).
  cbn [orb]. run_handler. rewrite Hup. run_handler.
  rewrite filter_none by (intros p Hin; cbn [eqS]; apply Hunused; exact Hin).
  split; reflexivity.
Qed.

(** *** C10: reading one submission *)

(** The rows the lookup of [GET /api/submissions/:submissionId] finds
    are the submissions with the id asked for, each with its task and its
    student. *)
Lemma submissionView_spec st submissionId s t p :
  In (s, t, p) (submissionView submissionId st)
  <-> submissionOfId st submissionId s t p.
Proof.
  unfold submissionView, submissionOfId. rewrite in_flat_map. split.
  - intros (s' & Hs' & Hin). apply in_flat_map in Hin.
    destruct Hin as (t' & Ht' & Hin). apply in_map_iff in Hin.
    destruct Hin as (p' & Heq & Hp'). injection Heq as <- <- <-.
    apply filter_In in Hs'. destruct Hs' as [Hs' Hid].
    apply filter_In in Ht'. destruct Ht' as [Ht' Htask].
    apply filter_In in Hp'. destruct Hp' as [Hp' Hstudent].
    apply Z.eqb_eq in Hid, Htask, Hstudent.
    repeat split; congruence.
  - intros (Hs & Hid & Ht & Htask & Hp & Hstudent). exists s. split.
    + apply filter_In. split; [exact Hs | apply Z.eqb_eq; exact Hid].
    + apply in_flat_map. exists t. split.
      * apply filter_In. split; [exact Ht|]. apply Z.eqb_eq. congruence.
      * apply in_map. apply filter_In. split; [exact Hp|].
        apply Z.eqb_eq. congruence.
Qed.

(** C10. On [GET /api/submissions/:submissionId] the comparison with the
    submitting student is made only for the role Etudiant and the
    comparison with the task's teacher only for the role Professeur.  An
    authenticated caller with any other role, Coordinateur for one, who
    names an existing submission (a row of Submissions with that id whose
    task and student are in the store) is answered 200 with the full
    contents of a submission with that id, its task and its student,
    whoever the caller is; the store is unchanged and the lookup of the
    submission is the only statement executed. *)
Theorem C10_other_roles_read_any_submission :
  forall (e : Env) (st : Store) (token : option string) (u : Token.payload)
         (submissionId : Z) (s0 : Submissions.row) (t0 : Tasks.row)
         (p0 : Users.row),
    db_up e = true ->
    authenticates token u ->
    Token.role u <> "Etudiant" ->
    Token.role u <> "Professeur" ->
    submissionOfId st submissionId s0 t0 p0 ->
    exists s t p sql,
      submissionOfId st submissionId s t p
      /\ handle e st token (GetSubmissions submissionId)
         = (Responded (mkResponse 200 (submissionContents s t p)), st,
            [Connect; Execute sql; EndConnection]).
Proof.
  intros e st token u submissionId s0 t0 p0 Hup Hauth Hs Hp Hexists.
  apply submissionView_spec in Hexists.
  rewrite (handle_auth_only e st token u (GetSubmissions submissionId)
             eq_refl Hauth).
  enter_handler. unfold getSubmissions.
  run_handler. rewrite Hup. run_handler.
  destruct (submissionView submissionId st) as [|[[s t] p] others] eqn:Hview;
    [destruct Hexists|].
  exists s, t, p. run_handler.
  rewrite (proj2 (String.eqb_neq _ _) Hs), (proj2 (String.eqb_neq _ _) Hp).
  eexists. split; [|reflexivity].
  apply submissionView_spec. rewrite Hview. left. reflexivity.
Qed.


(* ================================================================= *)
(** ** Further properties of the handlers *)

(** *** Registration and login *)

Lemma postAuthLogin_accepts e st token email motDePasse user others :
  db_up e = true ->
  falsy email = false -> falsy motDePasse = false ->
  filter (fun p => eqS (Users.email p) email) (rows (users st))
  = user :: others ->
  bcrypt_compare (str motDePasse) (Users.motDePasse user) = true ->
  let x := handle e st token (PostAuthLogin email motDePasse) in
  outcome x = Responded (loggedIn user) /\ storeAfter x = st.
Proof.
  intros Hup He Hpw Hf Hok x; subst x.
  unfold handle, app, request; cbn [route guards chain handler].
  unfold postAuthLogin. rewrite He, Hpw. cbn [orb].
  run_handler. rewrite Hup. run_handler. rewrite Hf. run_handler.
  rewrite Hok. split; reflexivity.
Qed.

Lemma postAuthRegister_creates e st token nom prenom email password role :
  db_up e = true ->
  nom <> EmptyString -> prenom <> EmptyString -> email <> EmptyString ->
  password <> EmptyString -> role <> EmptyString ->
  (forall p, In p (rows (users st)) ->
             sameText (Users.email p) email = false) ->
  storeAfter
    (handle e st token
       (PostAuthRegister (Some nom) (Some prenom) (Some email) (Some password)
          (Some role)))
  = set_users st
      (mkTable
         (rows (users st) ++ [registered e st nom prenom email password role])
         (auto_inc (users st) + 1)).
Proof.
  intros Hup Hn Hp He Hpw Hr Hunused.
  unfold handle, app, request; cbn [route guards chain handler].
  unfold postAuthRegister. cbn [falsy].
  rewrite (proj2 (String.eqb_neq _ _) Hn), (proj2 (String.eqb_neq _ _) Hp),
    (proj2 (String.eqb_neq _ _) He), (proj2 (String.eqb_neq _ _) Hpw),
    (proj2 (String.eqb_neq _ _) Hr).
  cbn [orb]. run_handler. rewrite Hup. run_handler.
  rewrite filter_none by (intros p Hin; cbn [eqS]; apply Hunused; exact Hin).
  reflexivity.
Qed.

(** A failed login gives nothing away: whether no account has the e-mail
    address or the password does not match, the response, the store and
    the statements executed are the same. *)
Theorem login_refusals_indistinguishable :
  forall (e : Env) (st : Store) (token : option string)
         (email motDePasse : option string),
    db_up e = true ->
    falsy email = false -> falsy motDePasse = false ->
    (forall p, In p (rows (users st)) -> eqS (Users.email p) email = true ->
               bcrypt_compare (str motDePasse) (Users.motDePasse p) = false) ->
    handle e st token (PostAuthLogin email motDePasse)
    = (Responded loginRefused, st,
       [Connect;
        Execute
          "SELECT id, nom, prenom, email, motDePasse, role FROM Users WHERE email = ?";
        EndConnection]).
Proof.
  intros e st token email motDePasse Hup He Hpw Hno.
  unfold handle, app, request; cbn [route guards chain handler].
  unfold postAuthLogin. rewrite He, Hpw. cbn [orb].
  run_handler. rewrite Hup. run_handler.
  destruct (filter (fun u => eqS (Users.email u) email) (rows (users st)))
    as [|user others] eqn:Hf.
  - reflexivity.
  - apply filter_head in Hf. destruct Hf as [Hin Hmail].
    run_handler. rewrite (Hno user Hin Hmail). reflexivity.
Qed.

(** A successful login answers for the account found: the token and the
    user of the response carry the id, e-mail address and role of the
    stored row, not anything of the request, and the store is unchanged. *)
Theorem login_issues_stored_identity :
  forall (e : Env) (st : Store) (token : option string)
         (email motDePasse : option string) (user : Users.row)
         (others : list Users.row),
    db_up e = true ->
    falsy email = false -> falsy motDePasse = false ->
    filter (fun p => eqS (Users.email p) email) (rows (users st))
    = user :: others ->
    bcrypt_compare (str motDePasse) (Users.motDePasse user) = true ->
    let x := handle e st token (PostAuthLogin email motDePasse) in
    outcome x = Responded (loggedIn user) /\ storeAfter x = st.
Proof.
  intros e st token email motDePasse account others Hup He Hpw Hf Hok.
  apply (postAuthLogin_accepts e st token email motDePasse account others);
    assumption.
Qed.

(** Registration followed by login: with a hasher that accepts the hashes
    it makes and a collation under which the address equals itself, the
    account just registered logs in with its password, and the token it
    gets names the same id, e-mail address and role as the account. *)
Theorem register_then_login :
  forall (e1 e2 : Env) (st : Store) (token1 token2 : option string)
         (nom prenom email password role : string),
    db_up e1 = true -> db_up e2 = true ->
    nom <> EmptyString -> prenom <> EmptyString -> email <> EmptyString ->
    password <> EmptyString -> role <> EmptyString ->
    (forall p, In p (rows (users st)) ->
               sameText (Users.email p) email = false) ->
    sameText email email = true ->
    bcrypt_compare password (bcrypt_hash password (salt e1)) = true ->
    let st1 :=
      storeAfter
        (handle e1 st token1
           (PostAuthRegister (Some nom) (Some prenom) (Some email)
              (Some password) (Some role))) in
    let x := handle e2 st1 token2 (PostAuthLogin (Some email) (Some password)) in
    outcome x
    = Responded (loggedIn (registered e1 st nom prenom email password role))
    /\ storeAfter x = st1.
Proof.
  intros e1 e2 st token1 token2 nom prenom email password role Hup1 Hup2
    Hn Hp He Hpw Hr Hunused Hrefl Hhash st1 x; subst x st1.
  rewrite (postAuthRegister_creates e1 st token1 nom prenom email password
             role Hup1 Hn Hp He Hpw Hr Hunused).
  apply (postAuthLogin_accepts e2 _ token2 (Some email) (Some password)
           (registered e1 st nom prenom email password role) []).
  - exact Hup2.
  - cbn [falsy]. apply String.eqb_neq. exact He.
  - cbn [falsy]. apply String.eqb_neq. exact Hpw.
  - cbn [users set_users rows]. rewrite filter_app.
    rewrite filter_none by (intros p Hin; cbn [eqS]; apply Hunused; exact Hin).
    cbn [filter app eqS registered Users.email]. rewrite Hrefl. reflexivity.
  - exact Hhash.
Qed.

(** *** Validation of the body *)

Lemma reach_of_role e st token u r roles :
  guards r = [Auth; AuthorizeRole roles] ->
  authenticates token u ->
  includes roles (Token.role u) = true ->
  handle e st token r = reach e st token u r.
Proof.
  intros Hg Hauth Hin.
  rewrite (handle_role_gate e st token u r roles Hg Hauth), Hin. reflexivity.
Qed.

(** In ten handlers the required fields are checked before the connection
    is asked for: a request that misses one is answered 400, the store is
    untouched and not even looked at, whether it is up or down.  A field
    is missed when it is absent, [null] or empty ([!x]), except for the
    grade and the feedback, which are compared with [undefined]: only an
    absent one is missed, and a request with both present, [null]
    included, is not answered 400. *)
Theorem validation_precedes_store_access :
  forall (e : Env) (st : Store) (token : option string),
    (forall nom prenom email password role,
        falsy nom || falsy prenom || falsy email || falsy password
        || falsy role = true ->
        rejectedUnseen
          (handle e st token (PostAuthRegister nom prenom email password role))
          st)
    /\ (forall email motDePasse,
           falsy email || falsy motDePasse = true ->
           rejectedUnseen (handle e st token (PostAuthLogin email motDePasse))
             st)
    /\ (forall u,
           authenticates token u ->
           (Token.role u = "Professeur" ->
            (forall nom description,
                falsy nom = true ->
                rejectedUnseen (handle e st token (PostClasses nom description))
                  st)
            /\ (forall class_id titre contenu,
                   falsyZ class_id || falsy titre || falsy contenu = true ->
                   rejectedUnseen
                     (handle e st token
                        (PostAnnouncements class_id titre contenu))
                     st)
            /\ (forall class_id titre description file_path,
                   falsyZ class_id || falsy titre = true ->
                   rejectedUnseen
                     (handle e st token
                        (PostDocumentations class_id titre description
                           file_path))
                     st)
            /\ (forall class_id titre description date_limite,
                   falsyZ class_id || falsy titre || falsyZ date_limite = true ->
                   rejectedUnseen
                     (handle e st token
                        (PostTasks class_id titre description date_limite))
                     st)
            /\ (forall submissionId grade feedback,
                   (grade = Absent \/ feedback = Absent ->
                    rejectedUnseen
                      (handle e st token
                         (PutSubmissionsGrade submissionId grade feedback))
                      st)
                   /\ (grade <> Absent -> feedback <> Absent ->
                       statusOf
                         (outcome
                            (handle e st token
                               (PutSubmissionsGrade submissionId grade
                                  feedback)))
                       <> Some 400)))
           /\ (Token.role u = "Etudiant" ->
               (forall code,
                   falsy code = true ->
                   rejectedUnseen (handle e st token (PostClassesJoin code)) st)
               /\ (forall taskId file_path content,
                      falsy file_path && falsy content = true ->
                      rejectedUnseen
                        (handle e st token
                           (PostTasksSubmit taskId file_path content))
                        st))
           /\ (Token.role u = "Coordinateur" ->
               forall userId role,
                 falsy role
                 || negb (includes ["Etudiant"; "Professeur"; "Coordinateur"]
                            (str role)) = true ->
                 rejectedUnseen (handle e st token (PutUsersRole userId role))
                   st)).
Proof.
  intros e st token. split; [|split].
  - intros nom prenom email password role Hbad.
    unfold handle, app, request; cbn [route guards chain handler].
    unfold postAuthRegister. rewrite Hbad. eexists. reflexivity.
  - intros email motDePasse Hbad.
    unfold handle, app, request; cbn [route guards chain handler].
    unfold postAuthLogin. rewrite Hbad. eexists. reflexivity.
  - intros u Hauth. split; [|split].
    + intros Hrole.
      assert (Hin : includes ["Professeur"] (Token.role u) = true)
        by (rewrite Hrole; reflexivity).
      split; [|split; [|split; [|split]]].
      * intros nom description Hbad.
        rewrite (reach_of_role e st token u (PostClasses nom description) _
                   eq_refl Hauth Hin).
        enter_handler. unfold postClasses. rewrite Hbad.
        eexists. reflexivity.
      * intros class_id titre contenu Hbad.
        rewrite (reach_of_role e st token u
                   (PostAnnouncements class_id titre contenu) _ eq_refl Hauth
                   Hin).
        enter_handler. unfold postAnnouncements. rewrite Hbad.
        eexists. reflexivity.
      * intros class_id titre description file_path Hbad.
        rewrite (reach_of_role e st token u
                   (PostDocumentations class_id titre description file_path)
                   _ eq_refl Hauth Hin).
        enter_handler. unfold postDocumentations. rewrite Hbad.
        eexists. reflexivity.
      * intros class_id titre description date_limite Hbad.
        rewrite (reach_of_role e st token u
                   (PostTasks class_id titre description date_limite) _
                   eq_refl Hauth Hin).
        enter_handler. unfold postTasks. rewrite Hbad.
        eexists. reflexivity.
      * intros submissionId grade feedback.
        rewrite (reach_of_role e st token u
                   (PutSubmissionsGrade submissionId grade feedback) _ eq_refl
                   Hauth Hin).
        enter_handler. unfold putSubmissionsGrade. split.
        -- intros Hbad.
           assert (Hundefined : undefined grade || undefined feedback = true).
           { destruct Hbad as [-> | ->]; [reflexivity|].
             apply orb_true_r. }
           rewrite Hundefined. eexists. reflexivity.
        -- intros Hgrade Hfeedback.
           assert (Hdefined : undefined grade || undefined feedback = false).
           { destruct grade, feedback; try reflexivity; congruence. }
           rewrite Hdefined. run_handler.
           destruct (db_up e); run_handler; [|discriminate].
           match goal with
           | |- context [match ?l with [] => true | _ :: _ => _ end] =>
               destruct (match l with [] => true
                         | t :: _ =>
                             negb (Tasks.professeur_id t =? Token.id u)
                         end)
           end; discriminate.
    + intros Hrole.
      assert (Hin : includes ["Etudiant"] (Token.role u) = true)
        by (rewrite Hrole; reflexivity).
      split.
      * intros code Hbad.
        rewrite (reach_of_role e st token u (PostClassesJoin code) _ eq_refl
                   Hauth Hin).
        enter_handler. unfold postClassesJoin. rewrite Hbad.
        eexists. reflexivity.
      * intros taskId file_path content Hbad.
        rewrite (reach_of_role e st token u
                   (PostTasksSubmit taskId file_path content) _ eq_refl Hauth
                   Hin).
        enter_handler. unfold postTasksSubmit. rewrite Hbad.
        eexists. reflexivity.
    + intros Hrole userId role Hbad.
      assert (Hin : includes ["Coordinateur"] (Token.role u) = true)
        by (rewrite Hrole; reflexivity).
      rewrite (reach_of_role e st token u (PutUsersRole userId role) _ eq_refl
                 Hauth Hin).
      enter_handler. unfold putUsersRole. rewrite Hbad.
      eexists. reflexivity.
Qed.

(** [POST /api/messages] is the exception: it asks for the connection
    first and validates inside the [try].  With the store up an empty or
    blank content, or a type that is neither public nor private, is
    answered 400 after the connection was opened and closed; with the
    store down the same request is answered 500. *)
Theorem message_validation_after_connect :
  forall (e : Env) (st : Store) (token : option string) (u : Token.payload)
         (receiver_id : option BodyId) (class_id : option Z)
         (content message_type : option string),
    authenticates token u ->
    (falsy content || trimIsEmpty (str content) = true
     \/ isText message_type "public" || isText message_type "private" = false) ->
    let x :=
      handle e st token
        (PostMessages receiver_id class_id content message_type) in
    storeAfter x = st
    /\ (db_up e = true ->
        statusOf (outcome x) = Some 400
        /\ storeCalls x = [Connect; EndConnection])
    /\ (db_up e = false ->
        statusOf (outcome x) = Some 500 /\ storeCalls x = [Connect]).
Proof.
  intros e st token u receiver_id class_id content message_type Hauth Hbad x;
    subst x.
  rewrite (handle_auth_only e st token u
             (PostMessages receiver_id class_id content message_type) eq_refl
             Hauth).
  enter_handler. unfold postMessages.
  destruct (db_up e) eqn:Hup.
  - run_handler. rewrite Hup. run_handler.
    destruct (falsy content || trimIsEmpty (str content)) eqn:Hc.
    + repeat split; try reflexivity; discriminate.
    + destruct Hbad as [Hbad | Hbad]; [discriminate Hbad|].
      rewrite Hbad. repeat split; try reflexivity; discriminate.
  - run_handler. rewrite Hup.
    repeat split; try reflexivity; discriminate.
Qed.

(** *** The connection is always ended *)

Section Scoping.

Lemma st_ret {A} (a : A) : Statements (ret a).
Proof. intros e s. exists []. rewrite app_nil_r. repeat split. constructor. Qed.

Lemma st_send {A} code b : Statements (@send A code b).
Proof. intros e s. exists []. rewrite app_nil_r. repeat split. constructor. Qed.

Lemma st_throw {A} : Statements (@throw A).
Proof. intros e s. exists []. rewrite app_nil_r. repeat split. constructor. Qed.

Lemma st_starve {A} : Statements (@starve A).
Proof. intros e s. exists []. rewrite app_nil_r. repeat split. constructor. Qed.

Lemma st_ask : Statements ask.
Proof. intros e s. exists []. rewrite app_nil_r. repeat split. constructor. Qed.

Lemma st_execute {A} sql (stmt : Store -> A * Store) :
  Statements (execute sql stmt).
Proof.
  intros e s. unfold execute. destruct (stmt (db s)) as [a st'].
  exists [Execute sql]. repeat split. repeat constructor.
Qed.

Lemma st_bind {A B} (m : Handler A) (k : A -> Handler B) :
  Statements m -> (forall a, Statements (k a)) -> Statements (bind m k).
Proof.
  intros Hm Hk e s. unfold bind.
  destruct (Hm e s) as (l & Hc & Hl & Hconn).
  destruct (m e s) as [[a | r | |] s']; cbn [snd] in *;
    try (exists l; repeat split; assumption).
  destruct (Hk a e s') as (l' & Hc' & Hl' & Hconn').
  exists (l ++ l'). rewrite Hc', Hc, app_assoc, Hconn', Hconn.
  repeat split. apply Forall_app. split; assumption.
Qed.

Lemma st_when c (m : Handler unit) : Statements m -> Statements (when c m).
Proof. intros Hm. unfold when. destruct c; [exact Hm | apply st_ret]. Qed.

Lemma st_forEach {A B} (l : list A) (f : A -> Handler B) :
  (forall x, Statements (f x)) -> Statements (forEach l f).
Proof.
  intros Hf. induction l as [|x l IH]; cbn [forEach].
  - apply st_ret.
  - apply st_bind; [apply Hf | intros y].
    apply st_bind; [exact IH | intros ys]. apply st_ret.
Qed.

Lemma st_uniqueClassCode classCode draws :
  Statements (uniqueClassCode classCode draws).
Proof.
  revert classCode. induction draws as [|next draws IH]; intros classCode;
    cbn [uniqueClassCode];
    (apply st_bind; [apply st_execute | intros existing]);
    destruct (len existing =? 0);
    first [apply st_ret | apply st_starve | apply IH].
Qed.

Lemma tidy_send code b : code <> 500 -> Tidy (send code b).
Proof.
  intros _ e st. cbn. split.
  - intros r _. constructor.
  - intros _. split; [reflexivity | left; reflexivity].
Qed.

Lemma tidy_throw : Tidy throw.
Proof.
  intros e st. cbn. split.
  - intros r H. discriminate H.
  - intros _. split; [reflexivity | left; reflexivity].
Qed.

Lemma tidy_when_send c code b (k : Handler unit) :
  Tidy k -> Tidy (bind (when c (send code b)) (fun _ => k)).
Proof.
  intros Hk e st. destruct c.
  - cbn. split.
    + intros r _. constructor.
    + intros _. split; [reflexivity | left; reflexivity].
  - exact (Hk e st).
Qed.

Lemma tidy_try (rest : Handler unit) b :
  Statements rest ->
  Tidy (try_catch_finally (bind getConnection (fun _ => rest)) (send 500 b)).
Proof.
  intros Hrest e st. unfold try_catch_finally, bind, getConnection, send.
  destruct (db_up e) eqn:Hup.
  - cbn [calls db connection].
    change (@nil Call ++ [Connect]) with [Connect].
    destruct (Hrest e (mkRun st [Connect] true)) as (l & Hc & Hl & Hconn).
    split; [|intros H; discriminate H].
    destruct (rest e (mkRun st [Connect] true)) as [[a | r | |] s'];
      cbn [fst snd calls connection] in *;
      try (intros r0 H0; discriminate H0); intros r0 _;
      cbv beta iota zeta delta [fst snd finally log];
      rewrite Hconn; cbn [calls]; rewrite Hc; cbn [app];
      apply Scoped; exact Hl.
  - cbn. split.
    + intros r _. constructor.
    + intros _. split; [reflexivity|]. right. split; [reflexivity|].
      exists b. reflexivity.
Qed.

End Scoping.

(** Walks through the statements of a handler body. *)
Ltac statements :=
  repeat first
    [ apply st_ret | apply st_send | apply st_throw | apply st_starve
    | apply st_ask | apply st_execute | apply st_uniqueClassCode
    | apply st_forEach; intros ?
    | apply st_when
    | apply st_bind; [|intros ?]
    | match goal with
      | |- Statements (match ?x with _ => _ end) => destruct x
      end ].

Lemma handler_tidy (r : Route) (req : Request) : Tidy (handler r req).
Proof.
  destruct r; cbn [handler]; unfold withUser;
    try (destruct (user req) as [u|]; [|apply tidy_throw]).
  all: unfold postAuthRegister, postAuthLogin, postClasses,
         getClassesProfesseur, getClassesMe, postClassesJoin,
         postAnnouncements, getAnnouncements, postDocumentations,
         getDocumentations, postTasks, getTasksClass, postTasksSubmit,
         getTasksSubmissions, putSubmissionsGrade, getSubmissions,
         getUsersMeSubmissions, postMessages, getMessagesPublicClass,
         getMessagesPrivateMe, getUsersAll, postProjects, getProjectsClass,
         postGroups, getGroupsProject, postGroupsMembers, deleteGroupsMembers,
         getClassesStudents, putUsersRole, deleteUsers, getRoot;
       cbv zeta.
  all: repeat apply tidy_when_send.
  all: try (apply tidy_try; statements).
  all: try (apply tidy_send; discriminate).
Qed.

Lemma chain_tidy (h : Request -> Handler unit) :
  (forall req, Tidy (h req)) -> forall gs req, Tidy (chain gs h req).
Proof.
  intros Hh gs. induction gs as [|g gs IH]; intros req; cbn [chain].
  - apply Hh.
  - destruct g as [|roles]; cbn [middleware].
    + unfold auth. destruct (falsy (x_auth_token req));
        [apply tidy_send; discriminate|].
      destruct (jwt_verify (str (x_auth_token req))) as [decoded|];
        [apply IH | apply tidy_send; discriminate].
    + unfold authorizeRole. destruct (user req) as [u|];
        [|apply tidy_send; discriminate].
      destruct (negb (includes roles (Token.role u)));
        [apply tidy_send; discriminate | apply IH].
Qed.

Lemma app_tidy (req : Request) : Tidy (app req).
Proof. unfold app. apply chain_tidy. intros req'. apply handler_tidy. Qed.

(** Whatever the route, the token and the inputs, a request that is
    answered has made no store access, or was refused the connection, or
    has opened one connection, executed statements on it and ended it:
    no exit path of any handler leaves a connection open. *)
Theorem connection_always_ended :
  forall (e : Env) (st st' : Store) (token : option string) (r : Route)
         (resp : Response) (trace : list Call),
    handle e st token r = (Responded resp, st', trace) ->
    Bracketed trace.
Proof.
  intros e st st' token r resp trace Hrun.
  destruct (app_tidy (request token r) e st) as [Hanswered _].
  unfold handle, serve in Hrun.
  destruct (app (request token r) e (mkRun st [] false)) as [[a | r0 | |] s];
    try discriminate Hrun.
  injection Hrun as _ _ <-. apply (Hanswered r0). reflexivity.
Qed.

(** While the store is down no request changes it or executes a
    statement: a request is either answered before the connection is
    asked for (by a guard, by the validation, or by [GET /]) or asks for
    it once and is answered 500. *)
Theorem store_down_changes_nothing :
  forall (e : Env) (st : Store) (token : option string) (r : Route),
    db_up e = false ->
    let x := handle e st token r in
    storeAfter x = st
    /\ (storeCalls x = []
        \/ storeCalls x = [Connect] /\ statusOf (outcome x) = Some 500).
Proof.
  intros e st token r Hdown x; subst x.
  destruct (app_tidy (request token r) e st) as [_ Hsafe].
  destruct (Hsafe Hdown) as [Hdb Hcalls].
  unfold handle, serve, storeAfter, storeCalls, outcome.
  destruct (app (request token r) e (mkRun st [] false)) as [[a | r0 | |] s];
    cbn [fst snd] in *;
    (split; [exact Hdb|]);
    (destruct Hcalls as [Hnone | [Hone (b & Hsent)]];
     [left; exact Hnone | try discriminate Hsent]).
  right. split; [exact Hone|]. injection Hsent as ->. reflexivity.
Qed.

(** *** Class codes *)

(** The loop of [POST /api/classes] on the candidates [c :: draws]: it
    stops at the first code no class has, after one SELECT per candidate
    tried, and changes nothing. *)
Lemma uniqueClassCode_picks taken k later e s :
  Forall (fun c => freeCode (db s) c = false) taken ->
  freeCode (db s) k = true ->
  match taken ++ k :: later with
  | [] => True
  | c :: draws =>
      uniqueClassCode c draws e s
      = (Next k,
         mkRun (db s)
           (calls s
            ++ repeat (Execute "SELECT id FROM Classes WHERE code = ?")
                 (S (List.length taken)))
           (connection s))
  end.
Proof.
  revert s. induction taken as [|t taken IH]; intros s Htaken Hfree.
  - cbn [List.app]. unfold freeCode in Hfree.
    destruct later as [|d later]; cbn [uniqueClassCode];
      cbv beta iota zeta delta [bind execute select ret];
      rewrite Hfree; reflexivity.
  - inversion Htaken as [|? ? Ht Htaken']; subst.
    cbn [List.app].
    specialize
      (IH (log (Execute "SELECT id FROM Classes WHERE code = ?") s)
         Htaken' Hfree).
    unfold freeCode in Ht.
    destruct (taken ++ k :: later) as [|c draws] eqn:Hrest.
    + destruct taken; discriminate Hrest.
    + cbn [uniqueClassCode].
      cbv beta iota zeta delta [bind execute select ret].
      rewrite Ht. unfold log in IH. rewrite IH.
      cbn [calls connection db List.length repeat].
      rewrite <- app_assoc. reflexivity.
Qed.

(** When the loop hands a code back, no class has it and the store is as
    before. *)
Lemma uniqueClassCode_free draws :
  forall c e s k s',
    uniqueClassCode c draws e s = (Next k, s') ->
    db s' = db s /\ freeCode (db s) k = true.
Proof.
  induction draws as [|d draws IH]; intros c e s k s' Hrun;
    cbn [uniqueClassCode] in Hrun;
    cbv beta iota zeta delta [bind execute select ret] in Hrun;
    unfold freeCode;
    destruct (len (filter (fun cl => sameText (Classes.code cl) c)
                     (rows (classes (db s)))) =? 0) eqn:Hc.
  - injection Hrun as <- <-. split; [reflexivity | exact Hc].
  - discriminate Hrun.
  - injection Hrun as <- <-. split; [reflexivity | exact Hc].
  - apply IH in Hrun. cbn [db] in Hrun. exact Hrun.
Qed.

Lemma uniqueClassCode_starves draws :
  forall c e s,
    Forall (fun c => freeCode (db s) c = false) (c :: draws) ->
    fst (uniqueClassCode c draws e s) = Starved
    /\ db (snd (uniqueClassCode c draws e s)) = db s.
Proof.
  induction draws as [|d draws IH]; intros c e s Htaken;
    inversion Htaken as [|? ? Hc Hrest]; subst;
    unfold freeCode in Hc;
    cbn [uniqueClassCode];
    cbv beta iota zeta delta [bind execute select ret starve];
    rewrite Hc.
  - split; reflexivity.
  - apply (IH d e (mkRun (db s)
                     (calls s ++ [Execute "SELECT id FROM Classes WHERE code = ?"])
                     (connection s))).
    exact Hrest.
Qed.

(** Creating a class.  The Teacher's request is answered 201 as soon as
    one of the codes drawn is free: the class gets the first drawn code no
    class has, belongs to the identity of the token, and the Teacher is
    enrolled in it as Professeur; one SELECT was spent on each code
    tried.  When every code drawn is taken the handler has not answered
    and the store is unchanged. *)
Theorem class_creation_takes_first_free_code :
  forall (e : Env) (st : Store) (token : option string) (u : Token.payload)
         (nom : string) (description : option string),
    db_up e = true ->
    authenticates token u ->
    Token.role u = "Professeur" ->
    nom <> EmptyString ->
    let x := handle e st token (PostClasses (Some nom) description) in
    (forall taken k later,
        codes e = taken ++ k :: later ->
        Forall (fun c => freeCode st c = false) taken ->
        freeCode st k = true ->
        outcome x
        = Responded
            (mkResponse 201
               (JObj [("message", JStr "Classe créée avec succès !");
                      ("class",
                       JObj [("id", JNum (auto_inc (classes st)));
                             ("nom", JStr nom);
                             ("description", JOptStr description);
                             ("code", JStr k);
                             ("professeur_id", JNum (Token.id u))])]))
        /\ storeAfter x = withClass st (Token.id u) nom description k
        /\ List.length (storeCalls x) = (List.length taken + 5)%nat)
    /\ (Forall (fun c => freeCode st c = false) (codes e) ->
        outcome x = NoResponse /\ storeAfter x = st).
Proof.
  intros e st token u nom description Hup Hauth Hrole Hnom x; subst x.
  rewrite (reach_of_role e st token u (PostClasses (Some nom) description)
             ["Professeur"] eq_refl Hauth)
    by (rewrite Hrole; reflexivity).
  enter_handler. unfold postClasses. cbn [falsy].
  rewrite (proj2 (String.eqb_neq _ _) Hnom).
  run_handler. rewrite Hup. run_handler.
  split.
  - intros taken k later Hcodes Htaken Hfree. rewrite Hcodes.
    pose proof (uniqueClassCode_picks taken k later e
                  (mkRun st ([] ++ [Connect]) true) Htaken Hfree) as Hloop.
    destruct (taken ++ k :: later) as [|c draws] eqn:Hlist.
    + destruct taken; discriminate Hlist.
    + rewrite Hloop. unfold storeCalls. run_handler. cbn [str].
      split; [reflexivity|]. split; [reflexivity|].
      rewrite !length_app, repeat_length. cbn [List.length]. lia.
  - intros Htaken.
    destruct (codes e) as [|c draws]; [split; reflexivity|].
    destruct (uniqueClassCode_starves draws c e
                (mkRun st ([] ++ [Connect]) true) Htaken) as [Hs Hdb].
    destruct (uniqueClassCode c draws e (mkRun st ([] ++ [Connect]) true))
      as [[a | r | |] s']; try discriminate Hs.
    cbn [snd db] in Hdb. split; [reflexivity | exact Hdb].
Qed.

(** *** Codes and e-mail addresses stay distinct *)

Section OrdPairs.
Context {A : Type} (R : A -> A -> Prop).

Lemma ordPairs_snoc (l : list A) (y : A) :
  ForallOrdPairs R l -> Forall (fun x => R x y) l ->
  ForallOrdPairs R (l ++ [y]).
Proof.
  induction 1 as [|x l Hx Hl IH]; intros Hy; cbn [List.app].
  - repeat constructor.
  - inversion Hy as [|? ? Hxy Hly]; subst. constructor.
    + apply Forall_app. split; [exact Hx | repeat constructor; exact Hxy].
    + apply IH. exact Hly.
Qed.

Lemma ordPairs_filter (g : A -> bool) (l : list A) :
  ForallOrdPairs R l -> ForallOrdPairs R (filter g l).
Proof.
  induction 1 as [|x l Hx Hl IH]; cbn [filter]; [constructor|].
  destruct (g x); [|exact IH]. constructor; [|exact IH].
  apply Forall_forall. intros y Hy. apply filter_In in Hy.
  rewrite Forall_forall in Hx. apply Hx. apply Hy.
Qed.

Lemma ordPairs_map (f : A -> A) (l : list A) :
  (forall x y, R x y -> R (f x) (f y)) ->
  ForallOrdPairs R l -> ForallOrdPairs R (map f l).
Proof.
  intros Hf. induction 1 as [|x l Hx Hl IH]; cbn [map]; constructor.
  - apply Forall_forall. intros y Hy. apply in_map_iff in Hy.
    destruct Hy as (z & <- & Hz). apply Hf.
    rewrite Forall_forall in Hx. apply Hx. exact Hz.
  - exact IH.
Qed.

End OrdPairs.

Lemma len_zero_none {A} (f : A -> bool) (l : list A) :
  (len (filter f l) =? 0) = true -> Forall (fun x => f x = false) l.
Proof.
  intros Hlen. apply Z.eqb_eq in Hlen. unfold len in Hlen.
  destruct (filter f l) as [|y rest] eqn:Hf;
    [|cbn [List.length] in Hlen; lia].
  apply Forall_forall. intros x Hx.
  destruct (f x) eqn:Hfx; [|reflexivity].
  assert (Hin : In x (filter f l)) by (apply filter_In; split; assumption).
  rewrite Hf in Hin. destruct Hin.
Qed.

(** Only [POST /api/classes] writes to the Classes table. *)
Lemma handler_keeps_classes (r : Route) (req : Request) :
  (forall nom description, r <> PostClasses nom description) ->
  keeps classes (handler r req).
Proof.
  intros Hr. destruct r; cbn [handler]; unfold withUser;
    try (destruct (user req) as [u|]; [|apply keeps_throw]).
  all: try solve [exfalso; eapply Hr; reflexivity].
  all: walk_handlers.
Qed.

Lemma postClasses_effect e st nom description u :
  let st' := storeAfter (serve (postClasses nom description u) e st) in
  rows (classes st') = rows (classes st)
  \/ exists new,
      rows (classes st') = rows (classes st) ++ [new]
      /\ freeCode st (Classes.code new) = true.
Proof.
  intros st'; subst st'. unfold postClasses.
  destruct (falsy nom); [left; reflexivity|].
  destruct (db_up e) eqn:Hup;
    [|left; run_handler; rewrite Hup; reflexivity].
  run_handler. rewrite Hup. run_handler.
  destruct (codes e) as [|c draws]; [left; reflexivity|].
  pose proof (keeps_uniqueClassCode classes c draws e
                (mkRun st ([] ++ [Connect]) true)) as Hkept.
  destruct (uniqueClassCode c draws e (mkRun st ([] ++ [Connect]) true))
    as [[k | r | |] [st1 calls1 conn1]] eqn:Hloop;
    cbn [snd db] in Hkept; run_handler.
  - apply uniqueClassCode_free in Hloop. cbn [db] in Hloop.
    destruct Hloop as [-> Hfree].
    right. exists (Classes.mk (auto_inc (classes st)) (str nom) description k
                     (Token.id u)).
    split; [destruct conn1; reflexivity | exact Hfree].
  - left. destruct conn1; cbn [db]; rewrite Hkept; reflexivity.
  - left. destruct conn1; cbn [db]; rewrite Hkept; reflexivity.
  - left. cbn [db]. rewrite Hkept. reflexivity.
Qed.

(** No request ever gives a class the code of an earlier class. *)
Theorem class_codes_stay_distinct :
  forall (e : Env) (st : Store) (token : option string) (r : Route),
    distinctCodes st -> distinctCodes (storeAfter (handle e st token r)).
Proof.
  intros e st token r Hst. unfold distinctCodes, handle, app.
  destruct (chain_store e st (handler (route (request token r)))
              (guards (route (request token r))) (request token r))
    as [-> | (req & ->)]; [exact Hst|].
  cbn [route request].
  destruct r;
    try (rewrite serve_store, handler_keeps_classes
           by (intros; discriminate);
         exact Hst).
  cbn [handler]. unfold withUser.
  destruct (user req) as [u|]; [|exact Hst].
  destruct (postClasses_effect e st nom description u)
    as [-> | (new & -> & Hfree)]; [exact Hst|].
  apply ordPairs_snoc; [exact Hst|].
  apply (len_zero_none _ _ Hfree).
Qed.

(** Only registration, the change of a role and the deletion of a user
    write to the Users table. *)
Lemma handler_keeps_users (r : Route) (req : Request) :
  (forall nom prenom email password role,
      r <> PostAuthRegister nom prenom email password role) ->
  (forall userId role, r <> PutUsersRole userId role) ->
  (forall userId, r <> DeleteUsers userId) ->
  keeps users (handler r req).
Proof.
  intros H1 H2 H3. destruct r; cbn [handler]; unfold withUser;
    try (destruct (user req) as [u|]; [|apply keeps_throw]).
  all: try solve [exfalso; eapply H1; reflexivity].
  all: try solve [exfalso; eapply H2; reflexivity].
  all: try solve [exfalso; eapply H3; reflexivity].
  all: walk_handlers.
Qed.

Lemma postAuthRegister_effect e st nom prenom email password role :
  let st' :=
    storeAfter (serve (postAuthRegister nom prenom email password role) e st)
  in
  rows (users st') = rows (users st)
  \/ exists new,
      rows (users st') = rows (users st) ++ [new]
      /\ Forall
           (fun p => sameText (Users.email p) (Users.email new) = false)
           (rows (users st)).
Proof.
  intros st'; subst st'. unfold postAuthRegister.
  destruct (falsy nom || falsy prenom || falsy email || falsy password
            || falsy role) eqn:Hvalid; [left; reflexivity|].
  destruct (db_up e) eqn:Hup;
    [|left; run_handler; rewrite Hup; reflexivity].
  run_handler. rewrite Hup. run_handler.
  destruct (len (filter (fun p => eqS (Users.email p) email) (rows (users st)))
            >? 0) eqn:Hlen; [left; reflexivity|].
  right. eexists. split; [reflexivity|].
  cbn [Users.email]. apply len_zero_none.
  destruct email as [em|]; cbn [eqS str] in *.
  - apply Z.eqb_eq. rewrite Z.gtb_ltb in Hlen. unfold len in *.
    rewrite Z.ltb_ge in Hlen. lia.
  - exfalso. cbn [falsy] in Hvalid.
    destruct (falsy nom), (falsy prenom); cbn [orb] in Hvalid;
      discriminate Hvalid.
Qed.

Lemma putUsersRole_effect e st userId role u :
  let st' := storeAfter (serve (putUsersRole userId role u) e st) in
  exists f,
    (forall p, Users.email (f p) = Users.email p)
    /\ rows (users st') = map f (rows (users st)).
Proof.
  intros st'; subst st'.
  assert (Hsame : forall st' : Store,
             st' = st ->
             exists f,
               (forall p, Users.email (f p) = Users.email p)
               /\ rows (users st') = map f (rows (users st))).
  { intros st' ->. exists (fun p => p). split; [reflexivity|].
    symmetry. apply map_id. }
  unfold putUsersRole.
  destruct (falsy role
            || negb (includes ["Etudiant"; "Professeur"; "Coordinateur"]
                       (str role))); [apply Hsame; reflexivity|].
  destruct ((userId =? Token.id u) && negb (isText role "Coordinateur"));
    [apply Hsame; reflexivity|].
  destruct (db_up e) eqn:Hup;
    [|apply Hsame; run_handler; rewrite Hup; reflexivity].
  run_handler. rewrite Hup. run_handler.
  exists (fun p =>
            if Users.id p =? userId
            then Users.mk (Users.id p) (Users.nom p) (Users.prenom p)
                   (Users.email p) (Users.motDePasse p) (str role)
            else p).
  split; [intros p; destruct (Users.id p =? userId); reflexivity|].
  destruct (affectedRows (users st) (fun p => Users.id p =? userId) =? 0);
    reflexivity.
Qed.

Lemma deleteUsers_effect e st userId u :
  let st' := storeAfter (serve (deleteUsers userId u) e st) in
  exists g, rows (users st') = filter g (rows (users st)).
Proof.
  intros st'; subst st'.
  assert (Hsame : forall st' : Store,
             st' = st ->
             exists g, rows (users st') = filter g (rows (users st))).
  { intros st' ->. exists (fun _ => true). symmetry.
    apply forallb_filter_id. apply forallb_forall. reflexivity. }
  unfold deleteUsers.
  destruct (userId =? Token.id u); [apply Hsame; reflexivity|].
  destruct (db_up e) eqn:Hup;
    [|apply Hsame; run_handler; rewrite Hup; reflexivity].
  run_handler. rewrite Hup. run_handler.
  assert (Hdel : forall b : bool,
             exists g,
               rows
                 (users
                    (if b
                     then set_users st
                            (delete (users st)
                               (fun p => Users.id p =? userId))
                     else st))
               = filter g (rows (users st))).
  { intros [|]; [|apply Hsame; reflexivity].
    exists (fun p => negb (Users.id p =? userId)). reflexivity. }
  destruct (filter (fun p => Users.id p =? userId) (rows (users st)))
    as [|p ps]; run_handler.
  - destruct (affectedRows (users st) (fun p => Users.id p =? userId) =? 0);
      apply (Hdel true).
  - destruct (Users.role p =? "Coordinateur")%string; run_handler.
    + destruct (countCoordinators st =? 1); run_handler;
        [apply (Hdel false)|].
      destruct (affectedRows (users st) (fun p => Users.id p =? userId) =? 0);
        apply (Hdel true).
    + destruct (affectedRows (users st) (fun p => Users.id p =? userId) =? 0);
        apply (Hdel true).
Qed.

Lemma handle_keeps_distinctEmails e st token r :
  distinctEmails st -> distinctEmails (storeAfter (handle e st token r)).
Proof.
  intros Hst. unfold distinctEmails, handle, app.
  destruct (chain_store e st (handler (route (request token r)))
              (guards (route (request token r))) (request token r))
    as [-> | (req & ->)]; [exact Hst|].
  cbn [route request].
  destruct r;
    try (rewrite serve_store, handler_keeps_users
           by (intros; discriminate);
         exact Hst).
  - cbn [handler].
    destruct (postAuthRegister_effect e st nom prenom email password role)
      as [-> | (new & -> & Hfresh)]; [exact Hst|].
    apply ordPairs_snoc; assumption.
  - cbn [handler]. unfold withUser.
    destruct (user req) as [u|]; [|exact Hst].
    destruct (putUsersRole_effect e st userId role u) as (f & Hf & ->).
    apply ordPairs_map; [|exact Hst].
    intros p q Hpq. rewrite !Hf. exact Hpq.
  - cbn [handler]. unfold withUser.
    destruct (user req) as [u|]; [|exact Hst].
    destruct (deleteUsers_effect e st userId u) as (g & ->).
    apply ordPairs_filter. exact Hst.
Qed.

Lemma handle_keeps_users e st token r :
  writesUsers r = false -> users (storeAfter (handle e st token r)) = users st.
Proof.
  intros Hr. unfold handle, app.
  destruct (chain_store e st (handler (route (request token r)))
              (guards (route (request token r))) (request token r))
    as [-> | (req & ->)]; [reflexivity|].
  cbn [route request]. rewrite serve_store.
  apply (handler_keeps_users r req);
    intros; intros ->; discriminate Hr.
Qed.

(** No request ever gives a user the e-mail address of an earlier user;
    and registration, the role change and the deletion of a user are the
    only routes that touch the Users table: after a request to any other
    route the table is as before. *)
Theorem emails_stay_distinct :
  forall (e : Env) (st : Store) (token : option string) (r : Route),
    (distinctEmails st -> distinctEmails (storeAfter (handle e st token r)))
    /\ (writesUsers r = false ->
        users (storeAfter (handle e st token r)) = users st).
Proof.
  intros e st token r. split.
  - apply handle_keeps_distinctEmails.
  - apply handle_keeps_users.
Qed.

(** *** Joining a class *)

Lemma postClassesJoin_enrols e st token u c cls others :
  db_up e = true ->
  c <> EmptyString ->
  filter (fun cl => sameText (Classes.code cl) c) (rows (classes st))
  = cls :: others ->
  (forall uc, In uc (rows (userClasses st)) ->
              UserClasses.user_id uc = Token.id u ->
              UserClasses.class_id uc <> Classes.id cls) ->
  let x := reach e st token u (PostClassesJoin (Some c)) in
  statusOf (outcome x) = Some 200
  /\ storeAfter x
     = set_userClasses st
         (insert (userClasses st)
            (fun id =>
               UserClasses.mk id (Token.id u) (Classes.id cls) "Etudiant")).
Proof.
  intros Hup Hc Hfound Hnew x; subst x. enter_handler.
  unfold postClassesJoin. cbn [falsy].
  rewrite (proj2 (String.eqb_neq _ _) Hc).
  run_handler. rewrite Hup. run_handler. cbn [eqS]. rewrite Hfound.
  run_handler. rewrite filter_none.
  - split; reflexivity.
  - intros uc Hin.
    destruct (UserClasses.user_id uc =? Token.id u) eqn:Hu; [|reflexivity].
    apply Z.eqb_eq in Hu. cbn [andb]. apply Z.eqb_neq.
    apply Hnew; assumption.
Qed.

(** Joining by code: a code no class has is answered 404 and nothing
    changes; a student not yet enrolled in the class of the code is
    enrolled in it as Etudiant (200); the same request once more is
    answered 409 and changes nothing, so the pair (student, class) gets
    one enrolment row. *)
Theorem join_enrols_once :
  forall (e e' : Env) (st : Store) (token : option string)
         (u : Token.payload) (c : string),
    db_up e = true -> db_up e' = true ->
    authenticates token u ->
    Token.role u = "Etudiant" ->
    c <> EmptyString ->
    let x := handle e st token (PostClassesJoin (Some c)) in
    ((forall cl, In cl (rows (classes st)) ->
                 sameText (Classes.code cl) c = false) ->
     answers x 404 st)
    /\ (forall cls others,
           filter (fun cl => sameText (Classes.code cl) c) (rows (classes st))
           = cls :: others ->
           (forall uc, In uc (rows (userClasses st)) ->
                       UserClasses.user_id uc = Token.id u ->
                       UserClasses.class_id uc <> Classes.id cls) ->
           statusOf (outcome x) = Some 200
           /\ rows (userClasses (storeAfter x))
              = rows (userClasses st)
                ++ [UserClasses.mk (auto_inc (userClasses st)) (Token.id u)
                      (Classes.id cls) "Etudiant"]
           /\ answers
                (handle e' (storeAfter x) token (PostClassesJoin (Some c)))
                409 (storeAfter x)).
Proof.
  intros e e' st token u c Hup Hup' Hauth Hrole Hc x; subst x.
  assert (Hgate : forall e0 st0,
             handle e0 st0 token (PostClassesJoin (Some c))
             = reach e0 st0 token u (PostClassesJoin (Some c))).
  { intros e0 st0.
    apply (reach_of_role e0 st0 token u (PostClassesJoin (Some c))
             ["Etudiant"] eq_refl Hauth).
    rewrite Hrole. reflexivity. }
  rewrite !Hgate. split.
  - intros Hnone. enter_handler. unfold postClassesJoin. cbn [falsy].
    rewrite (proj2 (String.eqb_neq _ _) Hc).
    run_handler. rewrite Hup. run_handler.
    rewrite filter_none by (intros cl Hin; cbn [eqS]; apply Hnone; exact Hin).
    split; reflexivity.
  - intros cls others Hfound Hnew.
    destruct (postClassesJoin_enrols e st token u c cls others Hup Hc Hfound
                Hnew) as [Hstatus Hstore].
    split; [exact Hstatus|]. rewrite Hstore. split; [reflexivity|].
    enter_handler. unfold postClassesJoin. cbn [falsy].
    rewrite (proj2 (String.eqb_neq _ _) Hc).
    run_handler. rewrite Hup'. run_handler. cbn [eqS classes set_userClasses].
    rewrite Hfound. run_handler.
    destruct (filter_some
                (fun uc =>
                   (UserClasses.user_id uc =? Token.id u)
                   && (UserClasses.class_id uc =? Classes.id cls))
                (rows
                   (userClasses
                      (set_userClasses st
                         (insert (userClasses st)
                            (fun id =>
                               UserClasses.mk id (Token.id u) (Classes.id cls)
                                 "Etudiant")))))
                (UserClasses.mk (auto_inc (userClasses st)) (Token.id u)
                   (Classes.id cls) "Etudiant"))
      as (y & ys & ->).
    + cbn [userClasses set_userClasses insert rows]. apply in_or_app.
      right. left. reflexivity.
    + cbn [UserClasses.user_id UserClasses.class_id].
      rewrite !Z.eqb_refl. reflexivity.
    + rewrite len_cons_pos. split; reflexivity.
Qed.

Lemma postClasses_creates e st token u nom description taken k later :
  db_up e = true ->
  authenticates token u ->
  Token.role u = "Professeur" ->
  nom <> EmptyString ->
  codes e = taken ++ k :: later ->
  Forall (fun c => freeCode st c = false) taken ->
  freeCode st k = true ->
  storeAfter (handle e st token (PostClasses (Some nom) description))
  = withClass st (Token.id u) nom description k.
Proof.
  intros Hup Hauth Hrole Hnom Hcodes Htaken Hfree.
  rewrite (reach_of_role e st token u (PostClasses (Some nom) description)
             ["Professeur"] eq_refl Hauth)
    by (rewrite Hrole; reflexivity).
  enter_handler. unfold postClasses. cbn [falsy].
  rewrite (proj2 (String.eqb_neq _ _) Hnom).
  run_handler. rewrite Hup. run_handler. rewrite Hcodes.
  pose proof (uniqueClassCode_picks taken k later e
                (mkRun st ([] ++ [Connect]) true) Htaken Hfree) as Hloop.
  destruct (taken ++ k :: later) as [|c draws] eqn:Hlist.
  - destruct taken; discriminate Hlist.
  - rewrite Hloop. reflexivity.
Qed.

(** A class and its code: once a Teacher has created a class, a Student
    who joins with the code the class got is enrolled in that very class,
    provided the code is not empty and equals itself under the
    collation. *)
Theorem created_class_is_joined_by_its_code :
  forall (e1 e2 : Env) (st : Store) (tokenT tokenS : option string)
         (teacher student : Token.payload) (nom : string)
         (description : option string) (taken : list string) (k : string)
         (later : list string),
    db_up e1 = true -> db_up e2 = true ->
    authenticates tokenT teacher -> Token.role teacher = "Professeur" ->
    authenticates tokenS student -> Token.role student = "Etudiant" ->
    Token.id student <> Token.id teacher ->
    nom <> EmptyString ->
    codes e1 = taken ++ k :: later ->
    Forall (fun c => freeCode st c = false) taken ->
    freeCode st k = true ->
    k <> EmptyString ->
    sameText k k = true ->
    (forall uc, In uc (rows (userClasses st)) ->
                UserClasses.user_id uc = Token.id student ->
                UserClasses.class_id uc <> auto_inc (classes st)) ->
    let st1 :=
      storeAfter (handle e1 st tokenT (PostClasses (Some nom) description)) in
    let y := handle e2 st1 tokenS (PostClassesJoin (Some k)) in
    statusOf (outcome y) = Some 200
    /\ rows (userClasses (storeAfter y))
       = rows (userClasses st)
         ++ [UserClasses.mk (auto_inc (userClasses st)) (Token.id teacher)
               (auto_inc (classes st)) "Professeur";
             UserClasses.mk (auto_inc (userClasses st) + 1) (Token.id student)
               (auto_inc (classes st)) "Etudiant"].
Proof.
  intros e1 e2 st tokenT tokenS teacher student nom description taken k later
    Hup1 Hup2 HauthT HroleT HauthS HroleS Hother Hnom Hcodes Htaken Hfree Hk
    Hrefl Hfresh st1 y; subst y st1.
  rewrite (postClasses_creates e1 st tokenT teacher nom description taken k
             later Hup1 HauthT HroleT Hnom Hcodes Htaken Hfree).
  rewrite (reach_of_role e2 _ tokenS student (PostClassesJoin (Some k))
             ["Etudiant"] eq_refl HauthS)
    by (rewrite HroleS; reflexivity).
  destruct (postClassesJoin_enrols e2
              (withClass st (Token.id teacher) nom description k) tokenS
              student k
              (Classes.mk (auto_inc (classes st)) nom description k
                 (Token.id teacher)) [] Hup2 Hk) as [Hstatus Hstore].
  - cbn [withClass classes set_userClasses set_classes insert rows].
    rewrite filter_app.
    rewrite filter_none
      by (apply Forall_forall; apply (len_zero_none _ _ Hfree)).
    cbn [filter List.app Classes.code]. rewrite Hrefl. reflexivity.
  - cbn [withClass userClasses set_userClasses insert rows Classes.id].
    intros uc Hin Huser. apply in_app_or in Hin.
    destruct Hin as [Hin | [<- | []]].
    + apply Hfresh; assumption.
    + cbn [UserClasses.user_id] in Huser. congruence.
  - split; [exact Hstatus|]. rewrite Hstore.
    cbn [withClass userClasses set_userClasses insert rows auto_inc Classes.id].
    rewrite <- app_assoc. reflexivity.
Qed.

(** *** Reading *)

Lemma handler_reads_only (r : Route) (req : Request) :
  readOnly r = true -> keeps (fun st : Store => st) (handler r req).
Proof.
  intros Hr. destruct r; try discriminate Hr; cbn [handler]; unfold withUser;
    try (destruct (user req) as [u|]; [|apply keeps_throw]).
  all: walk_handlers.
Qed.

(** Login and every GET route leave the whole store exactly as it was,
    whatever the token, the inputs and the answer. *)
Theorem reading_changes_nothing :
  forall (e : Env) (st : Store) (token : option string) (r : Route),
    readOnly r = true ->
    storeAfter (handle e st token r) = st.
Proof.
  intros e st token r Hr. unfold handle, app.
  destruct (chain_store e st (handler (route (request token r)))
              (guards (route (request token r))) (request token r))
    as [-> | (req & ->)]; [reflexivity|].
  cbn [route request]. rewrite serve_store.
  apply (handler_reads_only r req Hr).
Qed.

Lemma handler_keeps_memberships (r : Route) (req : Request) :
  keeps (fun st => (classMembers st, groupMembers st)) (handler r req).
Proof.
  destruct r; cbn [handler]; unfold withUser;
    try (destruct (user req) as [u|]; [|apply keeps_throw]).
  all: walk_handlers.
Qed.

Lemma handle_keeps_memberships e st token r :
  classMembers (storeAfter (handle e st token r)) = classMembers st
  /\ groupMembers (storeAfter (handle e st token r)) = groupMembers st.
Proof.
  unfold handle, app.
  destruct (chain_store e st (handler (route (request token r)))
              (guards (route (request token r))) (request token r))
    as [-> | (req & ->)]; [split; reflexivity|].
  cbn [route request]. rewrite serve_store.
  pose proof (handler_keeps_memberships r req e (mkRun st [] false)) as Hk.
  cbn [db] in Hk. injection Hk as -> ->. split; reflexivity.
Qed.

(** A join leaves every table but UserClasses as it was. *)
Lemma postClassesJoin_writes_userClasses e st code u :
  exists t,
    storeAfter (serve (postClassesJoin code u) e st) = set_userClasses st t.
Proof.
  assert (Hsame : forall st' : Store,
             st' = st -> exists t, st' = set_userClasses st t).
  { intros st' ->. exists (userClasses st). destruct st; reflexivity. }
  unfold postClassesJoin.
  destruct (falsy code); [apply Hsame; reflexivity|].
  destruct (db_up e) eqn:Hup;
    [|apply Hsame; run_handler; rewrite Hup; reflexivity].
  run_handler. rewrite Hup. run_handler.
  destruct (filter (fun c => eqS (Classes.code c) code) (rows (classes st)))
    as [|cls others]; [apply Hsame; reflexivity|].
  run_handler.
  match goal with
  | |- context [len ?l >? 0] => destruct (len l >? 0)
  end; [apply Hsame; reflexivity|].
  eexists. reflexivity.
Qed.

(** No route writes to the ClassMembers table, on which the membership
    tests of projects, groups and public messages rely, nor to the
    GroupMembers table read by [checkIsGroupCoordinator]: whatever the
    request, both tables are as before.  Joining a class writes
    UserClasses only: after a join the store differs from the store
    before in that table at most. *)
Theorem membership_tables_are_never_written :
  forall (e : Env) (st : Store) (token : option string),
    (forall r,
        classMembers (storeAfter (handle e st token r)) = classMembers st
        /\ groupMembers (storeAfter (handle e st token r)) = groupMembers st)
    /\ (forall code,
           exists t,
             storeAfter (handle e st token (PostClassesJoin code))
             = set_userClasses st t).
Proof.
  intros e st token. split.
  - intros r. apply handle_keeps_memberships.
  - intros code. unfold handle, app.
    destruct (chain_store e st
                (handler (route (request token (PostClassesJoin code))))
                (guards (route (request token (PostClassesJoin code))))
                (request token (PostClassesJoin code)))
      as [-> | (req & ->)].
    + exists (userClasses st). destruct st; reflexivity.
    + cbn [route request handler]. unfold withUser.
      destruct (user req) as [u|].
      * apply postClassesJoin_writes_userClasses.
      * exists (userClasses st). destruct st; reflexivity.
Qed.

Lemma enrollmentOf_enrolled st user_id classId :
  fst (enrollmentOf user_id classId st) <> [] <-> enrolled st user_id classId.
Proof.
  unfold enrollmentOf, select, enrolled; cbn [fst]. split.
  - destruct (filter _ _) as [|uc rest] eqn:Hf; [congruence|]. intros _.
    apply filter_head in Hf. destruct Hf as [Hin Hmatch].
    apply andb_prop in Hmatch. destruct Hmatch as [Hu Hc].
    exists uc. rewrite Z.eqb_eq in Hu, Hc. auto.
  - intros (uc & Hin & Hu & Hc) Hnil.
    assert (H : In uc
                  (filter
                     (fun uc =>
                        (UserClasses.user_id uc =? user_id)
                        && (UserClasses.class_id uc =? classId))
                     (rows (userClasses st)))).
    { apply filter_In. split; [exact Hin|].
      rewrite Hu, Hc, !Z.eqb_refl. reflexivity. }
    rewrite Hnil in H. exact H.
Qed.

Lemma ownedClass_owns st user_id classId :
  fst (ownedClass (Some classId) user_id st) <> [] <-> owns st user_id classId.
Proof.
  unfold ownedClass, select, owns; cbn [fst eqP]. split.
  - destruct (filter _ _) as [|c rest] eqn:Hf; [congruence|]. intros _.
    apply filter_head in Hf. destruct Hf as [Hin Hmatch].
    apply andb_prop in Hmatch. destruct Hmatch as [Hc Hp].
    exists c. rewrite Z.eqb_eq in Hc, Hp. auto.
  - intros (c & Hin & Hc & Hp) Hnil.
    assert (H : In c
                  (filter
                     (fun c =>
                        (Classes.id c =? classId)
                        && (Classes.professeur_id c =? user_id))
                     (rows (classes st)))).
    { apply filter_In. split; [exact Hin|].
      rewrite Hc, Hp, !Z.eqb_refl. reflexivity. }
    rewrite Hnil in H. exact H.
Qed.

Lemma len_nonempty {A} (l : list A) : (len l =? 0) = false <-> l <> [].
Proof.
  destruct l as [|x l]; split; intros H; try congruence.
  - discriminate H.
  - apply len_cons_nonzero.
Qed.

Lemma len_empty {A} (l : list A) : (len l =? 0) = true <-> l = [].
Proof.
  destruct l as [|x l]; split; intros H; try reflexivity.
  - rewrite len_cons_nonzero in H. discriminate H.
  - discriminate H.
Qed.

(** Settles the length tests on a list whose shape is known. *)
Ltac settle_len :=
  repeat match goal with
    | |- context [len (@nil ?A)] => change (len (@nil A)) with 0
    end;
  change (0 =? 0) with true; change (0 >? 0) with false;
  rewrite ?len_cons_nonzero, ?len_cons_pos.

(** The announcements, the documentation and the tasks of a class are
    read by exactly the users enrolled in it (UserClasses) and its owning
    Teacher: they are answered 200, everybody else 403. *)
Theorem class_content_is_for_the_enrolled_and_the_owner :
  forall (e : Env) (st : Store) (token : option string) (u : Token.payload)
         (classId : Z) (r : Route),
    db_up e = true ->
    authenticates token u ->
    r = GetAnnouncements classId \/ r = GetDocumentations classId
    \/ r = GetTasksClass classId ->
    (enrolled st (Token.id u) classId \/ owns st (Token.id u) classId ->
     statusOf (outcome (handle e st token r)) = Some 200)
    /\ (~ enrolled st (Token.id u) classId ->
        ~ owns st (Token.id u) classId ->
        statusOf (outcome (handle e st token r)) = Some 403).
Proof.
  intros e st token u classId r Hup Hauth Hr.
  assert (Hdec :
    (fst (enrollmentOf (Token.id u) classId st) = []
     /\ fst (ownedClass (Some classId) (Token.id u) st) = []
     /\ statusOf (outcome (handle e st token r)) = Some 403)
    \/ ((fst (enrollmentOf (Token.id u) classId st) <> []
         \/ fst (ownedClass (Some classId) (Token.id u) st) <> [])
        /\ statusOf (outcome (handle e st token r)) = Some 200)).
  { unfold enrollmentOf, ownedClass, select; cbn [fst].
    destruct Hr as [-> | [-> | ->]];
      match goal with
      | |- context [handle e st token ?R] =>
          rewrite (handle_auth_only e st token u R eq_refl Hauth)
      end;
      enter_handler;
      unfold getAnnouncements, getDocumentations, getTasksClass, enrollmentOf,
        ownedClass;
      run_handler; rewrite Hup; run_handler;
      set (E := filter
                  (fun uc =>
                     (UserClasses.user_id uc =? Token.id u)
                     && (UserClasses.class_id uc =? classId))
                  (rows (userClasses st)));
      destruct E as [|uc ucs]; settle_len; run_handler;
      set (O := filter
                  (fun c =>
                     eqP (Classes.id c) (Some classId)
                     && (Classes.professeur_id c =? Token.id u))
                  (rows (classes st)));
      destruct O as [|c cs]; settle_len; run_handler;
      first [ left; repeat split; reflexivity
            | right; split;
              [first [left; discriminate | right; discriminate]
              | reflexivity] ]. }
  split.
  - intros Hin. destruct Hdec as [(He & Ho & _) | [_ H200]]; [|exact H200].
    exfalso. destruct Hin as [Hin | Hin].
    + apply enrollmentOf_enrolled in Hin. contradiction.
    + apply ownedClass_owns in Hin. contradiction.
  - intros Hne Hno. destruct Hdec as [(_ & _ & H403) | [Hsome _]];
      [exact H403|].
    exfalso. destruct Hsome as [Hsome | Hsome].
    + apply enrollmentOf_enrolled in Hsome. contradiction.
    + apply ownedClass_owns in Hsome. contradiction.
Qed.

(** The three routes that ask ClassMembers: a row opens them, and
    without one the answer is 403. *)
Lemma member_routes_decided e st token u classId r :
  db_up e = true ->
  authenticates token u ->
  r = GetMessagesPublicClass classId \/ r = GetProjectsClass classId
  \/ r = GetClassesStudents classId ->
  (fst (memberOf (Some classId) (Some (Token.id u)) st) = []
   /\ answers (handle e st token r) 403 st)
  \/ (fst (memberOf (Some classId) (Some (Token.id u)) st) <> []
      /\ statusOf (outcome (handle e st token r)) = Some 200).
Proof.
  intros Hup Hauth Hr.
  unfold memberOf, select; cbn [fst].
  destruct Hr as [-> | [-> | ->]];
    match goal with
    | |- context [handle e st token ?R] =>
        rewrite (handle_auth_only e st token u R eq_refl Hauth)
    end;
    enter_handler;
    unfold getMessagesPublicClass, getProjectsClass, getClassesStudents,
      memberOf;
    run_handler; rewrite Hup; run_handler;
    set (M := filter
                (fun cm =>
                   eqP (ClassMembers.class_id cm) (Some classId)
                   && eqP (ClassMembers.user_id cm) (Some (Token.id u)))
                (rows (classMembers st)));
    destruct M as [|cm cms]; settle_len; run_handler;
    first [ left; repeat split; reflexivity
          | right; split; [discriminate | reflexivity] ].
Qed.

Lemma member_routes_closed e st token u classId r :
  db_up e = true ->
  authenticates token u ->
  r = GetMessagesPublicClass classId \/ r = GetProjectsClass classId
  \/ r = GetClassesStudents classId ->
  ~ enrolledIn st (Token.id u) (Some classId) ->
  answers (handle e st token r) 403 st.
Proof.
  intros Hup Hauth Hr Hout.
  destruct (member_routes_decided e st token u classId r Hup Hauth Hr)
    as [[_ H403] | [Hsome _]]; [exact H403|].
  apply memberOf_enrolled in Hsome. contradiction.
Qed.

(** The public messages, the projects and the students of a class are
    read by exactly the users a ClassMembers row links to the class.
    Enrolment through UserClasses or ownership of the class does not
    count here: the owning Teacher without such a row is answered 403. *)
Theorem class_members_only_reads :
  forall (e : Env) (st : Store) (token : option string) (u : Token.payload)
         (classId : Z) (r : Route),
    db_up e = true ->
    authenticates token u ->
    r = GetMessagesPublicClass classId \/ r = GetProjectsClass classId
    \/ r = GetClassesStudents classId ->
    (enrolledIn st (Token.id u) (Some classId) ->
     statusOf (outcome (handle e st token r)) = Some 200)
    /\ (~ enrolledIn st (Token.id u) (Some classId) ->
        answers (handle e st token r) 403 st).
Proof.
  intros e st token u classId r Hup Hauth Hr. split.
  - intros Hin.
    destruct (member_routes_decided e st token u classId r Hup Hauth Hr)
      as [[Hnone _] | [_ H200]]; [|exact H200].
    apply memberOf_enrolled in Hin. contradiction.
  - apply member_routes_closed; assumption.
Qed.

(** *** Grading *)

(** The Teacher of the task a submission belongs to. *)
Lemma putSubmissionsGrade_owner e st token u submissionId grade feedback s t :
  db_up e = true ->
  (forall s', In s' (rows (submissions st)) ->
              Submissions.id s' = submissionId -> s' = s) ->
  In s (rows (submissions st)) -> Submissions.id s = submissionId ->
  (forall t', In t' (rows (tasks st)) ->
              Tasks.id t' = Submissions.task_id s -> t' = t) ->
  In t (rows (tasks st)) -> Tasks.id t = Submissions.task_id s ->
  let x :=
    reach e st token u
      (PutSubmissionsGrade submissionId (Given grade) (Given feedback)) in
  if Tasks.professeur_id t =? Token.id u
  then
    statusOf (outcome x) = Some 200
    /\ storeAfter x
       = set_submissions st
           (update (submissions st)
              (fun r => Submissions.id r =? submissionId)
              (fun r =>
                 Submissions.mk (Submissions.id r) (Submissions.task_id r)
                   (Submissions.student_id r) (Submissions.file_path r)
                   (Submissions.content r) (Submissions.submitted_at r)
                   (Some grade) (Some feedback)))
  else answers x 403 st.
Proof.
  intros Hup Hs1 Hs2 Hs3 Ht1 Ht2 Ht3 x; subst x.
  enter_handler. unfold putSubmissionsGrade. cbn [undefined orb].
  run_handler. rewrite Hup. run_handler.
  destruct (filter_some (fun r => Submissions.id r =? submissionId) _ s Hs2
              (proj2 (Z.eqb_eq _ _) Hs3)) as (s0 & ss & Hfs).
  rewrite Hfs. cbn [flat_map].
  assert (s0 = s) as ->.
  { apply filter_head in Hfs. destruct Hfs as [Hin Hid].
    apply Hs1; [exact Hin | apply Z.eqb_eq; exact Hid]. }
  destruct (filter_some (fun t' => Submissions.task_id s =? Tasks.id t') _ t
              Ht2) as (t0 & ts & Hft).
  { rewrite Ht3. apply Z.eqb_refl. }
  rewrite Hft. cbn [List.app].
  assert (t0 = t) as ->.
  { apply filter_head in Hft. destruct Hft as [Hin Hid].
    apply Ht1; [exact Hin | symmetry; apply Z.eqb_eq; exact Hid]. }
  destruct (Tasks.professeur_id t =? Token.id u); run_handler;
    split; reflexivity.
Qed.

(** Grading.  Identifiers being keys, the Teacher who owns the task of a
    submission sets its grade and feedback, and nothing else in the store
    changes: every other column of the row and every other row is as
    before.  A Teacher who does not own the task is answered 403 and
    changes nothing. *)
Theorem grading_is_for_the_task_owner :
  forall (e : Env) (st : Store) (token : option string) (u : Token.payload)
         (submissionId grade : Z) (feedback : string)
         (s : Submissions.row) (t : Tasks.row),
    db_up e = true ->
    authenticates token u ->
    Token.role u = "Professeur" ->
    (forall s', In s' (rows (submissions st)) ->
                Submissions.id s' = submissionId -> s' = s) ->
    In s (rows (submissions st)) -> Submissions.id s = submissionId ->
    (forall t', In t' (rows (tasks st)) ->
                Tasks.id t' = Submissions.task_id s -> t' = t) ->
    In t (rows (tasks st)) -> Tasks.id t = Submissions.task_id s ->
    let x :=
      handle e st token
        (PutSubmissionsGrade submissionId (Given grade) (Given feedback)) in
    (Tasks.professeur_id t = Token.id u ->
     statusOf (outcome x) = Some 200
     /\ storeAfter x
        = set_submissions st
            (update (submissions st)
               (fun r => Submissions.id r =? submissionId)
               (graded grade feedback)))
    /\ (Tasks.professeur_id t <> Token.id u -> answers x 403 st).
Proof.
  intros e st token u submissionId grade feedback s t Hup Hauth Hrole
    Hs1 Hs2 Hs3 Ht1 Ht2 Ht3 x; subst x.
  rewrite (reach_of_role e st token u
             (PutSubmissionsGrade submissionId (Given grade) (Given feedback))
             ["Professeur"] eq_refl Hauth)
    by (rewrite Hrole; reflexivity).
  pose proof (putSubmissionsGrade_owner e st token u submissionId grade
                feedback s t Hup Hs1 Hs2 Hs3 Ht1 Ht2 Ht3) as Hrun.
  cbv zeta in Hrun. split.
  - intros Howner. rewrite Howner, Z.eqb_refl in Hrun. exact Hrun.
  - intros Hother. apply Z.eqb_neq in Hother. rewrite Hother in Hrun.
    exact Hrun.
Qed.

(** *** Public messages *)

Lemma classMembership_enrolled st cid sender :
  flat_map
    (fun c =>
       filter
         (fun cm =>
            (Classes.id c =? ClassMembers.class_id cm)
            && (ClassMembers.user_id cm =? sender))
         (rows (classMembers st)))
    (filter (fun c => eqP (Classes.id c) (Some cid)) (rows (classes st)))
  <> [] ->
  enrolledIn st sender (Some cid).
Proof.
  destruct (flat_map _ _) as [|cm rest] eqn:Hjoin; [congruence|]. intros _.
  assert (Hin : In cm (cm :: rest)) by (left; reflexivity).
  rewrite <- Hjoin in Hin. apply in_flat_map in Hin.
  destruct Hin as (c & Hc & Hcm).
  apply filter_In in Hc. destruct Hc as [_ Hc]. apply eqP_true in Hc.
  injection Hc as Hc.
  apply filter_In in Hcm. destruct Hcm as [Hcm Hmatch].
  apply andb_prop in Hmatch. destruct Hmatch as [Hclass Huser].
  apply Z.eqb_eq in Hclass. apply Z.eqb_eq in Huser.
  exists cm. repeat split; [exact Hcm | exact Huser | congruence].
Qed.

(** A public message is stored only for a sender whom a ClassMembers row
    links to the class and whose Users row has the role Professeur or
    Coordinateur.  The role is read from the store, not from the token: a
    member whose stored role is neither is answered 403 whatever role the
    token carries. *)
Theorem public_message_needs_membership_and_stored_role :
  forall (e : Env) (st : Store) (token : option string) (u : Token.payload)
         (receiver_id : option BodyId) (cid : Z) (content : string),
    db_up e = true ->
    authenticates token u ->
    let x :=
      handle e st token
        (PostMessages receiver_id (Some cid) (Some content) (Some "public")) in
    (statusOf (outcome x) = Some 201 ->
     enrolledIn st (Token.id u) (Some cid)
     /\ exists p,
         In p (rows (users st)) /\ Users.id p = Token.id u
         /\ (Users.role p = "Professeur" \/ Users.role p = "Coordinateur"))
    /\ ((forall p, In p (rows (users st)) -> Users.id p = Token.id u ->
                   Users.role p <> "Professeur"
                   /\ Users.role p <> "Coordinateur") ->
        statusOf (outcome x) <> Some 201 /\ storeAfter x = st).
Proof.
  intros e st token u receiver_id cid content Hup Hauth x; subst x.
  rewrite (handle_auth_only e st token u
             (PostMessages receiver_id (Some cid) (Some content)
                (Some "public")) eq_refl Hauth).
  enter_handler. unfold postMessages.
  change (isText (Some "public") "public") with true.
  change (isText (Some "public") "private") with false.
  cbn [orb negb]. run_handler. rewrite Hup. run_handler.
  destruct (falsy (Some content) || trimIsEmpty (str (Some content)));
    [split; [intros H; discriminate H
            | intros _; split; [discriminate | reflexivity]]|].
  run_handler.
  destruct (falsyZ (Some cid));
    [split; [intros H; discriminate H
            | intros _; split; [discriminate | reflexivity]]|].
  run_handler.
  match goal with
  | |- context [len ?l =? 0] =>
      pose proof (classMembership_enrolled st cid (Token.id u)) as Hmember;
      destruct l as [|cm cms]
  end; settle_len; run_handler;
    [split; [intros H; discriminate H
            | intros _; split; [discriminate | reflexivity]]|].
  specialize (Hmember ltac:(discriminate)).
  destruct (filter (fun p => Users.id p =? Token.id u) (rows (users st)))
    as [|p ps] eqn:Hsender; run_handler;
    [split; [intros H; discriminate H
            | intros _; split; [discriminate | reflexivity]]|].
  apply filter_head in Hsender. destruct Hsender as [Hin Hid].
  apply Z.eqb_eq in Hid.
  unfold includes; cbn [existsb].
  destruct (String.eqb_spec (Users.role p) "Professeur") as [Hp | Hp];
    [|destruct (String.eqb_spec (Users.role p) "Coordinateur") as [Hc | Hc]];
    cbn [orb negb]; run_handler.
  - split.
    + intros _. split; [exact Hmember|]. exists p. auto.
    + intros Hnone. destruct (Hnone p Hin Hid) as [Hne _]. contradiction.
  - split.
    + intros _. split; [exact Hmember|]. exists p. auto.
    + intros Hnone. destruct (Hnone p Hin Hid) as [_ Hne]. contradiction.
  - split; [intros H; discriminate H
           | intros _; split; [discriminate | reflexivity]].
Qed.

(** *** The private inbox *)

Lemma in_order_by {R} (le : R -> R -> bool) (l : list R) (x : R) :
  In x (order_by le l) <-> In x l.
Proof.
  split; apply Permutation_in;
    [apply order_by_perm | apply Permutation_sym, order_by_perm].
Qed.

(** [GET /api/messages/private/me] shows a user their own private
    messages and nobody else's: every message listed is a private message
    of the store that the caller sent or received, and every private
    message the caller sent or received, whose sender still exists, is
    listed. *)
Theorem private_inbox_is_private :
  forall (e : Env) (st : Store) (token : option string) (u : Token.payload),
    db_up e = true ->
    authenticates token u ->
    exists listed,
      outcome (handle e st token GetMessagesPrivateMe)
      = Responded (mkResponse 200 (JArr (map privateMessageJson listed)))
      /\ (forall m s r,
             In (m, s, r) listed ->
             In m (rows (messages st))
             /\ sameText (Messages.message_type m) "private" = true
             /\ (Messages.sender_id m = Token.id u
                 \/ Messages.receiver_id m = Some (Token.id u))
             /\ In s (rows (users st))
             /\ Users.id s = Messages.sender_id m)
      /\ (forall m s,
             In m (rows (messages st)) ->
             sameText (Messages.message_type m) "private" = true ->
             Messages.sender_id m = Token.id u
             \/ Messages.receiver_id m = Some (Token.id u) ->
             In s (rows (users st)) ->
             Users.id s = Messages.sender_id m ->
             exists r, In (m, s, r) listed).
Proof.
  intros e st token u Hup Hauth.
  rewrite (handle_auth_only e st token u GetMessagesPrivateMe eq_refl Hauth).
  enter_handler. unfold getMessagesPrivateMe.
  run_handler. rewrite Hup. run_handler.
  eexists. split; [reflexivity|].
  assert (Hmine : forall m,
             In m
               (filter
                  (fun m =>
                     ((Messages.sender_id m =? Token.id u)
                      || eqPP (Messages.receiver_id m) (Some (Token.id u)))
                     && sameText (Messages.message_type m) "private")
                  (rows (messages st)))
             <-> In m (rows (messages st))
                 /\ sameText (Messages.message_type m) "private" = true
                 /\ (Messages.sender_id m = Token.id u
                     \/ Messages.receiver_id m = Some (Token.id u))).
  { intros m. rewrite filter_In, andb_true_iff, orb_true_iff, Z.eqb_eq.
    assert (Hrecv : eqPP (Messages.receiver_id m) (Some (Token.id u)) = true
                    <-> Messages.receiver_id m = Some (Token.id u)).
    { unfold eqPP. destruct (Messages.receiver_id m) as [v|];
        [rewrite Z.eqb_eq|]; split; congruence. }
    rewrite Hrecv. tauto. }
  split.
  - intros m s r Hin. apply in_order_by in Hin. apply in_flat_map in Hin.
    destruct Hin as (m' & Hm' & Hin). apply in_flat_map in Hin.
    destruct Hin as (s' & Hs' & Hin).
    assert (Heq : m = m' /\ s = s').
    { destruct (filter _ (rows (users st))) as [|r0 rs] in Hin.
      - destruct Hin as [Hin | []]. injection Hin as <- <- _. auto.
      - apply in_map_iff in Hin. destruct Hin as (r' & Hin & _).
        injection Hin as <- <- _. auto. }
    destruct Heq as [-> ->]. apply Hmine in Hm'.
    apply filter_In in Hs'. destruct Hs' as [Hs' Hid]. apply Z.eqb_eq in Hid.
    intuition.
  - intros m s Hm Hprivate Hmine' Hs Hid.
    assert (Hjoin : exists r,
               In (m, s, r)
                 (match
                     filter
                       (fun r =>
                          eqPP (Messages.receiver_id m) (Some (Users.id r)))
                       (rows (users st))
                   with
                   | [] => [(m, s, None)]
                   | r0 :: rs => map (fun r => (m, s, Some r)) (r0 :: rs)
                   end)).
    { destruct (filter _ (rows (users st))) as [|r0 rs].
      - exists None. left. reflexivity.
      - exists (Some r0). left. reflexivity. }
    destruct Hjoin as (r & Hjoin). exists r.
    apply in_order_by. apply in_flat_map. exists m. split.
    + apply Hmine. auto.
    + apply in_flat_map. exists s. split; [|exact Hjoin].
      apply filter_In. split; [exact Hs|]. apply Z.eqb_eq. congruence.
Qed.

(** *** Posting class content *)

(** Announcements, documentation and tasks are posted into a class by its
    owning Teacher only: an answer 201 means the caller owns the class,
    and a Teacher who does not own it changes nothing in the store. *)
Theorem class_content_is_posted_by_the_owner :
  forall (e : Env) (st : Store) (token : option string) (u : Token.payload)
         (cid : Z) (titre contenu description file_path : option string)
         (date_limite : option Z) (r : Route),
    db_up e = true ->
    authenticates token u ->
    Token.role u = "Professeur" ->
    r = PostAnnouncements (Some cid) titre contenu
    \/ r = PostDocumentations (Some cid) titre description file_path
    \/ r = PostTasks (Some cid) titre description date_limite ->
    (statusOf (outcome (handle e st token r)) = Some 201 ->
     owns st (Token.id u) cid)
    /\ (~ owns st (Token.id u) cid ->
        statusOf (outcome (handle e st token r)) <> Some 201
        /\ storeAfter (handle e st token r) = st).
Proof.
  intros e st token u cid titre contenu description file_path date_limite r
    Hup Hauth Hrole Hr.
  assert (Hdec :
    (statusOf (outcome (handle e st token r)) <> Some 201
     /\ storeAfter (handle e st token r) = st)
    \/ fst (ownedClass (Some cid) (Token.id u) st) <> []).
  { unfold ownedClass, select; cbn [fst].
    destruct Hr as [-> | [-> | ->]];
      match goal with
      | |- context [handle e st token ?R] =>
          rewrite (reach_of_role e st token u R ["Professeur"] eq_refl Hauth)
            by (rewrite Hrole; reflexivity)
      end;
      enter_handler;
      unfold postAnnouncements, postDocumentations, postTasks, ownedClass;
      run_handler;
      match goal with
      | |- context [if ?c then _ else _] => destruct c
      end;
      try (left; split; [discriminate | reflexivity]);
      rewrite Hup; run_handler;
      set (O := filter
                  (fun c =>
                     eqP (Classes.id c) (Some cid)
                     && (Classes.professeur_id c =? Token.id u))
                  (rows (classes st)));
      destruct O as [|c cs]; settle_len; run_handler;
      first [ left; split; [discriminate | reflexivity]
            | right; discriminate ]. }
  split.
  - intros H201. destruct Hdec as [[Hno _] | Hsome]; [contradiction|].
    apply ownedClass_owns. exact Hsome.
  - intros Hout. destruct Hdec as [Hno | Hsome]; [exact Hno|].
    apply ownedClass_owns in Hsome. contradiction.
Qed.

(** The store after an announcement was posted by the owner of the class. *)
Lemma postAnnouncements_creates e st token u cid titre contenu :
  db_up e = true ->
  authenticates token u ->
  Token.role u = "Professeur" ->
  cid <> 0 -> titre <> EmptyString -> contenu <> EmptyString ->
  owns st (Token.id u) cid ->
  storeAfter
    (handle e st token
       (PostAnnouncements (Some cid) (Some titre) (Some contenu)))
  = withAnnouncement st
      (Announcements.mk (auto_inc (announcements st)) (Some cid)
         (Token.id u) titre contenu (now e)).
Proof.
  intros Hup Hauth Hrole Hcid Htitre Hcontenu Howns.
  rewrite (reach_of_role e st token u
             (PostAnnouncements (Some cid) (Some titre) (Some contenu))
             ["Professeur"] eq_refl Hauth)
    by (rewrite Hrole; reflexivity).
  apply ownedClass_owns in Howns. revert Howns.
  enter_handler. unfold postAnnouncements, ownedClass. cbn [falsy falsyZ].
  rewrite (proj2 (String.eqb_neq _ _) Htitre),
    (proj2 (String.eqb_neq _ _) Hcontenu), (proj2 (Z.eqb_neq _ _) Hcid).
  cbn [orb]. run_handler. rewrite Hup. run_handler.
  destruct (filter _ (rows (classes st))) as [|c cs]; [congruence|].
  intros _. settle_len. run_handler. reflexivity.
Qed.

(** An announcement its author posts is then listed to every user
    enrolled in the class and to its owner, provided the Users table
    still has the author's row: the listing joins each announcement with
    its author. *)
Theorem posted_announcement_is_listed :
  forall (e : Env) (st : Store) (token reader : option string)
         (u v : Token.payload) (cid : Z) (titre contenu : string)
         (p : Users.row),
    db_up e = true ->
    authenticates token u ->
    Token.role u = "Professeur" ->
    cid <> 0 -> titre <> EmptyString -> contenu <> EmptyString ->
    owns st (Token.id u) cid ->
    In p (rows (users st)) -> Users.id p = Token.id u ->
    authenticates reader v ->
    enrolled st (Token.id v) cid \/ owns st (Token.id v) cid ->
    let st' :=
      storeAfter
        (handle e st token
           (PostAnnouncements (Some cid) (Some titre) (Some contenu))) in
    exists listed,
      outcome (handle e st' reader (GetAnnouncements cid))
      = Responded (mkResponse 200 (JArr (map announcementJson listed)))
      /\ In (Announcements.mk (auto_inc (announcements st)) (Some cid)
               (Token.id u) titre contenu (now e), p) listed.
Proof.
  intros e st token reader u v cid titre contenu p Hup Hauth Hrole Hcid
    Htitre Hcontenu Howns Hp Hpid Hreader Hmay st'; subst st'.
  rewrite (postAnnouncements_creates e st token u cid titre contenu)
    by assumption.
  set (a := Announcements.mk _ _ _ _ _ _).
  assert (Hgate :
    fst (enrollmentOf (Token.id v) cid (withAnnouncement st a)) <> []
    \/ fst (ownedClass (Some cid) (Token.id v) (withAnnouncement st a)) <> []).
  { destruct Hmay as [Hin | Hin]; [left | right].
    - apply enrollmentOf_enrolled. exact Hin.
    - apply ownedClass_owns. exact Hin. }
  revert Hgate. unfold enrollmentOf, ownedClass, select; cbn [fst].
  rewrite (handle_auth_only e (withAnnouncement st a) reader v
             (GetAnnouncements cid) eq_refl Hreader).
  enter_handler. unfold getAnnouncements, enrollmentOf, ownedClass.
  run_handler. rewrite Hup. run_handler.
  assert (Hlisted :
    In (a, p)
      (flat_map
         (fun a0 =>
            map (fun p0 => (a0, p0))
              (filter (fun p0 => Announcements.professeur_id a0 =? Users.id p0)
                 (rows (users (withAnnouncement st a)))))
         (filter (fun a0 => eqPP (Announcements.class_id a0) (Some cid))
            (rows (announcements (withAnnouncement st a)))))).
  { apply in_flat_map. exists a. split.
    - apply filter_In. split.
      + unfold withAnnouncement. cbn [announcements set_announcements rows].
        apply in_or_app. right. left. reflexivity.
      + subst a. cbn [Announcements.class_id eqPP]. apply Z.eqb_refl.
    - apply in_map. apply filter_In. split; [exact Hp|].
      subst a. cbn [Announcements.professeur_id]. rewrite Hpid.
      apply Z.eqb_refl. }
  destruct (filter _ (rows (userClasses (withAnnouncement st a))))
    as [|uc ucs]; settle_len; run_handler.
  - destruct (filter _ (rows (classes (withAnnouncement st a))))
      as [|c cs]; settle_len; run_handler.
    + intros [H | H]; congruence.
    + intros _. eexists. split; [reflexivity|].
      apply in_order_by. exact Hlisted.
  - intros _. eexists. split; [reflexivity|].
    apply in_order_by. exact Hlisted.
Qed.

(** *** The group coordinator guard *)

(** [checkIsGroupCoordinator] lets a request through to the next handler
    only for a user whose first GroupMembers row in the group marks them
    as its coordinator.  A request without a user, or whose user id is 0,
    is answered 401 before any store access; any other user is answered
    403 whatever the next handler is; and for the coordinator the guard
    ends its connection after its one query and the next handler then
    runs, on the store as the guard found it. *)
Theorem group_coordinator_guard :
  forall (e : Env) (st : Store) (groupId : Z) (req : Request)
         (next : Request -> Handler unit),
    db_up e = true ->
    let guarded := checkIsGroupCoordinator groupId req next in
    let query :=
      Execute
        "SELECT isGroupCoordinator FROM GroupMembers WHERE groupId = ? AND userId = ?"
    in
    (user req = None \/ (exists u, user req = Some u /\ Token.id u = 0) ->
     serve guarded e st
     = (Responded (mkResponse 401 (message "Token non valide ou manquant.")),
        st, []))
    /\ (forall u,
           user req = Some u -> Token.id u <> 0 ->
           leadsGroup st groupId (Token.id u) = false ->
           serve guarded e st
           = (Responded
                (mkResponse 403
                   (message
                      "Accès refusé. Seul le responsable de ce groupe est autorisé.")),
              st, [Connect; query; EndConnection]))
    /\ (forall u,
           user req = Some u -> Token.id u <> 0 ->
           leadsGroup st groupId (Token.id u) = true ->
           guarded e (mkRun st [] false)
           = next req e (mkRun st [Connect; query; EndConnection] false)).
Proof.
  intros e st groupId req next Hup guarded query; subst guarded query.
  unfold checkIsGroupCoordinator, leadsGroup. repeat split.
  - intros [Hnone | (u & Hsome & Hzero)].
    + rewrite Hnone. reflexivity.
    + rewrite Hsome, Hzero. reflexivity.
  - intros u Hsome Hid Hlead. rewrite Hsome.
    rewrite (proj2 (Z.eqb_neq _ _) Hid).
    unfold leave. run_handler. rewrite Hup. run_handler.
    destruct (filter _ (rows (groupMembers st))) as [|gm gms];
      [reflexivity|].
    rewrite Hlead. reflexivity.
  - intros u Hsome Hid Hlead. rewrite Hsome.
    rewrite (proj2 (Z.eqb_neq _ _) Hid).
    unfold leave. run_handler. rewrite Hup. run_handler.
    destruct (filter _ (rows (groupMembers st))) as [|gm gms];
      [discriminate Hlead|].
    rewrite Hlead. reflexivity.
Qed.

(** *** Deleting accounts *)

Lemma key_inj {A} (f : A -> Z) (l : list A) (x y : A) :
  NoDup (map f l) -> In x l -> In y l -> f x = f y -> x = y.
Proof.
  induction l as [|a l IH]; cbn [map]; intros Hnd Hx Hy Hf; [destruct Hx|].
  inversion Hnd as [|a' l' Hnotin Hnd']; subst.
  destruct Hx as [-> | Hx], Hy as [-> | Hy].
  - reflexivity.
  - exfalso. apply Hnotin. rewrite Hf. apply in_map. exact Hy.
  - exfalso. apply Hnotin. rewrite <- Hf. apply in_map. exact Hx.
  - apply IH; assumption.
Qed.

Lemma another_member {A} (l : list A) (x : A) :
  NoDup l -> In x l -> List.length l <> 1%nat -> exists y, In y l /\ y <> x.
Proof.
  intros Hnd Hx Hlen.
  destruct l as [|a [|b l]]; [destruct Hx | contradiction Hlen; reflexivity|].
  inversion Hnd as [|a' l' Hnotin _]; subst.
  assert (Hab : a <> b) by (intros ->; apply Hnotin; left; reflexivity).
  destruct Hx as [<- | Hx].
  - exists b. split; [right; left; reflexivity | congruence].
  - exists a. split; [left; reflexivity|]. intros ->. contradiction.
Qed.

(** The deletion of [userId] by a Coordinator, on its own. *)
Lemma deleteUsers_keeps_coordinator e st userId u :
  keyIds st -> rolesCompareAlike st -> hasCoordinator st ->
  hasCoordinator (storeAfter (serve (deleteUsers userId u) e st)).
Proof.
  intros Hkeys Halike Hhas. unfold deleteUsers.
  destruct (userId =? Token.id u); [exact Hhas|].
  destruct (db_up e) eqn:Hup;
    [|run_handler; rewrite Hup; exact Hhas].
  run_handler. rewrite Hup. run_handler.
  assert (Hdel : forall (b : bool) q,
             In q (rows (users st)) -> Users.role q = "Coordinateur" ->
             Users.id q <> userId ->
             hasCoordinator
               (if b
                then set_users st
                       (delete (users st) (fun p => Users.id p =? userId))
                else st)).
  { intros [|] q Hq Hrole Hid; [|exact Hhas].
    exists q. split; [|exact Hrole].
    cbn [users set_users delete rows]. apply filter_In. split; [exact Hq|].
    apply negb_true_iff, Z.eqb_neq. exact Hid. }
  destruct Hhas as (q & Hq & Hrole).
  destruct (filter (fun p => Users.id p =? userId) (rows (users st)))
    as [|p ps] eqn:Hf; run_handler.
  - assert (Hid : Users.id q <> userId).
    { intros Hid.
      assert (H : In q (filter (fun p => Users.id p =? userId)
                          (rows (users st)))).
      { apply filter_In. split; [exact Hq | apply Z.eqb_eq; exact Hid]. }
      rewrite Hf in H. exact H. }
    destruct (affectedRows (users st) (fun p => Users.id p =? userId) =? 0);
      apply (Hdel true q); assumption.
  - apply filter_head in Hf. destruct Hf as [Hp Hpid].
    apply Z.eqb_eq in Hpid.
    destruct (Users.role p =? "Coordinateur")%string eqn:Hprole; run_handler.
    + destruct (countCoordinators st =? 1) eqn:Hcount; run_handler.
      * exists q. split; assumption.
      * apply String.eqb_eq in Hprole. apply Z.eqb_neq in Hcount.
        destruct (another_member
                    (filter (fun p => sameText (Users.role p) "Coordinateur")
                       (rows (users st))) p) as (q' & Hq' & Hne).
        -- apply NoDup_filter. apply (NoDup_map_inv Users.id). exact Hkeys.
        -- apply filter_In. split; [exact Hp|]. apply Halike; assumption.
        -- intros Hone. apply Hcount. unfold countCoordinators, len.
           rewrite Hone. reflexivity.
        -- apply filter_In in Hq'. destruct Hq' as [Hq' Hq'role].
           apply Halike in Hq'role; [|exact Hq'].
           assert (Hid : Users.id q' <> userId).
           { intros Hid. apply Hne.
             apply (key_inj Users.id (rows (users st))); try assumption.
             congruence. }
           destruct (affectedRows (users st)
                       (fun p => Users.id p =? userId) =? 0);
             apply (Hdel true q'); assumption.
    + apply String.eqb_neq in Hprole.
      assert (Hid : Users.id q <> userId).
      { intros Hid. apply Hprole.
        assert (q = p) as <-; [|exact Hrole].
        apply (key_inj Users.id (rows (users st))); try assumption.
        congruence. }
      destruct (affectedRows (users st) (fun p => Users.id p =? userId) =? 0);
        apply (Hdel true q); assumption.
Qed.

(** [DELETE /api/users/:userId] never removes the last Coordinator.  When
    user ids are keys and SQL and JavaScript agree on which rows are
    Coordinators, a store that has a Coordinator account still has one
    after the request, whoever sends it and whichever account it names. *)
Theorem deleting_keeps_a_coordinator :
  forall (e : Env) (st : Store) (token : option string) (userId : Z),
    keyIds st ->
    rolesCompareAlike st ->
    hasCoordinator st ->
    hasCoordinator (storeAfter (handle e st token (DeleteUsers userId))).
Proof.
  intros e st token userId Hkeys Halike Hhas. unfold handle, app.
  destruct (chain_store e st (handler (route (request token (DeleteUsers userId))))
              (guards (route (request token (DeleteUsers userId))))
              (request token (DeleteUsers userId)))
    as [-> | (req & ->)]; [exact Hhas|].
  cbn [route request handler]. unfold withUser.
  destruct (user req) as [u|]; [|exact Hhas].
  apply deleteUsers_keeps_coordinator; assumption.
Qed.

(** *** Changing a role *)

Lemma filter_map_same {A} (g : A -> bool) (f : A -> A) (l : list A) :
  (forall x, g (f x) = g x) -> filter g (map f l) = map f (filter g l).
Proof.
  intros Hg. induction l as [|x l IH]; [reflexivity|].
  cbn [map filter]. rewrite Hg, IH. destruct (g x); reflexivity.
Qed.

(** The store after a Coordinator changed the role of another account. *)
Lemma putUsersRole_updates e st token u userId role :
  db_up e = true ->
  authenticates token u ->
  Token.role u = "Coordinateur" ->
  In role ["Etudiant"; "Professeur"; "Coordinateur"] ->
  userId <> Token.id u ->
  storeAfter (handle e st token (PutUsersRole userId (Some role)))
  = set_users st
      (update (users st) (fun p => Users.id p =? userId) (withRole role)).
Proof.
  intros Hup Hauth Hrole Hin Hother.
  rewrite (reach_of_role e st token u (PutUsersRole userId (Some role))
             ["Coordinateur"] eq_refl Hauth)
    by (rewrite Hrole; reflexivity).
  enter_handler. unfold putUsersRole.
  rewrite (proj2 (Z.eqb_neq _ _) Hother). cbn [andb].
  assert (Hvalid :
    falsy (Some role)
    || negb (includes ["Etudiant"; "Professeur"; "Coordinateur"]
               (str (Some role))) = false).
  { destruct Hin as [<- | [<- | [<- | []]]]; reflexivity. }
  rewrite Hvalid. run_handler. rewrite Hup. run_handler.
  destruct (affectedRows (users st) (fun p => Users.id p =? userId) =? 0);
    reflexivity.
Qed.

(** A role a Coordinator gives to another account is the role of that
    account's next login: the token and the user of the login response
    carry the new role, with the id and the e-mail address as before. *)
Theorem role_change_shows_at_next_login :
  forall (e1 e2 : Env) (st : Store) (token1 token2 : option string)
         (u : Token.payload) (userId : Z) (role email password : string)
         (account : Users.row) (others : list Users.row),
    db_up e1 = true -> db_up e2 = true ->
    authenticates token1 u ->
    Token.role u = "Coordinateur" ->
    In role ["Etudiant"; "Professeur"; "Coordinateur"] ->
    userId <> Token.id u ->
    email <> EmptyString -> password <> EmptyString ->
    filter (fun p => eqS (Users.email p) (Some email)) (rows (users st))
    = account :: others ->
    Users.id account = userId ->
    bcrypt_compare password (Users.motDePasse account) = true ->
    let st1 :=
      storeAfter (handle e1 st token1 (PutUsersRole userId (Some role))) in
    outcome (handle e2 st1 token2 (PostAuthLogin (Some email) (Some password)))
    = Responded (loggedIn (withRole role account)).
Proof.
  intros e1 e2 st token1 token2 u userId role email password account others
    Hup1 Hup2 Hauth Hrole Hin Hother Hemail Hpw Hf Hid Hok st1; subst st1.
  rewrite (putUsersRole_updates e1 st token1 u userId role) by assumption.
  apply (postAuthLogin_accepts e2 _ token2 (Some email) (Some password)
           (withRole role account)
           (map (fun p => if Users.id p =? userId then withRole role p else p)
              others)).
  - exact Hup2.
  - cbn [falsy]. apply String.eqb_neq. exact Hemail.
  - cbn [falsy]. apply String.eqb_neq. exact Hpw.
  - cbn [users set_users update rows].
    rewrite filter_map_same, Hf.
    + cbn [map]. rewrite (proj2 (Z.eqb_eq _ _) Hid). reflexivity.
    + intros p. destruct (Users.id p =? userId); reflexivity.
  - exact Hok.
Qed.

(** *** What no sequence of requests reaches *)

Lemma afterAll_keeps_memberships requests st :
  classMembers (afterAll st requests) = classMembers st
  /\ groupMembers (afterAll st requests) = groupMembers st.
Proof.
  revert st. induction requests as [|[[e token] r] later IH]; intros st;
    cbn [afterAll]; [split; reflexivity|].
  destruct (IH (storeAfter (handle e st token r))) as [-> ->].
  apply handle_keeps_memberships.
Qed.

(** The routes that ask ClassMembers cannot be opened through the API.
    A user without a ClassMembers row for a class is answered 403 by the
    public messages, the projects and the students of that class after
    any sequence of requests whatever, joining the class included: no
    route writes the table these three read. *)
Theorem member_routes_stay_closed :
  forall (requests : list (Env * option string * Route)) (e : Env)
         (st : Store) (token : option string) (u : Token.payload)
         (classId : Z) (r : Route),
    db_up e = true ->
    authenticates token u ->
    r = GetMessagesPublicClass classId \/ r = GetProjectsClass classId
    \/ r = GetClassesStudents classId ->
    ~ enrolledIn st (Token.id u) (Some classId) ->
    answers (handle e (afterAll st requests) token r) 403
      (afterAll st requests).
Proof.
  intros requests e st token u classId r Hup Hauth Hr Hout.
  apply (member_routes_closed e _ token u classId r Hup Hauth Hr).
  unfold enrolledIn.
  destruct (afterAll_keeps_memberships requests st) as [-> _].
  exact Hout.
Qed.

(** *** Group members *)

Lemma len_not_pos {A} (l : list A) : (len l >? 0) = false -> l = [].
Proof.
  destruct l as [|x l]; [reflexivity|]. rewrite len_cons_pos. discriminate.
Qed.

(** What an accepted [POST /api/groups/:groupId/members] has checked. *)
Lemma postGroupsMembers_accepted e st token u groupId user_id_to_add :
  authenticates token u ->
  let x := handle e st token (PostGroupsMembers groupId user_id_to_add) in
  statusOf (outcome x) = Some 200 ->
  exists uid g p c others student,
    user_id_to_add = Some uid
    /\ includes ["Professeur"; "Coordinateur"] (Token.role u) = true
    /\ groupInfoOf groupId st = (g, p, c) :: others
    /\ negb (Classes.professeur_id c =? Token.id u)
        && negb (Token.role u =? "Coordinateur")%string = false
    /\ ((Token.role u =? "Coordinateur")%string = true ->
        (len (fst (memberOf (Projets.class_id p) (Some (Token.id u)) st))
         =? 0) = false)
    /\ In student (rows (users st))
    /\ Users.id student = uid
    /\ Users.role student = "Etudiant"
    /\ enrolledIn st uid (Projets.class_id p)
    /\ filter
         (fun mg =>
            (MembresGroupe.group_id mg =? groupId)
            && eqPP (MembresGroupe.user_id mg) (Some uid))
         (rows (membresGroupe st)) = []
    /\ storeAfter x
       = set_membresGroupe st
           (insert (membresGroupe st)
              (fun _ => MembresGroupe.mk groupId (Some uid))).
Proof.
  intros Hauth x; subst x.
  rewrite (handle_role_gate e st token u
             (PostGroupsMembers groupId user_id_to_add)
             ["Professeur"; "Coordinateur"] eq_refl Hauth).
  destruct (includes ["Professeur"; "Coordinateur"] (Token.role u));
    [|discriminate].
  enter_handler. unfold postGroupsMembers, memberOf.
  run_handler.
  destruct (db_up e) eqn:Hup; run_handler; [|discriminate].
  destruct (groupInfoOf groupId st) as [|[[g p] c] others] eqn:Hinfo;
    run_handler; [discriminate|].
  destruct (negb (Classes.professeur_id c =? Token.id u)
            && negb (Token.role u =? "Coordinateur")%string) eqn:Hmay;
    run_handler; [discriminate|].
  destruct (Token.role u =? "Coordinateur")%string; run_handler;
    [destruct (len _ =? 0) eqn:Hcoord; run_handler; [discriminate|] |].
  all: destruct (filter (fun p0 => eqP (Users.id p0) user_id_to_add)
                   (rows (users st))) as [|student students] eqn:Hstudent;
    run_handler; [discriminate|].
  all: destruct (negb (Users.role student =? "Etudiant")%string) eqn:Hrole;
    run_handler; [discriminate|].
  all: destruct (len
                   (filter
                      (fun cm =>
                         eqP (ClassMembers.class_id cm) (Projets.class_id p)
                         && eqP (ClassMembers.user_id cm) user_id_to_add)
                      (rows (classMembers st))) =? 0) eqn:Hmember;
    run_handler; [discriminate|].
  all: destruct (len (filter _ (rows (membresGroupe st))) >? 0) eqn:Hnew;
    run_handler; [discriminate|].
  all: intros _.
  all: apply filter_head in Hstudent; destruct Hstudent as [Hin Hid].
  all: destruct user_id_to_add as [uid|]; [|discriminate Hid].
  all: cbn [eqP] in Hid; apply Z.eqb_eq in Hid.
  all: exists uid, g, p, c, others, student.
  all: repeat split; try assumption; try reflexivity.
  all: first
         [ apply negb_false_iff in Hrole; apply String.eqb_eq in Hrole;
           exact Hrole
         | apply memberOf_enrolled; unfold memberOf, select; cbn [fst];
           apply len_nonempty; exact Hmember
         | apply len_not_pos; exact Hnew
         | intros _; exact Hcoord
         | intros Habsurd; discriminate Habsurd ].
Qed.

(** A user added to a group is a student of the class of the group's
    project.  When [POST /api/groups/:groupId/members] answers 200, the
    body named a user whose Users row has the role Etudiant, a
    ClassMembers row links that user to the class of the project the
    group belongs to, the user was not in the group before, and the store
    has gained exactly the MembresGroupe row of the group and the
    user. *)
Theorem group_member_is_a_student_of_the_class :
  forall (e : Env) (st : Store) (token : option string) (u : Token.payload)
         (groupId : Z) (user_id_to_add : option Z),
    authenticates token u ->
    let x := handle e st token (PostGroupsMembers groupId user_id_to_add) in
    statusOf (outcome x) = Some 200 ->
    exists uid g p c others student,
      user_id_to_add = Some uid
      /\ groupInfoOf groupId st = (g, p, c) :: others
      /\ In student (rows (users st))
      /\ Users.id student = uid
      /\ Users.role student = "Etudiant"
      /\ enrolledIn st uid (Projets.class_id p)
      /\ (forall mg, In mg (rows (membresGroupe st)) ->
                     MembresGroupe.group_id mg = groupId ->
                     MembresGroupe.user_id mg <> Some uid)
      /\ storeAfter x
         = set_membresGroupe st
             (insert (membresGroupe st)
                (fun _ => MembresGroupe.mk groupId (Some uid))).
Proof.
  intros e st token u groupId user_id_to_add Hauth x Hok.
  destruct (postGroupsMembers_accepted e st token u groupId user_id_to_add
              Hauth Hok)
    as (uid & g & p & c & others & student & Hbody & _ & Hinfo & _ & _ & Hin
        & Hid & Hrole & Hmember & Hnew & Hstore).
  exists uid, g, p, c, others, student.
  repeat split; try assumption.
  intros mg Hmg Hgroup Huser.
  assert (H : In mg
                (filter
                   (fun mg =>
                      (MembresGroupe.group_id mg =? groupId)
                      && eqPP (MembresGroupe.user_id mg) (Some uid))
                   (rows (membresGroupe st)))).
  { apply filter_In. split; [exact Hmg|].
    rewrite Hgroup, Huser. cbn [eqPP]. rewrite !Z.eqb_refl. reflexivity. }
  rewrite Hnew in H. exact H.
Qed.

(** Adding a member to a group is undone by removing them.  After an
    accepted [POST /api/groups/:groupId/members], the same caller's
    [DELETE /api/groups/:groupId/members/:userId] for that user is
    answered 200, and the rows of MembresGroupe are again those from
    before the member was added. *)
Theorem added_member_can_be_removed :
  forall (e1 e2 : Env) (st : Store) (token : option string)
         (u : Token.payload) (groupId uid : Z),
    db_up e2 = true ->
    authenticates token u ->
    let x := handle e1 st token (PostGroupsMembers groupId (Some uid)) in
    let y := handle e2 (storeAfter x) token (DeleteGroupsMembers groupId uid) in
    statusOf (outcome x) = Some 200 ->
    statusOf (outcome y) = Some 200
    /\ rows (membresGroupe (storeAfter y)) = rows (membresGroupe st).
Proof.
  intros e1 e2 st token u groupId uid Hup Hauth x y Hok; subst y.
  destruct (postGroupsMembers_accepted e1 st token u groupId (Some uid)
              Hauth Hok)
    as (uid' & g & p & c & others & student & Hbody & Hgate & Hinfo & Hmay
        & Hcoord & _ & _ & _ & _ & Hnew & Hstore).
  injection Hbody as <-. subst x. rewrite Hstore.
  set (st1 := set_membresGroupe st _).
  rewrite (handle_role_gate e2 st1 token u (DeleteGroupsMembers groupId uid)
             ["Professeur"; "Coordinateur"] eq_refl Hauth), Hgate.
  enter_handler. unfold deleteGroupsMembers, memberOf.
  run_handler. rewrite Hup. run_handler.
  change (groupInfoOf groupId st1) with (groupInfoOf groupId st).
  rewrite Hinfo. run_handler. rewrite Hmay. run_handler.
  assert (Haffected :
    affectedRows (membresGroupe st1)
      (fun mg =>
         (MembresGroupe.group_id mg =? groupId)
         && eqPP (MembresGroupe.user_id mg) (Some uid)) = 1).
  { unfold affectedRows, st1. cbn [membresGroupe set_membresGroupe insert rows].
    rewrite filter_app, Hnew.
    cbn [filter List.app MembresGroupe.group_id MembresGroupe.user_id eqPP].
    rewrite !Z.eqb_refl. reflexivity. }
  assert (Hrows :
    rows
      (membresGroupe
         (set_membresGroupe st1
            (delete (membresGroupe st1)
               (fun mg =>
                  (MembresGroupe.group_id mg =? groupId)
                  && eqPP (MembresGroupe.user_id mg) (Some uid)))))
    = rows (membresGroupe st)).
  { unfold st1. cbn [membresGroupe set_membresGroupe insert delete rows].
    rewrite filter_app.
    cbn [filter List.app MembresGroupe.group_id MembresGroupe.user_id eqPP].
    rewrite !Z.eqb_refl. cbn [andb negb]. rewrite app_nil_r.
    apply forallb_filter_id. apply forallb_forall. intros mg Hmg.
    apply negb_true_iff.
    destruct ((MembresGroupe.group_id mg =? groupId)
              && eqPP (MembresGroupe.user_id mg) (Some uid)) eqn:Hmatch;
      [|reflexivity].
    assert (H : In mg
                  (filter
                     (fun mg =>
                        (MembresGroupe.group_id mg =? groupId)
                        && eqPP (MembresGroupe.user_id mg) (Some uid))
                     (rows (membresGroupe st))))
      by (apply filter_In; split; assumption).
    rewrite Hnew in H. destruct H. }
  destruct (Token.role u =? "Coordinateur")%string eqn:Hrole; run_handler.
  - change (classMembers st1) with (classMembers st).
    specialize (Hcoord eq_refl). unfold memberOf, select in Hcoord.
    cbn [fst] in Hcoord. rewrite Hcoord. run_handler.
    rewrite Haffected. cbn [Z.eqb]. split; [reflexivity | exact Hrows].
  - rewrite Haffected. cbn [Z.eqb]. split; [reflexivity | exact Hrows].
Qed.

(** *** Listing the groups of a project *)

(** A loop whose body is one reading statement. *)
Lemma forEach_reads {A B} (j : Store -> A -> B) (c : Call) (l : list A)
  (f : A -> Handler B) (e : Env) (s : Run) :
  (forall x e s,
      f x e s = (Next (j (db s) x), mkRun (db s) (calls s ++ [c]) (connection s))) ->
  forEach l f e s
  = (Next (map (j (db s)) l),
     mkRun (db s) (calls s ++ map (fun _ => c) l) (connection s)).
Proof.
  intros Hf. revert s. induction l as [|x l IH]; intros s.
  - cbn [forEach map]. unfold ret. rewrite app_nil_r. destruct s; reflexivity.
  - cbn [forEach map]. unfold bind at 1. rewrite Hf.
    unfold bind at 1. rewrite IH. cbn [db calls connection]. unfold ret.
    rewrite <- app_assoc. reflexivity.
Qed.

(** The groups of a project are listed to the members of its class, in
    full and one query at a time: the answer holds every group of the
    project once, each with its members, and the handler executes one
    statement per group listed besides its three fixed ones. *)
Theorem groups_are_listed_one_query_each :
  forall (e : Env) (st : Store) (token : option string) (u : Token.payload)
         (projectId : Z) (p : Projets.row) (others : list Projets.row),
    db_up e = true ->
    authenticates token u ->
    filter (fun p => Projets.id p =? projectId) (rows (projets st))
    = p :: others ->
    enrolledIn st (Token.id u) (Projets.class_id p) ->
    exists groups,
      Permutation groups
        (filter (fun g => eqPP (Groupes.projet_id g) (Some projectId))
           (rows (groupes st)))
      /\ handle e st token (GetGroupsProject projectId)
         = (Responded (mkResponse 200 (JArr (map (groupJson st) groups))),
            st,
            [Connect;
             Execute "SELECT P.class_id FROM Projets P WHERE P.id = ?";
             Execute
               "SELECT * FROM ClassMembers WHERE class_id = ? AND user_id = ?";
             Execute
               "SELECT G.id, G.nom_groupe, G.description FROM Groupes G WHERE G.projet_id = ? ORDER BY G.nom_groupe"]
            ++ map
                 (fun _ =>
                    Execute
                      "SELECT U.id, U.prenom, U.nom, U.role FROM MembresGroupe MG JOIN Users U ON MG.user_id = U.id WHERE MG.group_id = ?")
                 groups
            ++ [EndConnection]).
Proof.
  intros e st token u projectId p others Hup Hauth Hproject Hmember.
  apply memberOf_enrolled in Hmember. revert Hmember.
  unfold memberOf at 1, select; cbn [fst].
  rewrite (handle_auth_only e st token u (GetGroupsProject projectId) eq_refl
             Hauth).
  enter_handler. unfold getGroupsProject, memberOf.
  run_handler. rewrite Hup. run_handler. rewrite Hproject. run_handler.
  destruct (filter _ (rows (classMembers st))) as [|cm cms]; [congruence|].
  intros _. settle_len. run_handler.
  eexists. split; [apply order_by_perm|].
  rewrite (forEach_reads groupJson
             (Execute
                "SELECT U.id, U.prenom, U.nom, U.role FROM MembresGroupe MG JOIN Users U ON MG.user_id = U.id WHERE MG.group_id = ?"))
    by (intros; reflexivity).
  cbn [db calls connection List.app]. reflexivity.
Qed.

(** *** Listing submissions *)

(** The submissions of a task are listed to the Teacher of the task and
    to no other Teacher.  The owner is answered 200 with exactly the
    submissions of the task whose student has a Users row, each with that
    row; any other Teacher is answered 403. *)
Theorem task_submissions_are_for_the_task_owner :
  forall (e : Env) (st : Store) (token : option string) (u : Token.payload)
         (taskId : Z),
    db_up e = true ->
    authenticates token u ->
    Token.role u = "Professeur" ->
    (ownsTask st (Token.id u) taskId ->
     exists listed,
       outcome (handle e st token (GetTasksSubmissions taskId))
       = Responded (mkResponse 200 (JArr (map taskSubmissionJson listed)))
       /\ forall s p,
            In (s, p) listed
            <-> In s (rows (submissions st))
                /\ Submissions.task_id s = taskId
                /\ In p (rows (users st))
                /\ Users.id p = Submissions.student_id s)
    /\ (~ ownsTask st (Token.id u) taskId ->
        answers (handle e st token (GetTasksSubmissions taskId)) 403 st).
Proof.
  intros e st token u taskId Hup Hauth Hrole.
  rewrite (reach_of_role e st token u (GetTasksSubmissions taskId)
             ["Professeur"] eq_refl Hauth)
    by (rewrite Hrole; reflexivity).
  enter_handler. unfold getTasksSubmissions.
  run_handler. rewrite Hup. run_handler.
  destruct (filter
              (fun t =>
                 (Tasks.id t =? taskId)
                 && (Tasks.professeur_id t =? Token.id u))
              (rows (tasks st))) as [|t ts] eqn:Htask;
    settle_len; run_handler.
  - split; [|intros _; split; reflexivity].
    intros (t & Ht & Hid & Hprof). exfalso.
    assert (H : In t
                  (filter
                     (fun t =>
                        (Tasks.id t =? taskId)
                        && (Tasks.professeur_id t =? Token.id u))
                     (rows (tasks st)))).
    { apply filter_In. split; [exact Ht|].
      rewrite Hid, Hprof, !Z.eqb_refl. reflexivity. }
    rewrite Htask in H. exact H.
  - apply filter_head in Htask. destruct Htask as [Ht Hmatch].
    apply andb_prop in Hmatch. destruct Hmatch as [Hid Hprof].
    apply Z.eqb_eq in Hid, Hprof. split.
    + intros _. eexists. split; [reflexivity|].
      intros s p. rewrite in_order_by, in_flat_map. split.
      * intros (s' & Hs' & Hin). apply in_map_iff in Hin.
        destruct Hin as (p' & Heq & Hp'). injection Heq as <- <-.
        apply filter_In in Hs'. destruct Hs' as [Hs' Hst].
        apply filter_In in Hp'. destruct Hp' as [Hp' Hsp].
        apply Z.eqb_eq in Hst, Hsp. auto.
      * intros (Hs & Hst & Hp & Hsp). exists s. split.
        -- apply filter_In. split; [exact Hs | apply Z.eqb_eq; exact Hst].
        -- apply in_map. apply filter_In. split; [exact Hp|].
           apply Z.eqb_eq. congruence.
    + intros Hnot. exfalso. apply Hnot. exists t. auto.
Qed.

(** A student is listed their own submissions and nobody else's: every
    entry of [GET /api/users/me/submissions] is a submission of the
    caller with its task and the class of the task, and every submission
    of the caller whose task and class exist is listed. *)
Theorem my_submissions_are_mine :
  forall (e : Env) (st : Store) (token : option string) (u : Token.payload),
    db_up e = true ->
    authenticates token u ->
    Token.role u = "Etudiant" ->
    exists listed,
      handle e st token GetUsersMeSubmissions
      = (Responded (mkResponse 200 (JArr (map mySubmissionJson listed))), st,
         [Connect;
          Execute
            "SELECT S.id, S.task_id, S.file_path, S.content, S.submitted_at, S.grade, S.correction_feedback, T.titre as taskTitre, T.description as taskDescription, T.date_limite as taskDateLimite, C.nom as className, C.id as classId FROM Submissions S JOIN Tasks T ON S.task_id = T.id JOIN Classes C ON T.class_id = C.id WHERE S.student_id = ? ORDER BY S.submitted_at DESC";
          EndConnection])
      /\ forall s t c,
           In (s, t, c) listed
           <-> In s (rows (submissions st))
               /\ Submissions.student_id s = Token.id u
               /\ In t (rows (tasks st))
               /\ Tasks.id t = Submissions.task_id s
               /\ In c (rows (classes st))
               /\ Tasks.class_id t = Some (Classes.id c).
Proof.
  intros e st token u Hup Hauth Hrole.
  rewrite (reach_of_role e st token u GetUsersMeSubmissions
             ["Etudiant"] eq_refl Hauth)
    by (rewrite Hrole; reflexivity).
  enter_handler. unfold getUsersMeSubmissions.
  run_handler. rewrite Hup. run_handler.
  eexists. split; [reflexivity|].
  intros s t c. rewrite in_order_by, in_flat_map. split.
  - intros (s' & Hs' & Hin). apply in_flat_map in Hin.
    destruct Hin as (t' & Ht' & Hin). apply in_map_iff in Hin.
    destruct Hin as (c' & Heq & Hc'). injection Heq as <- <- <-.
    apply filter_In in Hs'. destruct Hs' as [Hs' Hmine].
    apply filter_In in Ht'. destruct Ht' as [Ht' Htask].
    apply filter_In in Hc'. destruct Hc' as [Hc' Hclass].
    apply Z.eqb_eq in Hmine, Htask. apply eqP_true in Hclass.
    repeat split; congruence.
  - intros (Hs & Hmine & Ht & Htask & Hc & Hclass). exists s. split.
    + apply filter_In. split; [exact Hs | apply Z.eqb_eq; exact Hmine].
    + apply in_flat_map. exists t. split.
      * apply filter_In. split; [exact Ht|]. apply Z.eqb_eq. congruence.
      * apply in_map. apply filter_In. split; [exact Hc|].
        apply eqP_true. exact Hclass.
Qed.

End Server.

(* ================================================================= *)
(** ** The properties at work on the sample school *)

Import Sample.

Lemma sample_collation (a b : string) :
  String.compare b a = CompOpp (String.compare a b).
Proof. apply String.compare_antisym. Defined.

(** C7 at work: a request for the user list with a token nobody signed
    is answered 401 and the store is not touched. *)
Lemma C7_witness_junk_token :
  handle (ext := Sample.ext) env store (Some "junk") GetUsersAll
  = (Responded (mkResponse 401 (message "Token non valide")), store, []).
Proof.
  apply (C7_unauthenticated_no_store_access (ext := Sample.ext) env store
           (Some "junk") GetUsersAll eq_refl); reflexivity.
Defined.

(** C1 at work: the Coordinator Ada lists the four users, by role, family
    name and first name. *)
Lemma C1_witness_coordinator_lists :
  exists listed,
    outcome (handle (ext := Sample.ext) env store (Some (sign ada)) GetUsersAll)
    = Responded (mkResponse 200 (JArr (map userEntry listed)))
    /\ Permutation listed (rows (users store))
    /\ Sorted (listedBefore (ext := Sample.ext)) listed.
Proof.
  destruct (C1_users_all_coordinator_or_teacher (ext := Sample.ext) env store
              (Some (sign ada)) ada sample_collation eq_refl
              (conj eq_refl eq_refl)) as [Hallowed _].
  destruct (Hallowed (or_introl eq_refl))
    as (listed & Hout & Hperm & Hsorted & _).
  exists listed. repeat split; assumption.
Defined.

(** C1 as stated fails for a Teacher: Blaise, whose token carries the role
    Professeur, is answered 200 on [GET /api/users/all], not 403. *)
Lemma C1_counterexample_teacher_lists :
  authenticates (ext := Sample.ext) (Some (sign blaise)) blaise
  /\ Token.role blaise = "Professeur"
  /\ statusOf
       (outcome
          (handle (ext := Sample.ext) env store (Some (sign blaise))
             GetUsersAll))
     = Some 200
  /\ statusOf
       (outcome
          (handle (ext := Sample.ext) env store (Some (sign blaise))
             GetUsersAll))
     <> Some 403.
Proof.
  repeat split; vm_compute; discriminate.
Defined.

(** C2 at work: the student Carl submits to task 21, which does not
    exist, and is answered 404. *)
Lemma C2_witness_missing_task :
  answers
    (handle (ext := Sample.ext) env store (Some (sign carl))
       (PostTasksSubmit 21 None (Some "v2")))
    404 store.
Proof.
  destruct (C2_role_gate_then_lookup (ext := Sample.ext) env store
              (Some (sign carl)) carl eq_refl (conj eq_refl eq_refl))
    as (_ & Hsubmit & _).
  destruct (Hsubmit eq_refl 21 None (Some "v2") eq_refl) as [H404 _].
  apply H404. intros t [<- | []]. discriminate.
Defined.

(** C2 as stated fails where existence and ownership are one lookup: the
    Teacher Blaise, whose role passes the gate, posts an announcement to
    class 999, which does not exist, and is answered 403, not 404. *)
Lemma C2_counterexample_missing_class :
  authenticates (ext := Sample.ext) (Some (sign blaise)) blaise
  /\ includes ["Professeur"] (Token.role blaise) = true
  /\ (forall c, In c (rows (classes store)) -> Classes.id c <> 999)
  /\ statusOf
       (outcome
          (handle (ext := Sample.ext) env store (Some (sign blaise))
             (PostAnnouncements (Some 999) (Some "Avis") (Some "Texte"))))
     = Some 403
  /\ statusOf
       (outcome
          (handle (ext := Sample.ext) env store (Some (sign blaise))
             (PostAnnouncements (Some 999) (Some "Avis") (Some "Texte"))))
     <> Some 404.
Proof.
  split; [split; reflexivity|]. split; [reflexivity|]. split.
  - intros c [<- | []]. discriminate.
  - split; vm_compute; [reflexivity | discriminate].
Qed.

(** C3 at work: the Coordinator Ada is not a member of class 10 and may
    not create a project in it. *)
Lemma C3_witness_coordinator_outside_class :
  answers
    (handle (ext := Sample.ext) env store (Some (sign ada))
       (PostProjects (Some 10) (Some "Projet") None None None))
    403 store.
Proof.
  destruct (C3_coordinator_needs_membership (ext := Sample.ext) env store
              (Some (sign ada)) ada eq_refl (conj eq_refl eq_refl) eq_refl)
    as (Hproject & _).
  destruct (Hproject (Some 10) (Some "Projet") None None None) as [H403 _].
  apply H403. intros (cm & Hin & Huser & _).
  destruct Hin as [<- | [<- | []]]; discriminate Huser.
Defined.

(** C4 at work: Carl is already a member of group 50; the Teacher Blaise,
    who owns the class of its project, adds him again and is answered
    409. *)
Lemma C4_witness_duplicate_member :
  answers
    (handle (ext := Sample.ext) env store (Some (sign blaise))
       (PostGroupsMembers 50 (Some 3)))
    409 store.
Proof.
  destruct (C4_duplicates_rejected (ext := Sample.ext) env store
              (Some (sign blaise)) eq_refl) as (_ & _ & Hadd).
  apply (Hadd blaise 50 3 (Groupes.mk 50 (Some 40) (Some "Equipe") None)
           (Projets.mk 40 (Some 10) (Some "Projet") None None None None)
           (Classes.mk 10 "Logique" None "ABC123" 2) []).
  - split; reflexivity.
  - reflexivity.
  - left. split; reflexivity.
  - exists (Users.mk 3 "Gauss" "Carl" "carl@school.test" "s$c" "Etudiant").
    split; [right; right; left; reflexivity | reflexivity].
  - intros s [<- | [<- | [<- | [<- | []]]]] Hid;
      try discriminate Hid; reflexivity.
  - exists (ClassMembers.mk 10 3).
    split; [right; left; reflexivity | split; reflexivity].
  - exists (MembresGroupe.mk 50 (Some 3)).
    split; [left; reflexivity | split; reflexivity].
Defined.

(** C4 as stated fails for registration: an anonymous caller registers
    with Ada's address, which is taken, and is answered 400, not 409. *)
Lemma C4_counterexample_duplicate_email :
  (exists p,
      In p (rows (users store))
      /\ Users.email p = "ada@school.test")
  /\ statusOf
       (outcome
          (handle (ext := Sample.ext) env store None
             (PostAuthRegister (Some "Byron") (Some "Augusta")
                (Some "ada@school.test") (Some "secret") (Some "Etudiant"))))
     = Some 400
  /\ statusOf
       (outcome
          (handle (ext := Sample.ext) env store None
             (PostAuthRegister (Some "Byron") (Some "Augusta")
                (Some "ada@school.test") (Some "secret") (Some "Etudiant"))))
     <> Some 409.
Proof.
  split.
  - exists (Users.mk 1 "Lovelace" "Ada" "ada@school.test" "s$a" "Coordinateur").
    split; [left; reflexivity | reflexivity].
  - split; vm_compute; [reflexivity | discriminate].
Qed.

(** C5 at work: Carl, who has already submitted to task 20, submits twice
    more; his one row keeps its id 30 and ends with the second content. *)
Lemma C5_witness_two_submissions :
  let first :=
    handle (ext := Sample.ext) env store (Some (sign carl))
      (PostTasksSubmit 20 None (Some "v2")) in
  let second :=
    handle (ext := Sample.ext) env (storeAfter first) (Some (sign carl))
      (PostTasksSubmit 20 (Some "devoir.pdf") None) in
  exists s1,
    submitted 20 3 (storeAfter first) = [s1]
    /\ submitted 20 3 (storeAfter second)
       = [resubmitted (Some "devoir.pdf") None 1000 s1]
    /\ statusOf (outcome second) = Some 200
    /\ List.length (rows (submissions (storeAfter second)))
       = List.length (rows (submissions (storeAfter first))).
Proof.
  apply (C5_submission_upsert (ext := Sample.ext) env env store
           (Some (sign carl)) carl 20 None (Some "v2") (Some "devoir.pdf")
           None eq_refl eq_refl (conj eq_refl eq_refl) eq_refl eq_refl
           eq_refl).
  - split.
    + exists (Tasks.mk 20 (Some 10) 2 "Devoir" None 2000 900).
      split; [left; reflexivity | reflexivity].
    + intros t [<- | []] _.
      exists (UserClasses.mk 2 3 10 "Etudiant").
      split; [right; left; reflexivity | split; reflexivity].
  - apply le_n.
Defined.


(** C8 at work: Carl, whose id is 3, sends himself a private message.
    Named by the number 3 he is refused with 400 and nothing is stored;
    named by the text "3" he is answered 201 and the store holds a
    private message from user 3 to user 3. *)
Lemma C8_witness_text_id_to_self :
  (let x :=
     handle (ext := Sample.ext) env store (Some (sign carl))
       (PostMessages (Some (IdNum 3)) None (Some "Bonjour") (Some "private"))
   in storeAfter x = store /\ statusOf (outcome x) = Some 400)
  /\ (let x :=
        handle (ext := Sample.ext) env store (Some (sign carl))
          (PostMessages (Some (IdText "3")) None (Some "Bonjour")
             (Some "private"))
      in
      statusOf (outcome x) = Some 201
      /\ rows (messages (storeAfter x))
         = [Messages.mk 1 3 (Some 3) None "Bonjour" "private" 1000]).
Proof.
  destruct (C8_self_message_check_misses_text_ids (ext := Sample.ext) env
              store (Some (sign carl))) as (Hnumber & _ & Htext).
  split.
  - destruct (Hnumber carl None (Some "Bonjour") (conj eq_refl eq_refl))
      as [Hstore Hstatus].
    split; [exact Hstore | exact (Hstatus eq_refl)].
  - assert (Hnonempty : "3" <> EmptyString) by discriminate.
    assert (Hcontent : "Bonjour" <> EmptyString) by discriminate.
    destruct (Htext carl "3" None "Bonjour"
                (Users.mk 3 "Gauss" "Carl" "carl@school.test" "s$c" "Etudiant")
                eq_refl (conj eq_refl eq_refl) Hnonempty eq_refl Hcontent
                eq_refl (or_intror (or_intror (or_introl eq_refl))) eq_refl)
      as [Hstatus Hstore].
    split; [exact Hstatus|]. rewrite Hstore. reflexivity.
Defined.

(** C9 at work: an anonymous caller registers as Coordinateur and is
    stored as such. *)
Lemma C9_witness_self_assigned_coordinator :
  let x :=
    handle (ext := Sample.ext) env store None
      (PostAuthRegister (Some "Hopper") (Some "Grace")
         (Some "grace@school.test") (Some "secret") (Some "Coordinateur")) in
  outcome x
  = Responded
      (mkResponse 201
         (JObj [("message", JStr "Utilisateur enregistré avec succès !");
                ("token",
                 JStr
                   (sign (Token.mk 5 "grace@school.test" "Coordinateur")));
                ("user",
                 userJson 5 "Hopper" "Grace" "grace@school.test"
                   "Coordinateur")]))
  /\ rows (users (storeAfter x))
     = rows (users store)
       ++ [Users.mk 5 "Hopper" "Grace" "grace@school.test"
             (hash "secret" "s4lt") "Coordinateur"].
Proof.
  apply (C9_register_stores_requested_role (ext := Sample.ext) env store None
           "Hopper" "Grace" "grace@school.test" "secret" "Coordinateur"
           eq_refl); try discriminate.
  intros p [<- | [<- | [<- | [<- | []]]]]; reflexivity.
Defined.

(** C10 at work: the Coordinator Ada reads Carl's submission 30, to a
    task of Blaise in a class she is not a member of. *)
Lemma C10_witness_coordinator_reads :
  exists sql,
    handle (ext := Sample.ext) env store (Some (sign ada)) (GetSubmissions 30)
    = (Responded
         (mkResponse 200
            (submissionContents
               (Submissions.mk 30 20 3 None (Some "v1") 950 None None)
               (Tasks.mk 20 (Some 10) 2 "Devoir" None 2000 900)
               (Users.mk 3 "Gauss" "Carl" "carl@school.test" "s$c"
                  "Etudiant"))),
       store, [Connect; Execute sql; EndConnection]).
Proof.
  assert (Hc : Token.role ada <> "Etudiant") by discriminate.
  assert (Hp : Token.role ada <> "Professeur") by discriminate.
  assert (Hexists :
    submissionOfId store 30
      (Submissions.mk 30 20 3 None (Some "v1") 950 None None)
      (Tasks.mk 20 (Some 10) 2 "Devoir" None 2000 900)
      (Users.mk 3 "Gauss" "Carl" "carl@school.test" "s$c" "Etudiant")).
  { repeat split; try reflexivity;
      [left | left | right; right; left]; reflexivity. }
  destruct (C10_other_roles_read_any_submission (ext := Sample.ext) env store
              (Some (sign ada)) ada 30 _ _ _ eq_refl (conj eq_refl eq_refl)
              Hc Hp Hexists)
    as (s & t & p & sql & (Hs & _ & Ht & _ & Hu & Hstudent) & Hrun).
  exists sql. rewrite Hrun.
  destruct Hs as [<- | []]. destruct Ht as [<- | []].
  destruct Hu as [<- | [<- | [<- | [<- | []]]]];
    try discriminate Hstudent.
  reflexivity.
Defined.

(** ** The further properties at work on the sample school *)

(** Ada's address with a wrong password is refused like an unknown
    address. *)
Lemma login_refusals_witness_wrong_password :
  handle (ext := Sample.ext) env store None
    (PostAuthLogin (Some "ada@school.test") (Some "wrong"))
  = (Responded loginRefused, store,
     [Connect;
      Execute
        "SELECT id, nom, prenom, email, motDePasse, role FROM Users WHERE email = ?";
      EndConnection]).
Proof.
  apply (login_refusals_indistinguishable (ext := Sample.ext) env store None
           (Some "ada@school.test") (Some "wrong") eq_refl eq_refl eq_refl).
  intros p [<- | [<- | [<- | [<- | []]]]] Hmail;
    try discriminate Hmail; reflexivity.
Defined.

(** Ada logs in with her password and gets a token for her stored row. *)
Lemma login_issues_witness_ada :
  outcome
    (handle (ext := Sample.ext) env store None
       (PostAuthLogin (Some "ada@school.test") (Some "a")))
  = Responded
      (loggedIn (ext := Sample.ext)
         (Users.mk 1 "Lovelace" "Ada" "ada@school.test" "s$a" "Coordinateur"))
  /\ storeAfter
       (handle (ext := Sample.ext) env store None
          (PostAuthLogin (Some "ada@school.test") (Some "a")))
     = store.
Proof.
  apply (login_issues_stored_identity (ext := Sample.ext) env store None
           (Some "ada@school.test") (Some "a")
           (Users.mk 1 "Lovelace" "Ada" "ada@school.test" "s$a" "Coordinateur")
           [] eq_refl eq_refl eq_refl eq_refl eq_refl).
Defined.

(** Augusta registers as a student and logs in. *)
Lemma register_then_login_witness_augusta :
  outcome
    (handle (ext := Sample.ext) env
       (storeAfter
          (handle (ext := Sample.ext) env store None
             (PostAuthRegister (Some "Byron") (Some "Augusta")
                (Some "augusta@school.test") (Some "secret")
                (Some "Etudiant"))))
       None (PostAuthLogin (Some "augusta@school.test") (Some "secret")))
  = Responded
      (loggedIn (ext := Sample.ext)
         (Users.mk 5 "Byron" "Augusta" "augusta@school.test" "s4lt$secret"
            "Etudiant")).
Proof.
  apply (register_then_login (ext := Sample.ext) env env store None None
           "Byron" "Augusta" "augusta@school.test" "secret" "Etudiant"
           eq_refl eq_refl);
    try discriminate; try reflexivity.
  intros p [<- | [<- | [<- | [<- | []]]]]; reflexivity.
Defined.

(** A registration without a role is rejected before the store is asked
    for anything.  So is Blaise's grading without a feedback; with a
    [null] feedback it passes the validation. *)
Lemma validation_witness_missing_fields :
  rejectedUnseen
    (handle (ext := Sample.ext) env store None
       (PostAuthRegister (Some "Byron") (Some "Augusta")
          (Some "augusta@school.test") (Some "secret") None))
    store
  /\ rejectedUnseen
       (handle (ext := Sample.ext) env store (Some (sign blaise))
          (PutSubmissionsGrade 30 (Given 15) Absent))
       store
  /\ statusOf
       (outcome
          (handle (ext := Sample.ext) env store (Some (sign blaise))
             (PutSubmissionsGrade 30 (Given 15) Null)))
     <> Some 400.
Proof.
  destruct (validation_precedes_store_access (ext := Sample.ext) env store
              None) as [Hregister _].
  destruct (validation_precedes_store_access (ext := Sample.ext) env store
              (Some (sign blaise))) as (_ & _ & Hbehind).
  destruct (Hbehind blaise (conj eq_refl eq_refl))
    as ((_ & _ & _ & _ & Hgrade) & _); [reflexivity|].
  split; [apply Hregister; reflexivity|]. split.
  - apply (Hgrade 30 (Given 15) Absent). right. reflexivity.
  - apply (Hgrade 30 (Given 15) Null); discriminate.
Defined.

(** Carl's blank message is rejected, but only after the connection was
    opened. *)
Lemma message_validation_witness_blank :
  statusOf
    (outcome
       (handle (ext := Sample.ext) env store (Some (sign carl))
          (PostMessages None (Some 10) (Some "   ") (Some "public"))))
  = Some 400
  /\ storeCalls
       (handle (ext := Sample.ext) env store (Some (sign carl))
          (PostMessages None (Some 10) (Some "   ") (Some "public")))
     = [Connect; EndConnection].
Proof.
  destruct (message_validation_after_connect (ext := Sample.ext) env store
              (Some (sign carl)) carl None (Some 10) (Some "   ")
              (Some "public") (conj eq_refl eq_refl)
              (or_introl eq_refl)) as (_ & Hup & _).
  apply Hup. reflexivity.
Defined.

(** Ada's listing of the users opens a connection, executes one
    statement and ends the connection. *)
Lemma connection_witness_user_list :
  Bracketed
    [Connect;
     Execute
       "SELECT id, prenom, nom, email, role FROM Users ORDER BY role, nom, prenom";
     EndConnection].
Proof.
  apply (connection_always_ended (ext := Sample.ext) env store store
           (Some (sign ada)) GetUsersAll
           (mkResponse 200
              (JArr
                 (map listedUser
                    [Users.mk 1 "Lovelace" "Ada" "ada@school.test" "s$a"
                       "Coordinateur";
                     Users.mk 3 "Gauss" "Carl" "carl@school.test" "s$c"
                       "Etudiant";
                     Users.mk 2 "Pascal" "Blaise" "blaise@school.test" "s$b"
                       "Professeur";
                     Users.mk 4 "Scott" "Dana" "dana@school.test" "s$d"
                       "Professeur"])))).
  vm_compute. reflexivity.
Defined.

(** With the store down, Blaise's class creation is answered 500 and
    changes nothing. *)
Lemma store_down_witness_class_creation :
  storeAfter
    (handle (ext := Sample.ext) down store (Some (sign blaise))
       (PostClasses (Some "Algèbre") None))
  = store
  /\ (storeCalls
        (handle (ext := Sample.ext) down store (Some (sign blaise))
           (PostClasses (Some "Algèbre") None))
      = []
      \/ storeCalls
           (handle (ext := Sample.ext) down store (Some (sign blaise))
              (PostClasses (Some "Algèbre") None))
         = [Connect]
         /\ statusOf
              (outcome
                 (handle (ext := Sample.ext) down store (Some (sign blaise))
                    (PostClasses (Some "Algèbre") None)))
            = Some 500).
Proof.
  apply (store_down_changes_nothing (ext := Sample.ext) down store
           (Some (sign blaise)) (PostClasses (Some "Algèbre") None) eq_refl).
Defined.

(** Blaise creates a class: the code ABC123 is taken by his first class,
    so the new class gets the next draw, XYZ789. *)
Lemma class_creation_witness_second_draw :
  storeAfter
    (handle (ext := Sample.ext) env store (Some (sign blaise))
       (PostClasses (Some "Algèbre") None))
  = withClass store 2 "Algèbre" None "XYZ789"
  /\ List.length
       (storeCalls
          (handle (ext := Sample.ext) env store (Some (sign blaise))
             (PostClasses (Some "Algèbre") None)))
     = 6%nat.
Proof.
  destruct (class_creation_takes_first_free_code (ext := Sample.ext) env
              store (Some (sign blaise)) blaise "Algèbre" None eq_refl
              (conj eq_refl eq_refl) eq_refl)
    as [Hdraw _]; [discriminate|].
  destruct (Hdraw ["ABC123"] "XYZ789" [] eq_refl) as (_ & Hstore & Hcalls).
  - constructor; [reflexivity | constructor].
  - reflexivity.
  - split; [exact Hstore | exact Hcalls].
Defined.

(** The class codes of the sample school stay distinct when Blaise
    creates a class. *)
Lemma class_codes_witness_creation :
  distinctCodes (ext := Sample.ext)
    (storeAfter
       (handle (ext := Sample.ext) env store (Some (sign blaise))
          (PostClasses (Some "Algèbre") None))).
Proof.
  apply (class_codes_stay_distinct (ext := Sample.ext) env store
           (Some (sign blaise)) (PostClasses (Some "Algèbre") None)).
  unfold distinctCodes. cbn [rows classes store].
  constructor; [constructor | constructor].
Defined.

(** The addresses of the sample school stay distinct when Augusta
    registers. *)
Lemma emails_witness_registration :
  distinctEmails (ext := Sample.ext)
    (storeAfter
       (handle (ext := Sample.ext) env store None
          (PostAuthRegister (Some "Byron") (Some "Augusta")
             (Some "augusta@school.test") (Some "secret")
             (Some "Etudiant")))).
Proof.
  apply (proj1
           (emails_stay_distinct (ext := Sample.ext) env store None
              (PostAuthRegister (Some "Byron") (Some "Augusta")
                 (Some "augusta@school.test") (Some "secret")
                 (Some "Etudiant")))).
  unfold distinctEmails. cbn [rows users store].
  repeat (constructor; try reflexivity).
Defined.

(** Carl, not yet enrolled, joins class 10 by its code; a second join is
    answered 409. *)
Lemma join_witness_carl :
  let before :=
    set_userClasses store (mkTable [UserClasses.mk 1 2 10 "Professeur"] 2) in
  let x :=
    handle (ext := Sample.ext) env before (Some (sign carl))
      (PostClassesJoin (Some "ABC123")) in
  statusOf (outcome x) = Some 200
  /\ rows (userClasses (storeAfter x))
     = [UserClasses.mk 1 2 10 "Professeur"; UserClasses.mk 2 3 10 "Etudiant"]
  /\ answers
       (handle (ext := Sample.ext) env (storeAfter x) (Some (sign carl))
          (PostClassesJoin (Some "ABC123")))
       409 (storeAfter x).
Proof.
  intros before x.
  destruct (join_enrols_once (ext := Sample.ext) env env before
              (Some (sign carl)) carl "ABC123" eq_refl eq_refl
              (conj eq_refl eq_refl) eq_refl)
    as [_ Hjoin]; [discriminate|].
  apply (Hjoin (Classes.mk 10 "Logique" None "ABC123" 2) [] eq_refl).
  intros uc [<- | []] Huser. discriminate Huser.
Defined.

(** Blaise creates a class and Carl joins it with the code it was
    given. *)
Lemma created_class_witness_carl_joins :
  statusOf
    (outcome
       (handle (ext := Sample.ext) env
          (storeAfter
             (handle (ext := Sample.ext) env store (Some (sign blaise))
                (PostClasses (Some "Algèbre") None)))
          (Some (sign carl)) (PostClassesJoin (Some "XYZ789"))))
  = Some 200.
Proof.
  assert (Hnom : "Algèbre" <> EmptyString) by discriminate.
  assert (Hcode : "XYZ789" <> EmptyString) by discriminate.
  assert (Hids : Token.id carl <> Token.id blaise) by discriminate.
  assert (Htaken : Forall
                     (fun c => freeCode (ext := Sample.ext) store c = false)
                     ["ABC123"])
    by (constructor; [reflexivity | constructor]).
  assert (Hnew : forall uc,
             In uc (rows (userClasses store)) ->
             UserClasses.user_id uc = Token.id carl ->
             UserClasses.class_id uc <> auto_inc (classes store))
    by (intros uc [<- | [<- | []]] Huser; discriminate).
  exact (proj1
           (created_class_is_joined_by_its_code (ext := Sample.ext) env env
              store (Some (sign blaise)) (Some (sign carl)) blaise carl
              "Algèbre" None ["ABC123"] "XYZ789" [] eq_refl eq_refl
              (conj eq_refl eq_refl) eq_refl (conj eq_refl eq_refl) eq_refl
              Hids Hnom eq_refl Htaken eq_refl Hcode eq_refl Hnew)).
Defined.

(** Carl's listing of his classes leaves the store as it was. *)
Lemma reading_witness_my_classes :
  storeAfter (handle (ext := Sample.ext) env store (Some (sign carl)) GetClassesMe)
  = store.
Proof.
  apply (reading_changes_nothing (ext := Sample.ext) env store
           (Some (sign carl)) GetClassesMe eq_refl).
Defined.

(** Carl is enrolled in class 10 and reads its tasks; Dana, a Teacher
    with no link to the class, is answered 403. *)
Lemma class_content_witness_carl_and_dana :
  statusOf
    (outcome
       (handle (ext := Sample.ext) env store (Some (sign carl))
          (GetTasksClass 10)))
  = Some 200
  /\ statusOf
       (outcome
          (handle (ext := Sample.ext) env store (Some (sign dana))
             (GetTasksClass 10)))
     = Some 403.
Proof.
  split.
  - destruct (class_content_is_for_the_enrolled_and_the_owner
                (ext := Sample.ext) env store (Some (sign carl)) carl 10
                (GetTasksClass 10) eq_refl (conj eq_refl eq_refl)
                (or_intror (or_intror eq_refl))) as [Hin _].
    apply Hin. left. exists (UserClasses.mk 2 3 10 "Etudiant").
    split; [right; left; reflexivity | split; reflexivity].
  - destruct (class_content_is_for_the_enrolled_and_the_owner
                (ext := Sample.ext) env store (Some (sign dana)) dana 10
                (GetTasksClass 10) eq_refl (conj eq_refl eq_refl)
                (or_intror (or_intror eq_refl))) as [_ Hout].
    apply Hout.
    + intros (uc & Hin & Huser & _).
      destruct Hin as [<- | [<- | []]]; discriminate Huser.
    + intros (c & Hin & _ & Hprof).
      destruct Hin as [<- | []]. discriminate Hprof.
Defined.

(** Ada has no ClassMembers row for class 10: its students are not
    listed to her. *)
Lemma class_members_witness_ada :
  answers
    (handle (ext := Sample.ext) env store (Some (sign ada))
       (GetClassesStudents 10))
    403 store.
Proof.
  destruct (class_members_only_reads (ext := Sample.ext) env store
              (Some (sign ada)) ada 10 (GetClassesStudents 10) eq_refl
              (conj eq_refl eq_refl) (or_intror (or_intror eq_refl)))
    as [_ Hout].
  apply Hout. intros (cm & Hin & Huser & _).
  destruct Hin as [<- | [<- | []]]; discriminate Huser.
Defined.

(** Blaise grades Carl's submission to his task; Dana, who does not own
    the task, may not. *)
Lemma grading_witness_blaise_and_dana :
  statusOf
    (outcome
       (handle (ext := Sample.ext) env store (Some (sign blaise))
          (PutSubmissionsGrade 30 (Given 15) (Given "Bien"))))
  = Some 200
  /\ answers
       (handle (ext := Sample.ext) env store (Some (sign dana))
          (PutSubmissionsGrade 30 (Given 15) (Given "Bien")))
       403 store.
Proof.
  assert (Hsubmission : forall s',
             In s' (rows (submissions store)) ->
             Submissions.id s' = 30 ->
             s' = Submissions.mk 30 20 3 None (Some "v1") 950 None None)
    by (intros s' [<- | []] _; reflexivity).
  assert (Htask : forall t',
             In t' (rows (tasks store)) ->
             Tasks.id t' = 20 ->
             t' = Tasks.mk 20 (Some 10) 2 "Devoir" None 2000 900)
    by (intros t' [<- | []] _; reflexivity).
  split.
  - apply (grading_is_for_the_task_owner (ext := Sample.ext) env store
             (Some (sign blaise)) blaise 30 15 "Bien"
             (Submissions.mk 30 20 3 None (Some "v1") 950 None None)
             (Tasks.mk 20 (Some 10) 2 "Devoir" None 2000 900)
             eq_refl (conj eq_refl eq_refl) eq_refl Hsubmission
             (or_introl eq_refl) eq_refl Htask (or_introl eq_refl) eq_refl).
    reflexivity.
  - apply (grading_is_for_the_task_owner (ext := Sample.ext) env store
             (Some (sign dana)) dana 30 15 "Bien"
             (Submissions.mk 30 20 3 None (Some "v1") 950 None None)
             (Tasks.mk 20 (Some 10) 2 "Devoir" None 2000 900)
             eq_refl (conj eq_refl eq_refl) eq_refl Hsubmission
             (or_introl eq_refl) eq_refl Htask (or_introl eq_refl) eq_refl).
    discriminate.
Defined.

(** Carl is a member of class 10, but his stored role is Etudiant: his
    public message is not accepted and the store is unchanged. *)
Lemma public_message_witness_student :
  statusOf
    (outcome
       (handle (ext := Sample.ext) env store (Some (sign carl))
          (PostMessages None (Some 10) (Some "Bonjour") (Some "public"))))
  <> Some 201
  /\ storeAfter
       (handle (ext := Sample.ext) env store (Some (sign carl))
          (PostMessages None (Some 10) (Some "Bonjour") (Some "public")))
     = store.
Proof.
  destruct (public_message_needs_membership_and_stored_role
              (ext := Sample.ext) env store (Some (sign carl)) carl None 10
              "Bonjour" eq_refl (conj eq_refl eq_refl)) as [_ Hrefused].
  apply Hrefused.
  intros p [<- | [<- | [<- | [<- | []]]]] Hid;
    try discriminate Hid; split; discriminate.
Defined.

(** Blaise has written to Carl.  Carl's inbox lists the message; Dana's
    does not. *)
Lemma private_inbox_witness_carl_and_dana :
  let letter := Messages.mk 1 2 (Some 3) None "Bravo" "private" 990 in
  let st := set_messages store (mkTable [letter] 2) in
  (exists listed,
      outcome (handle (ext := Sample.ext) env st (Some (sign carl))
                 GetMessagesPrivateMe)
      = Responded
          (mkResponse 200
             (JArr (map privateMessageJson listed)))
      /\ exists r,
          In (letter,
              Users.mk 2 "Pascal" "Blaise" "blaise@school.test" "s$b"
                "Professeur", r) listed)
  /\ (exists listed,
         outcome (handle (ext := Sample.ext) env st (Some (sign dana))
                    GetMessagesPrivateMe)
         = Responded
             (mkResponse 200
                (JArr (map privateMessageJson listed)))
         /\ forall s r, ~ In (letter, s, r) listed).
Proof.
  intros letter st. split.
  - destruct (private_inbox_is_private (ext := Sample.ext) env st
                (Some (sign carl)) carl eq_refl (conj eq_refl eq_refl))
      as (listed & Hout & _ & Hall).
    exists listed. split; [exact Hout|].
    apply Hall.
    + left. reflexivity.
    + reflexivity.
    + right. reflexivity.
    + right. left. reflexivity.
    + reflexivity.
  - destruct (private_inbox_is_private (ext := Sample.ext) env st
                (Some (sign dana)) dana eq_refl (conj eq_refl eq_refl))
      as (listed & Hout & Honly & _).
    exists listed. split; [exact Hout|].
    intros s r Hin. destruct (Honly letter s r Hin) as (_ & _ & Hmine & _).
    destruct Hmine as [Hmine | Hmine]; discriminate Hmine.
Defined.

(** Dana does not own class 10: her announcement is not accepted. *)
Lemma posting_witness_dana :
  statusOf
    (outcome
       (handle (ext := Sample.ext) env store (Some (sign dana))
          (PostAnnouncements (Some 10) (Some "Avis") (Some "Texte"))))
  <> Some 201
  /\ storeAfter
       (handle (ext := Sample.ext) env store (Some (sign dana))
          (PostAnnouncements (Some 10) (Some "Avis") (Some "Texte")))
     = store.
Proof.
  destruct (class_content_is_posted_by_the_owner (ext := Sample.ext) env
              store (Some (sign dana)) dana 10 (Some "Avis") (Some "Texte")
              None None None
              (PostAnnouncements (Some 10) (Some "Avis") (Some "Texte"))
              eq_refl (conj eq_refl eq_refl) eq_refl (or_introl eq_refl))
    as [_ Hrefused].
  apply Hrefused. intros (c & Hin & _ & Hprof).
  destruct Hin as [<- | []]. discriminate Hprof.
Defined.

(** Blaise posts an announcement in class 10 and Carl finds it in the
    listing. *)
Lemma announcement_witness_blaise_to_carl :
  exists listed,
    outcome
      (handle (ext := Sample.ext) env
         (storeAfter
            (handle (ext := Sample.ext) env store (Some (sign blaise))
               (PostAnnouncements (Some 10) (Some "Avis") (Some "Texte"))))
         (Some (sign carl)) (GetAnnouncements 10))
    = Responded (mkResponse 200 (JArr (map announcementJson listed)))
    /\ In (Announcements.mk 1 (Some 10) 2 "Avis" "Texte" 1000,
           Users.mk 2 "Pascal" "Blaise" "blaise@school.test" "s$b"
             "Professeur") listed.
Proof.
  assert (Hcid : 10 <> 0) by discriminate.
  assert (Htitre : "Avis" <> EmptyString) by discriminate.
  assert (Hcontenu : "Texte" <> EmptyString) by discriminate.
  assert (Howns : owns store (Token.id blaise) 10).
  { exists (Classes.mk 10 "Logique" None "ABC123" 2).
    split; [left; reflexivity | split; reflexivity]. }
  assert (Hreader : enrolled store (Token.id carl) 10
                    \/ owns store (Token.id carl) 10).
  { left. exists (UserClasses.mk 2 3 10 "Etudiant").
    split; [right; left; reflexivity | split; reflexivity]. }
  exact (posted_announcement_is_listed (ext := Sample.ext) env store
           (Some (sign blaise)) (Some (sign carl)) blaise carl 10 "Avis"
           "Texte"
           (Users.mk 2 "Pascal" "Blaise" "blaise@school.test" "s$b"
              "Professeur")
           eq_refl (conj eq_refl eq_refl) eq_refl Hcid Htitre Hcontenu Howns
           (or_intror (or_introl eq_refl)) eq_refl (conj eq_refl eq_refl)
           Hreader).
Defined.

(** Carl is marked as the coordinator of group 50 and Dana is not: the
    guard lets Carl's request through to the next handler and answers
    Dana's 403. *)
Lemma group_guard_witness_carl_and_dana :
  let st :=
    mkStore (users store) (classes store) (userClasses store)
      (classMembers store) (announcements store) (documentations store)
      (tasks store) (submissions store) (messages store) (projets store)
      (groupes store) (membresGroupe store)
      (mkTable [GroupMembers.mk 50 3 true] 2) in
  let next := fun _ : Request => send 200 (message "ok") in
  outcome
    (serve
       (checkIsGroupCoordinator 50
          (mkRequest (Some (sign carl)) (Some carl) GetRoot) next)
       env st)
  = Responded (mkResponse 200 (message "ok"))
  /\ statusOf
       (outcome
          (serve
             (checkIsGroupCoordinator 50
                (mkRequest (Some (sign dana)) (Some dana) GetRoot) next)
             env st))
     = Some 403.
Proof.
  intros st next. split.
  - destruct (group_coordinator_guard env st 50
                (mkRequest (Some (sign carl)) (Some carl) GetRoot) next
                eq_refl) as (_ & _ & Hpass).
    assert (Hid : Token.id carl <> 0) by discriminate.
    unfold serve. rewrite (Hpass carl eq_refl Hid eq_refl). reflexivity.
  - destruct (group_coordinator_guard env st 50
                (mkRequest (Some (sign dana)) (Some dana) GetRoot) next
                eq_refl) as (_ & Hrefuse & _).
    assert (Hid : Token.id dana <> 0) by discriminate.
    rewrite (Hrefuse dana eq_refl Hid eq_refl). reflexivity.
Defined.

(** Ada deletes Blaise's account: the school still has a Coordinator. *)
Lemma deleting_witness_ada_deletes_blaise :
  hasCoordinator
    (storeAfter
       (handle (ext := Sample.ext) env store (Some (sign ada))
          (DeleteUsers 2))).
Proof.
  apply (deleting_keeps_a_coordinator (ext := Sample.ext) env store
           (Some (sign ada)) 2).
  - unfold keyIds. cbn [map rows users store Users.id].
    repeat constructor; cbn [In]; intuition discriminate.
  - intros p [<- | [<- | [<- | [<- | []]]]]; split; intros H;
      first [reflexivity | discriminate H].
  - exists (Users.mk 1 "Lovelace" "Ada" "ada@school.test" "s$a"
              "Coordinateur").
    split; [left; reflexivity | reflexivity].
Defined.

(** Ada makes Carl a Teacher; at his next login Carl's token carries the
    role Professeur. *)
Lemma role_change_witness_carl :
  outcome
    (handle (ext := Sample.ext) env
       (storeAfter
          (handle (ext := Sample.ext) env store (Some (sign ada))
             (PutUsersRole 3 (Some "Professeur"))))
       None (PostAuthLogin (Some "carl@school.test") (Some "c")))
  = Responded
      (loggedIn (ext := Sample.ext)
         (Users.mk 3 "Gauss" "Carl" "carl@school.test" "s$c" "Professeur")).
Proof.
  assert (Hother : 3 <> Token.id ada) by discriminate.
  assert (Hemail : "carl@school.test" <> EmptyString) by discriminate.
  assert (Hpassword : "c" <> EmptyString) by discriminate.
  exact (role_change_shows_at_next_login (ext := Sample.ext) env env store
           (Some (sign ada)) None ada 3 "Professeur" "carl@school.test" "c"
           (Users.mk 3 "Gauss" "Carl" "carl@school.test" "s$c" "Etudiant") []
           eq_refl eq_refl (conj eq_refl eq_refl) eq_refl
           (or_intror (or_introl eq_refl)) Hother Hemail Hpassword eq_refl
           eq_refl eq_refl).
Defined.

(** Blaise creates a second class and Carl joins it with its code: the
    students of that class are still not listed to Carl. *)
Lemma member_routes_witness_carl_after_joining :
  let requests :=
    [(env, Some (sign blaise), PostClasses (Some "Algèbre") None);
     (env, Some (sign carl), PostClassesJoin (Some "XYZ789"))] in
  enrolled (afterAll (ext := Sample.ext) store requests) 3 11
  /\ answers
       (handle (ext := Sample.ext) env
          (afterAll (ext := Sample.ext) store requests) (Some (sign carl))
          (GetClassesStudents 11))
       403 (afterAll (ext := Sample.ext) store requests).
Proof.
  intros requests. split.
  - exists (UserClasses.mk 4 3 11 "Etudiant").
    split; [right; right; right; left; reflexivity | split; reflexivity].
  - apply (member_routes_stay_closed (ext := Sample.ext) requests env store
             (Some (sign carl)) carl 11 (GetClassesStudents 11) eq_refl
             (conj eq_refl eq_refl) (or_intror (or_intror eq_refl))).
    intros (cm & Hin & _ & Hclass).
    destruct Hin as [<- | [<- | []]]; discriminate Hclass.
Defined.

(** Group 50 has no member yet.  Blaise adds Carl, a student of
    class 10. *)
Lemma group_member_witness_blaise_adds_carl :
  let st := set_membresGroupe store (mkTable [] 1) in
  exists uid g p c others student,
    Some 3 = Some uid
    /\ groupInfoOf 50 st = (g, p, c) :: others
    /\ In student (rows (users st))
    /\ Users.id student = uid
    /\ Users.role student = "Etudiant"
    /\ enrolledIn st uid (Projets.class_id p)
    /\ (forall mg, In mg (rows (membresGroupe st)) ->
                   MembresGroupe.group_id mg = 50 ->
                   MembresGroupe.user_id mg <> Some uid)
    /\ storeAfter
         (handle (ext := Sample.ext) env st (Some (sign blaise))
            (PostGroupsMembers 50 (Some 3)))
       = set_membresGroupe st
           (insert (membresGroupe st)
              (fun _ => MembresGroupe.mk 50 (Some uid))).
Proof.
  intros st.
  apply (group_member_is_a_student_of_the_class (ext := Sample.ext) env st
           (Some (sign blaise)) blaise 50 (Some 3) (conj eq_refl eq_refl)).
  reflexivity.
Defined.

(** Blaise removes Carl from group 50 right after adding him. *)
Lemma added_member_witness_blaise_removes_carl :
  let st := set_membresGroupe store (mkTable [] 1) in
  let x :=
    handle (ext := Sample.ext) env st (Some (sign blaise))
      (PostGroupsMembers 50 (Some 3)) in
  let y :=
    handle (ext := Sample.ext) env (storeAfter x) (Some (sign blaise))
      (DeleteGroupsMembers 50 3) in
  statusOf (outcome y) = Some 200
  /\ rows (membresGroupe (storeAfter y)) = rows (membresGroupe st).
Proof.
  intros st x y.
  apply (added_member_can_be_removed (ext := Sample.ext) env env st
           (Some (sign blaise)) blaise 50 3 eq_refl (conj eq_refl eq_refl)).
  reflexivity.
Defined.

(** Carl, a member of class 10, lists the groups of project 40: the one
    group, with one query for its members. *)
Lemma groups_witness_carl :
  exists groups,
    Permutation groups [Groupes.mk 50 (Some 40) (Some "Equipe") None]
    /\ storeCalls
         (handle (ext := Sample.ext) env store (Some (sign carl))
            (GetGroupsProject 40))
       = [Connect;
          Execute "SELECT P.class_id FROM Projets P WHERE P.id = ?";
          Execute
            "SELECT * FROM ClassMembers WHERE class_id = ? AND user_id = ?";
          Execute
            "SELECT G.id, G.nom_groupe, G.description FROM Groupes G WHERE G.projet_id = ? ORDER BY G.nom_groupe"]
         ++ map
              (fun _ =>
                 Execute
                   "SELECT U.id, U.prenom, U.nom, U.role FROM MembresGroupe MG JOIN Users U ON MG.user_id = U.id WHERE MG.group_id = ?")
              groups
         ++ [EndConnection].
Proof.
  assert (Hmember : enrolledIn store (Token.id carl) (Some 10)).
  { exists (ClassMembers.mk 10 3).
    split; [right; left; reflexivity | split; reflexivity]. }
  destruct (groups_are_listed_one_query_each (ext := Sample.ext) env store
              (Some (sign carl)) carl 40
              (Projets.mk 40 (Some 10) (Some "Projet") None None None None) []
              eq_refl (conj eq_refl eq_refl) eq_refl Hmember)
    as (groups & Hperm & Hrun).
  exists groups. split; [exact Hperm|].
  rewrite Hrun. reflexivity.
Defined.

(** Blaise is listed the submission to his task 20, with Carl's row;
    Dana is answered 403. *)
Lemma task_submissions_witness_blaise_and_dana :
  (exists listed,
      outcome
        (handle (ext := Sample.ext) env store (Some (sign blaise))
           (GetTasksSubmissions 20))
      = Responded (mkResponse 200 (JArr (map taskSubmissionJson listed)))
      /\ In (Submissions.mk 30 20 3 None (Some "v1") 950 None None,
             Users.mk 3 "Gauss" "Carl" "carl@school.test" "s$c" "Etudiant")
           listed)
  /\ answers
       (handle (ext := Sample.ext) env store (Some (sign dana))
          (GetTasksSubmissions 20))
       403 store.
Proof.
  split.
  - destruct (task_submissions_are_for_the_task_owner (ext := Sample.ext) env
                store (Some (sign blaise)) blaise 20 eq_refl
                (conj eq_refl eq_refl) eq_refl) as [Howner _].
    destruct Howner as (listed & Hout & Hlisted).
    + exists (Tasks.mk 20 (Some 10) 2 "Devoir" None 2000 900).
      split; [left; reflexivity | split; reflexivity].
    + exists listed. split; [exact Hout|]. apply Hlisted.
      split; [left; reflexivity|]. split; [reflexivity|].
      split; [right; right; left; reflexivity | reflexivity].
  - destruct (task_submissions_are_for_the_task_owner (ext := Sample.ext) env
                store (Some (sign dana)) dana 20 eq_refl
                (conj eq_refl eq_refl) eq_refl) as [_ Hother].
    apply Hother. intros (t & Hin & _ & Hprof).
    destruct Hin as [<- | []]. discriminate Hprof.
Defined.

(** Carl is listed his submission to task 20 of class 10. *)
Lemma my_submissions_witness_carl :
  exists listed,
    outcome
      (handle (ext := Sample.ext) env store (Some (sign carl))
         GetUsersMeSubmissions)
    = Responded (mkResponse 200 (JArr (map mySubmissionJson listed)))
    /\ In (Submissions.mk 30 20 3 None (Some "v1") 950 None None,
           Tasks.mk 20 (Some 10) 2 "Devoir" None 2000 900,
           Classes.mk 10 "Logique" None "ABC123" 2) listed.
Proof.
  destruct (my_submissions_are_mine (ext := Sample.ext) env store
              (Some (sign carl)) carl eq_refl (conj eq_refl eq_refl) eq_refl)
    as (listed & Hrun & Hlisted).
  exists listed. split; [rewrite Hrun; reflexivity|].
  apply Hlisted.
  split; [left; reflexivity|]. split; [reflexivity|].
  split; [left; reflexivity|]. split; [reflexivity|].
  split; [left; reflexivity | reflexivity].
Defined.
